(** * Balansea: the rebalancing decision engine

    A shallow embedding of the portfolio rebalancing code of the Balansea
    backend (TypeScript) and the properties its specification states about it.

    Numbers.  A JavaScript [number] is an IEEE-754 double.  Every finite double
    is a rational, and comparisons of doubles are comparisons of those
    rationals.  Two computations of the source depend on the last bit of a
    double and are modelled in binary64, with [Js.double] rounding each result
    to the nearest double: the quotient whose digits [toFixed] prints when a
    USD amount is converted to token units, and the sum of target fractions
    that the request schemas, the portfolio service and the hook of the
    [Allocation] model compare with the tolerance 0.001 or with 1.  The
    accounting of portfolio values (totals, target values, surpluses,
    deficits, percentages) and the total shown by the allocation editor are
    read over exact rationals [Q], which the doubles of the source follow up
    to rounding.  A quotient whose divisor is zero is not a finite number
    in JavaScript; it is kept apart as [NotFinite].  Concrete inputs used below
    are doubles themselves (small integers and dyadic fractions), or are
    written [Js.double q] for the double a decimal literal [q] denotes. *)

From Stdlib Require Import List String Ascii ZArith QArith Qabs Qround Qpower.
From Stdlib Require Import Bool Arith Lia Lqa Permutation Sorted.
From Stdlib Require Import DecimalString.
Import ListNotations.

Set Implicit Arguments.

(* ================================================================== *)
(** ** JavaScript values, exceptions and library calls *)
(* ================================================================== *)

Module Js.

(** A thrown value.  The source only throws [Error] objects itself; the
    runtime adds [TypeError] and [RangeError], Mongoose its [CastError] and
    [ValidationError]. *)
Inductive Exception : Type :=
| TypeError (message : string)
| RangeError (message : string)
| CastError (message : string)
| ValidationError (message : string)
| Error (message : string).

Definition message (e : Exception) : string :=
  match e with
  | TypeError m | RangeError m | CastError m | ValidationError m | Error m => m
  end.

(** A computation that returns or throws. *)
Inductive Result (A : Type) : Type :=
| Ok (value : A)
| Throw (e : Exception).
Arguments Ok {A} value.
Arguments Throw {A} e.

Definition bind {A B} (r : Result A) (k : A -> Result B) : Result B :=
  match r with
  | Ok a => k a
  | Throw e => Throw e
  end.

Definition returns {A} (r : Result A) : bool :=
  match r with Ok _ => true | Throw _ => false end.

(** *** Comparisons and [Math] on finite numbers *)

Definition gt (a b : Q) : bool := negb (Qle_bool a b).   (* a > b *)
Definition lt (a b : Q) : bool := negb (Qle_bool b a).   (* a < b *)
Definition strictEq (a b : Q) : bool := Qeq_bool a b.    (* a === b *)

Definition Math_abs (a : Q) : Q := Qabs a.
Definition Math_min (a b : Q) : Q := if Qle_bool a b then a else b.

(** [xs.reduce((sum, x) => sum + f(x), 0)] *)
Definition sumOf {A} (f : A -> Q) (xs : list A) : Q :=
  fold_left (fun sum x => sum + f x) xs 0.

(** *** Numbers that may fail to be finite *)

Inductive number : Type :=
| Finite (q : Q)
| NotFinite.            (* Infinity, -Infinity or NaN *)

(** [a / b], over the rationals *)
Definition div (a b : Q) : number :=
  if Qeq_bool b 0 then NotFinite else Finite (a / b).

(** *** Binary64

    [double q] is the double nearest to the rational [q]: 53 significant
    bits, ties to the even mantissa, gradual underflow under [2^-1022]. *)

Definition pow2 (e : Z) : Q := Qpower 2 e.

(** The exponent [e] with [2^e <= |q| < 2^(e+1)], for [q] other than zero:
    the difference of the bit lengths of numerator and denominator, or one
    less. *)
Definition exponent (q : Q) : Z :=
  let e := (Z.log2 (Z.abs (Qnum q)) - Z.log2 (Zpos (Qden q)))%Z in
  if Qle_bool (pow2 e) (Qabs q) then e else (e - 1)%Z.

(** The integer nearest to [x], the even one of two. *)
Definition roundHalfEven (x : Q) : Z :=
  let f := Qfloor x in
  match Qcompare (x - inject_Z f) (1 # 2) with
  | Lt => f
  | Gt => (f + 1)%Z
  | Eq => if Z.even f then f else (f + 1)%Z
  end.

(** The distance between the doubles around [q]. *)
Definition ulp (q : Q) : Q := pow2 (Z.max (exponent q) (-1022) - 52).

Definition double (q : Q) : Q :=
  if Qeq_bool q 0 then 0 else Qred (inject_Z (roundHalfEven (q / ulp q)) * ulp q).

(** A rounded result as a number: [Infinity] from [2^1024] on. *)
Definition rounded (q : Q) : number :=
  let r := double q in
  if Qle_bool (pow2 1024) (Qabs r) then NotFinite else Finite r.

(** [a / b] as the double it is. *)
Definition fdiv (a b : Q) : number :=
  if Qeq_bool b 0 then NotFinite else rounded (a / b).

(** [a + b] and [a - b] as the doubles they are, on fractions and their sums,
    which stay far from the overflow range. *)
Definition fadd (a b : Q) : Q := double (a + b).
Definition fsub (a b : Q) : Q := double (a - b).

(** [xs.reduce((sum, x) => sum + f(x), 0)], every addition rounded. *)
Definition fsum {A} (f : A -> Q) (xs : list A) : Q :=
  fold_left (fun sum x => fadd sum (f x)) xs 0.

(** *** [Number.prototype.toFixed] and ethers' [parseUnits]

    [toFixed] prints a decimal numeral.  The numeral is kept as its digits
    without the point ([mantissa]) and the number of digits after the point;
    the other outputs ("Infinity", "NaN", exponent notation from 1e21 on)
    are not decimal numerals. *)

Inductive FixedString : Type :=
| Numeral (mantissa : Z) (fractionDigits : nat)   (* mantissa / 10^fractionDigits *)
| NotNumeral.

Definition pow10 (n : nat) : Z := (10 ^ Z.of_nat n)%Z.

(** For [0 <= x < 1e21]: the integer [n] with [n / 10^f - x] closest to zero,
    the larger one if there are two. *)
Definition nearest (x : Q) (f : nat) : Z :=
  Qfloor (x * inject_Z (pow10 f) + (1 # 2)).

Definition toFixed (x : number) (fractionDigits : nat) : Result FixedString :=
  if (100 <? fractionDigits)%nat
  then Throw (RangeError "toFixed() digits argument must be between 0 and 100")
  else match x with
       | NotFinite => Ok NotNumeral
       | Finite q =>
           if Qle_bool (inject_Z (pow10 21)) (Qabs q) then Ok NotNumeral
           else if lt q 0
                then Ok (Numeral (- nearest (- q) fractionDigits) fractionDigits)
                else Ok (Numeral (nearest q fractionDigits) fractionDigits)
       end.

(** [ethers.utils.parseUnits(value, decimals)]: the numeral scaled by
    [10^decimals], an integer; refused when the text is not a decimal numeral
    or has more significant fraction digits than [decimals]. *)
Definition parseUnits (value : FixedString) (decimals : nat) : Result Z :=
  match value with
  | NotNumeral => Throw (Error "invalid decimal value")
  | Numeral m f =>
      if (f <=? decimals)%nat
      then Ok (m * pow10 (decimals - f))%Z
      else if (m mod pow10 (f - decimals) =? 0)%Z
           then Ok (m / pow10 (f - decimals))%Z
           else Throw (Error "fractional component exceeds decimals")
  end.

(** *** [Array.prototype.find] and [Array.prototype.sort]

    [sort] is stable; with a comparator [cmp a b = key b - key a] it orders
    by [key], largest first, keeping the input order among equal keys. *)

Fixpoint insertDesc {A} (key : A -> Q) (x : A) (l : list A) : list A :=
  match l with
  | [] => [x]
  | y :: l' => if Qle_bool (key y) (key x) then x :: l
               else y :: insertDesc key x l'
  end.

Definition sortDesc {A} (key : A -> Q) (l : list A) : list A :=
  fold_right (insertDesc key) [] l.

(** Decimal text of an index, as a template literal prints it. *)
Definition ofNat (n : nat) : string := NilEmpty.string_of_uint (Nat.to_uint n).

End Js.

Declare Scope js_scope.
Notation "x <- c1 ;; c2" := (Js.bind c1 (fun x => c2))
  (at level 61, c1 at next level, right associativity) : js_scope.
Open Scope js_scope.
Open Scope Q_scope.
Open Scope string_scope.

(* ================================================================== *)
(** ** portfolioMonitoring/utils/balanceUtils.ts *)
(* ================================================================== *)

Module BalanceUtils.

Record Asset : Type := {
  symbol : string;
  address : string;
  decimals : nat;
}.

Record CurrentBalance : Type := {
  cb_symbol : string;
  balance : Z;             (* smallest unit, printed as a string in the source *)
  balanceFormatted : Q;
  usd : Q;
  priceUSD : Q;
}.

(** The record [calculateRebalanceSwaps] consumes.  [currentPriceUSD] is read
    there ("already calculated in balanceUtils") but is no field of the
    interface, and [calculateCurrentAllocations] does not set it: [None] is
    the property being undefined. *)
Record PortfolioAllocation : Type := {
  asset : Asset;
  targetPercentage : Q;
  currentPercentage : Q;
  currentValueUSD : Q;
  currentBalance : Z;
  gap : Q;                 (* current minus target percentage *)
  needsRebalance : bool;
  currentPriceUSD : option Q;
}.

(** An [Allocation] document with its asset populated. *)
Record AllocationDoc : Type := {
  assetId : Asset;
  doc_targetPercentage : Q;
}.

(** The portfolio fields the monitoring code reads. *)
Record Portfolio : Type := {
  isActive : bool;
  ethAddress : string;
  publicKey : string;              (* pkpInfo.publicKey; empty when absent *)
  rebalanceThreshold : option Q;   (* [None]: undefined *)
  rebalanceType : string;
}.

(** The body of the loop of [calculateCurrentAllocations] for one allocation. *)
Definition allocationOf (balances : list CurrentBalance) (totalValueUSD : Q)
    (allocation : AllocationDoc) : PortfolioAllocation :=
  let asset := assetId allocation in
  match find (fun b => String.eqb (cb_symbol b) (symbol asset)) balances with
  | None =>
      {| asset := asset;
         targetPercentage := doc_targetPercentage allocation;
         currentPercentage := 0;
         currentValueUSD := 0;
         currentBalance := 0%Z;
         gap := doc_targetPercentage allocation;
         needsRebalance := true;
         currentPriceUSD := None |}
  | Some balance =>
      let currentPercentage := usd balance / totalValueUSD in
      let gap := currentPercentage - doc_targetPercentage allocation in
      let needsRebalance := Js.gt (Js.Math_abs gap) (1 # 1000) in   (* 0.1% tolerance *)
      {| asset := asset;
         targetPercentage := doc_targetPercentage allocation;
         currentPercentage := currentPercentage;
         currentValueUSD := usd balance;
         currentBalance := BalanceUtils.balance balance;
         gap := gap;
         needsRebalance := needsRebalance;
         currentPriceUSD := None |}
  end.

(** [calculateCurrentAllocations], given what its reads return: the balances
    of [getCurrentBalances], the portfolio document and its allocations. *)
Definition calculateCurrentAllocations (balances : list CurrentBalance)
    (portfolio : option Portfolio) (allocations : list AllocationDoc)
    : Js.Result (list PortfolioAllocation) :=
  let totalValueUSD := Js.sumOf usd balances in
  if Js.strictEq totalValueUSD 0 then Js.Ok []
  else match portfolio with
       | None => Js.Throw (Js.Error "Portfolio not found")
       | Some _ => Js.Ok (map (allocationOf balances totalValueUSD) allocations)
       end.

End BalanceUtils.

(* ================================================================== *)
(** ** portfolioMonitoring/utils/rebalanceUtils.ts *)
(* ================================================================== *)

Module RebalanceUtils.
Import BalanceUtils.

Record SwapOperation : Type := {
  tokenInSymbol : string;
  tokenOutSymbol : string;
  tokenInAddress : string;
  tokenOutAddress : string;
  tokenInDecimals : nat;
  tokenOutDecimals : nat;
  amountInUSD : Q;
  amountInTokens : Z;      (* smallest unit, printed as a string in the source *)
  amountOutTokens : Z;
  swap_gap : Q;            (* field [gap]: priority for ordering swaps *)
}.

Record RebalancePlan : Type := {
  swaps : list SwapOperation;
  totalValueUSD : Q;
  isRebalanceNeeded : bool;
}.

(** An element of [targetValuesUSD]. *)
Record TargetValue : Type := {
  tv_symbol : string;
  targetValueUSD : Q;
  tv_currentValueUSD : Q;
  tv_gap : Q;
  tv_asset : Asset;
}.

(** An element of [assetsToBuy] or [assetsToSell]: [{ ...asset, difference }]. *)
Record Trade : Type := {
  base : TargetValue;
  difference : Q;
}.

Definition targetValuesUSD (allocations : list PortfolioAllocation) (totalValueUSD : Q)
    : list TargetValue :=
  map (fun alloc =>
         {| tv_symbol := symbol (asset alloc);
            targetValueUSD := totalValueUSD * targetPercentage alloc;
            tv_currentValueUSD := currentValueUSD alloc;
            tv_gap := gap alloc;
            tv_asset := asset alloc |})
      allocations.

Definition differenceOf (a : TargetValue) : Q :=
  targetValueUSD a - tv_currentValueUSD a.

(** The two lists filled by the partition loop, in the order of the input. *)
Definition assetsToBuy (tvs : list TargetValue) : list Trade :=
  flat_map (fun a => if Js.gt (differenceOf a) 0
                     then [ {| base := a; difference := differenceOf a |} ]
                     else [])
           tvs.

Definition assetsToSell (tvs : list TargetValue) : list Trade :=
  flat_map (fun a => if Js.gt (differenceOf a) 0 then []
                     else if Js.lt (differenceOf a) 0
                          then [ {| base := a; difference := Js.Math_abs (differenceOf a) |} ]
                          else [])
           tvs.

(** [assetsToSell.reduce((max, asset) => asset.difference > max.difference ? asset : max)].
    The result is an element of the array itself (the loop assigns to its
    [difference]), so the position is returned with it.  Without an initial
    value [reduce] throws on an empty array. *)
Fixpoint reduceFrom (max : nat * Trade) (i : nat) (l : list Trade) : nat * Trade :=
  match l with
  | [] => max
  | a :: rest =>
      reduceFrom (if Js.gt (difference a) (difference (snd max)) then (i, a) else max)
                 (S i) rest
  end.

Definition reduceMax (l : list Trade) : Js.Result (nat * Trade) :=
  match l with
  | [] => Js.Throw (Js.TypeError "Reduce of empty array with no initial value")
  | a :: rest => Js.Ok (reduceFrom (0%nat, a) 1 rest)
  end.

(** [l[i].difference -= amount] *)
Fixpoint subtractAt (i : nat) (amount : Q) (l : list Trade) : list Trade :=
  match l, i with
  | [], _ => []
  | a :: rest, O => {| base := base a; difference := difference a - amount |} :: rest
  | a :: rest, S j => a :: subtractAt j amount rest
  end.

Definition findAllocation (allocations : list PortfolioAllocation) (sym : string)
    : option PortfolioAllocation :=
  find (fun a => String.eqb (symbol (asset a)) sym) allocations.

(** [price.toFixed(2)] in the log line that follows the two price reads: a
    [TypeError] on a price that is undefined; the price itself otherwise. *)
Definition logged (price : option Q) : Js.Result Q :=
  match price with
  | Some p => Js.Ok p
  | None => Js.Throw (Js.TypeError "Cannot read properties of undefined (reading 'toFixed')")
  end.

(** State of the loop over [assetsToBuy]: the array [assetsToSell] with its
    updated differences, and [swaps]. *)
Definition LoopState : Type := (list Trade * list SwapOperation)%type.

(** One iteration of [for (const buyAsset of assetsToBuy)]. *)
Definition buyStep (allocations : list PortfolioAllocation) (buyAsset : Trade)
    (st : LoopState) : Js.Result LoopState :=
  let '(toSell, swaps) := st in
  found <- reduceMax toSell ;;
  let '(i, sellAsset) := found in
  if Js.gt (difference sellAsset) (1 # 100) then
    let sellAmountUSD := Js.Math_min (difference sellAsset) (difference buyAsset) in
    match findAllocation allocations (tv_symbol (base sellAsset)),
          findAllocation allocations (tv_symbol (base buyAsset)) with
    | Some sellAssetAllocation, Some buyAssetAllocation =>
        sellAssetPriceUSD <- logged (currentPriceUSD sellAssetAllocation) ;;
        buyAssetPriceUSD <- logged (currentPriceUSD buyAssetAllocation) ;;
        let sellDecimals := decimals (tv_asset (base sellAsset)) in
        let buyDecimals := decimals (tv_asset (base buyAsset)) in
        inText <- Js.toFixed (Js.fdiv sellAmountUSD sellAssetPriceUSD) sellDecimals ;;
        amountInTokens <- Js.parseUnits inText sellDecimals ;;
        outText <- Js.toFixed (Js.fdiv sellAmountUSD buyAssetPriceUSD) buyDecimals ;;
        amountOutTokens <- Js.parseUnits outText buyDecimals ;;
        let swap :=
          {| tokenInSymbol := tv_symbol (base sellAsset);
             tokenOutSymbol := tv_symbol (base buyAsset);
             tokenInAddress := address (tv_asset (base sellAsset));
             tokenOutAddress := address (tv_asset (base buyAsset));
             tokenInDecimals := sellDecimals;
             tokenOutDecimals := buyDecimals;
             amountInUSD := sellAmountUSD;
             amountInTokens := amountInTokens;
             amountOutTokens := amountOutTokens;
             swap_gap := Js.Math_abs (tv_gap (base sellAsset))
                         + Js.Math_abs (tv_gap (base buyAsset)) |} in
        Js.Ok (subtractAt i sellAmountUSD toSell, (swaps ++ [swap])%list)
    | _, _ => Js.Ok st          (* continue *)
    end
  else Js.Ok st.

Fixpoint buyLoop (allocations : list PortfolioAllocation) (toBuy : list Trade)
    (st : LoopState) : Js.Result LoopState :=
  match toBuy with
  | [] => Js.Ok st
  | buyAsset :: rest =>
      st' <- buyStep allocations buyAsset st ;;
      buyLoop allocations rest st'
  end.

(** The swaps in the order the loop pushes them, before the final sort. *)
Definition emittedSwaps (allocations : list PortfolioAllocation) (totalValueUSD : Q)
    : Js.Result (list SwapOperation) :=
  let tvs := targetValuesUSD allocations totalValueUSD in
  st <- buyLoop allocations (assetsToBuy tvs) (assetsToSell tvs, []) ;;
  Js.Ok (snd st).

(** [calculateRebalanceSwaps(allocations, tolerance = 0.001)].  The body never
    reads [tolerance], which is therefore no argument here: the assets taken
    into account are those flagged [needsRebalance] by the caller. *)
Definition calculateRebalanceSwaps (allocations : list PortfolioAllocation)
    : Js.Result RebalancePlan :=
  let totalValueUSD := Js.sumOf currentValueUSD allocations in
  if Js.strictEq totalValueUSD 0 then
    Js.Ok {| swaps := []; totalValueUSD := 0; isRebalanceNeeded := false |}
  else
    let assetsNeedingRebalance := filter needsRebalance allocations in
    if (List.length assetsNeedingRebalance =? 0)%nat then
      Js.Ok {| swaps := []; totalValueUSD := totalValueUSD; isRebalanceNeeded := false |}
    else
      emitted <- emittedSwaps allocations totalValueUSD ;;
      let swaps := Js.sortDesc swap_gap emitted in
      Js.Ok {| swaps := swaps;
               totalValueUSD := totalValueUSD;
               isRebalanceNeeded := (0 <? List.length swaps)%nat |}.

(** The object [calculateTokenAmounts] returns. *)
Record TokenAmounts : Type := {
  amountTokens : Z;
  amountFormatted : Js.number;
}.

Definition calculateTokenAmounts (usdAmount tokenPrice : Q) (decimals : nat)
    : Js.Result TokenAmounts :=
  let amountFormatted := Js.fdiv usdAmount tokenPrice in
  text <- Js.toFixed amountFormatted decimals ;;
  amountTokens <- Js.parseUnits text decimals ;;
  Js.Ok {| amountTokens := amountTokens; amountFormatted := amountFormatted |}.

Definition validateSwapOperation (swap : SwapOperation) : bool :=
  let minAmountUSD := 1 # 100 in
  if Js.lt (amountInUSD swap) minAmountUSD then false
  else if String.eqb (tokenInAddress swap) (tokenOutAddress swap) then false
  else true.

End RebalanceUtils.

(* ================================================================== *)
(** ** services/rebalanceService.ts *)
(* ================================================================== *)

Module RebalanceService.

Record DeviationResult : Type := {
  assetSymbol : string;
  targetPercentage : Q;
  currentPercentage : Q;
  deviation : Q;
  needsRebalance : bool;
  currentValueUSD : Q;
  targetValueUSD : Q;
}.

Record SwapOperation : Type := {
  fromAsset : string;
  toAsset : string;
  amount : Js.number;
  expectedAmount : Q;      (* the USD amount of the swap *)
  reason : string;
}.

Record RebalancePlan : Type := {
  portfolioId : string;
  totalValueUSD : Q;
  deviations : list DeviationResult;
  plan_needsRebalance : bool;
  swaps : list SwapOperation;
}.

(** What [BalanceService.getPortfolioBalances] returns. *)
Record BalanceInfo : Type := {
  bi_assetSymbol : string;
  valueUSD : Q;
}.

Record PortfolioBalance : Type := {
  pb_totalValueUSD : Q;
  balances : list BalanceInfo;
}.

(** [x || d] on a number that may be undefined: zero is falsy too. *)
Definition orDefault (x : option Q) (d : Q) : Q :=
  match x with
  | Some q => if Qeq_bool q 0 then d else q
  | None => d
  end.

(** The body of the loop of [calculateDeviations]; [None] is [continue]. *)
Definition deviationOf (portfolio : BalanceUtils.Portfolio)
    (portfolioBalance : PortfolioBalance) (allocation : BalanceUtils.AllocationDoc)
    : option DeviationResult :=
  let asset := BalanceUtils.assetId allocation in
  match find (fun b => String.eqb (bi_assetSymbol b) (BalanceUtils.symbol asset))
             (balances portfolioBalance) with
  | None => None
  | Some balanceInfo =>
      let currentPercentage :=
        if Js.gt (pb_totalValueUSD portfolioBalance) 0
        then valueUSD balanceInfo / pb_totalValueUSD portfolioBalance
        else 0 in
      let deviation :=
        Js.Math_abs (currentPercentage - BalanceUtils.doc_targetPercentage allocation) in
      let needsRebalance :=
        Js.gt deviation (orDefault (BalanceUtils.rebalanceThreshold portfolio) (5 # 100)) in
      Some {| assetSymbol := BalanceUtils.symbol asset;
              targetPercentage := BalanceUtils.doc_targetPercentage allocation;
              currentPercentage := currentPercentage;
              deviation := deviation;
              needsRebalance := needsRebalance;
              currentValueUSD := valueUSD balanceInfo;
              targetValueUSD := pb_totalValueUSD portfolioBalance
                                * BalanceUtils.doc_targetPercentage allocation |}
  end.

(** [calculateDeviations], given what its reads return. *)
Definition calculateDeviations (portfolio : option BalanceUtils.Portfolio)
    (portfolioBalance : PortfolioBalance) (allocations : list BalanceUtils.AllocationDoc)
    : Js.Result (list DeviationResult) :=
  match portfolio with
  | None => Js.Throw (Js.Error "Portfolio non trouvé")
  | Some p =>
      Js.Ok (flat_map (fun allocation =>
                         match deviationOf p portfolioBalance allocation with
                         | Some d => [d]
                         | None => []
                         end)
                      allocations)
  end.

(** The swap pushed for one pair, if any. *)
Definition swapFor (excess deficit : DeviationResult) : list SwapOperation :=
  if needsRebalance excess && needsRebalance deficit then
    let amountToSell := (currentValueUSD excess - targetValueUSD excess) / 2 in
    if Js.gt amountToSell 0 then
      let currentPrice := currentValueUSD excess / 1 in
      let tokenAmount := Js.div amountToSell currentPrice in
      [ {| fromAsset := assetSymbol excess;
           toAsset := assetSymbol deficit;
           amount := tokenAmount;
           expectedAmount := amountToSell;
           reason := "Rééquilibrage: " ++ assetSymbol excess ++ " -> " ++ assetSymbol deficit |} ]
    else []
  else [].

Definition sortedDeviations (deviations : list DeviationResult) : list DeviationResult :=
  Js.sortDesc deviation (filter needsRebalance deviations).

Definition excessAssets (deviations : list DeviationResult) : list DeviationResult :=
  filter (fun d => Js.gt (currentPercentage d) (targetPercentage d))
         (sortedDeviations deviations).

Definition deficitAssets (deviations : list DeviationResult) : list DeviationResult :=
  filter (fun d => Js.lt (currentPercentage d) (targetPercentage d))
         (sortedDeviations deviations).

Definition generateSwapOperations (deviations : list DeviationResult) (totalValueUSD : Q)
    : list SwapOperation :=
  flat_map (fun excess => flat_map (fun deficit => swapFor excess deficit)
                                   (deficitAssets deviations))
           (excessAssets deviations).

(** [createRebalancePlan], given what [calculateDeviations] read. *)
Definition createRebalancePlan (portfolioId : string)
    (portfolio : option BalanceUtils.Portfolio)
    (portfolioBalance : PortfolioBalance) (allocations : list BalanceUtils.AllocationDoc)
    : Js.Result RebalancePlan :=
  deviations <- calculateDeviations portfolio portfolioBalance allocations ;;
  let totalValueUSD := Js.sumOf currentValueUSD deviations in
  let needsRebalance := existsb needsRebalance deviations in
  let swaps := generateSwapOperations deviations totalValueUSD in
  Js.Ok {| portfolioId := portfolioId;
           totalValueUSD := totalValueUSD;
           deviations := deviations;
           plan_needsRebalance := needsRebalance;
           swaps := swaps |}.

(** Modelled from the spec: [RebalanceService.createStrictRebalancePlan] is
    called by [PortfolioMonitoringJob.execute] and by the test script but is
    not among the sources.  The specification has the two policies "share one
    mechanism, differing only in the input filter": under [threshold] only
    assets with [needsRebalance = true] participate, under [strict_periodic]
    "every asset with nonzero deviation participates (no gating by a
    tolerance)".  The strict plan therefore runs [generateSwapOperations] on
    the same deviations with the flag recomputed as "deviation is nonzero". *)
Definition strictDeviation (d : DeviationResult) : DeviationResult :=
  {| assetSymbol := assetSymbol d;
     targetPercentage := targetPercentage d;
     currentPercentage := currentPercentage d;
     deviation := deviation d;
     needsRebalance := negb (Js.strictEq (deviation d) 0);
     currentValueUSD := currentValueUSD d;
     targetValueUSD := targetValueUSD d |}.

Definition generateStrictSwapOperations (deviations : list DeviationResult)
    (totalValueUSD : Q) : list SwapOperation :=
  generateSwapOperations (map strictDeviation deviations) totalValueUSD.

Definition createStrictRebalancePlan (portfolioId : string)
    (portfolio : option BalanceUtils.Portfolio)
    (portfolioBalance : PortfolioBalance) (allocations : list BalanceUtils.AllocationDoc)
    : Js.Result RebalancePlan :=
  deviations <- calculateDeviations portfolio portfolioBalance allocations ;;
  let totalValueUSD := Js.sumOf currentValueUSD deviations in
  Js.Ok {| portfolioId := portfolioId;
           totalValueUSD := totalValueUSD;
           deviations := map strictDeviation deviations;
           plan_needsRebalance := true;
           swaps := generateStrictSwapOperations deviations totalValueUSD |}.

(** Total traded USD of a plan. *)
Definition tradedUSD (swaps : list SwapOperation) : Q :=
  Js.sumOf expectedAmount swaps.

End RebalanceService.

(* ================================================================== *)
(** ** Effects: the chain, the swap venue, the database, the scheduler *)
(* ================================================================== *)

(** The asynchronous code runs to completion one call after the other.  Its
    effects are recorded as a trace of events; what the outside world answers
    to a call may depend on everything that happened before it. *)
Module World.

Inductive Status : Type := pending | executing | completed | failed | cancelled.

(** A swap sub-document of a [RebalanceJob]; [None] is a field left out. *)
Record JobSwap : Type := {
  js_fromAsset : string;
  js_toAsset : string;
  js_amount : Js.number;
  js_expectedAmount : Q;
  js_minAmountOut : option string;
}.

(** The fields a [RebalanceJob] document is constructed with. *)
Record RebalanceJobDoc : Type := {
  job_portfolioId : string;
  status : Status;
  job_rebalanceType : string;
  deviationDetected : Js.number;
  job_swaps : list JobSwap;
  txHashes : list string;
  errorMessage : option string;
}.

Inductive Event : Type :=
(* chain and swap venue *)
| Approval (tokenAddress : string) (amount : Z) (ethAddress : string)
| UniswapSwap (swap : RebalanceUtils.SwapOperation) (ethAddress pkpPublicKey : string)
| AwaitReceipt (txHash : string)
| DynamicSwap (fromToken toToken : string) (amount : Js.number) (recipient : string)
(* database writes *)
| BalancesRefreshed (portfolioId : string)
| PortfolioTouched (portfolioId : string)
| RebalanceJobSaved (doc : RebalanceJobDoc)
| PortfolioSaved (ethAddress name : string)
| AllocationsDeleted (portfolioId : string)
| AllocationSaved (portfolioRef assetSymbol : string) (targetPercentage : Q)
| MonitoringJobScheduled (portfolioRef : string)
(* error reporting and the scheduler's job document *)
| SentryCapture (e : Js.Exception)
| SentryFlush
| JobDisabled
| JobSaved.

Definition Trace : Type := list Event.

(** A computation with effects: from the trace so far to a result and the
    extended trace.  Effects made before a throw stay. *)
Definition M (A : Type) : Type := Trace -> Js.Result A * Trace.

Definition ret {A} (a : A) : M A := fun t => (Js.Ok a, t).
Definition throw {A} (e : Js.Exception) : M A := fun t => (Js.Throw e, t).
Definition lift {A} (r : Js.Result A) : M A := fun t => (r, t).

Definition bind {A B} (c : M A) (k : A -> M B) : M B :=
  fun t => match c t with
           | (Js.Ok a, t') => k a t'
           | (Js.Throw e, t') => (Js.Throw e, t')
           end.

(** [try { body } catch (error) { handler }] *)
Definition tryCatch {A} (body : M A) (handler : Js.Exception -> M A) : M A :=
  fun t => match body t with
           | (Js.Ok a, t') => (Js.Ok a, t')
           | (Js.Throw e, t') => handler e t'
           end.

(** [try { body } finally { final }], for a [final] that does not throw. *)
Definition tryFinally {A} (body : M A) (final : Trace -> Trace) : M A :=
  fun t => let '(r, t') := body t in (r, final t').

Definition emit (e : Event) : M unit := fun t => (Js.Ok tt, (t ++ [e])%list).

(** An answer of the outside world. *)
Definition ask {A} (oracle : Trace -> A) : M A := fun t => (Js.Ok (oracle t), t).
Definition call {A} (oracle : Trace -> Js.Result A) : M A := fun t => (oracle t, t).

(** The outside world. *)
Record Environment : Type := {
  (* Portfolio.findById *)
  findPortfolio : Trace -> string -> option BalanceUtils.Portfolio;
  (* calculateCurrentAllocations, a read of chain and database *)
  currentAllocations : Trace -> string -> Js.Result (list BalanceUtils.PortfolioAllocation);
  (* the refresh of balances: does it go through *)
  refreshBalances : Trace -> string -> Js.Result unit;
  (* a database write: does it go through *)
  writeFault : Trace -> Event -> option Js.Exception;
  (* handleTokenApproval: failure, already approved, or an approval hash *)
  approvalAnswer : Trace -> string -> Z -> string -> Js.Result (option string);
  (* executeUniswapSwap: failure or the swap transaction hash *)
  uniswapAnswer : Trace -> RebalanceUtils.SwapOperation -> string -> string -> Js.Result string;
  (* waitForTransaction: a receipt with status 1 is seen within the wait *)
  confirmed : Trace -> string -> bool;
  (* DynamicSwapService.executeSwap past its same-token check *)
  dynamicAnswer : Trace -> string -> string -> Js.number -> string -> Js.Result string;
  (* BalanceService.getPortfolioBalances and Allocation.find *)
  portfolioBalances : Trace -> string -> Js.Result RebalanceService.PortfolioBalance;
  allocationDocs : Trace -> string -> list BalanceUtils.AllocationDoc;
  (* Asset.findOne({ symbol, isActive: true }) finds a document *)
  activeAsset : Trace -> string -> bool;
  (* createPortfolioJob: does the scheduling go through *)
  scheduling : Trace -> string -> Js.Result unit;
  (* getPortfolioWithAllocations: the owner of the portfolio, if it exists *)
  portfolioOwner : Trace -> string -> option string;
  (* Mongoose, given an array of swaps where it expects a portfolio id: the
     message of its CastError, which prints the array *)
  castFailure : list RebalanceUtils.SwapOperation -> string;
}.

(** A database write that may be refused. *)
Definition write (env : Environment) (e : Event) : M unit :=
  fun t => match writeFault env t e with
           | Some x => (Js.Throw x, t)
           | None => (Js.Ok tt, (t ++ [e])%list)
           end.

(** The [RebalanceJob] documents persisted along a trace. *)
Definition rebalanceJobs (t : Trace) : list RebalanceJobDoc :=
  flat_map (fun e => match e with RebalanceJobSaved d => [d] | _ => [] end) t.

(** The allocation writes (deletions and insertions) along a trace. *)
Definition allocationMutations (t : Trace) : list Event :=
  filter (fun e => match e with
                   | AllocationsDeleted _ | AllocationSaved _ _ _ => true
                   | _ => false
                   end) t.

Definition isSwapSubmission (e : Event) : bool :=
  match e with UniswapSwap _ _ _ | DynamicSwap _ _ _ _ => true | _ => false end.

(** The swaps handed to the venue along a trace, in order. *)
Definition submitted (t : Trace) : list RebalanceUtils.SwapOperation :=
  flat_map (fun e => match e with UniswapSwap s _ _ => [s] | _ => [] end) t.

End World.

Declare Scope world_scope.
Notation "x <~ c1 ;; c2" := (World.bind c1 (fun x => c2))
  (at level 61, c1 at next level, right associativity) : world_scope.
Notation "c1 ;;; c2" := (World.bind c1 (fun _ => c2))
  (at level 61, right associativity) : world_scope.
Open Scope world_scope.

(* ================================================================== *)
(** ** mongo/models/RebalanceJob.ts *)
(* ================================================================== *)

Module RebalanceJobModel.
Import World.

Definition invalid : Js.Exception := Js.ValidationError "RebalanceJob validation failed".

(** The validation Mongoose runs before it saves a document.  Every swap
    sub-document requires [minAmountOut], and [deviationDetected] is a
    required number with a minimum of 0.  (The schema also constrains the
    format of the hashes, and the portfolio id must be an ObjectId; a save
    refused on those grounds is among the refusals of the database.) *)
Definition validate (doc : RebalanceJobDoc) : Js.Result unit :=
  if forallb (fun swap => match js_minAmountOut swap with
                          | Some _ => true
                          | None => false
                          end)
             (job_swaps doc)
  then match deviationDetected doc with
       | Js.Finite deviation => if Js.lt deviation 0 then Js.Throw invalid else Js.Ok tt
       | Js.NotFinite => Js.Throw invalid
       end
  else Js.Throw invalid.

End RebalanceJobModel.

(* ================================================================== *)
(** ** portfolioMonitoring/utils/swapUtils.ts *)
(* ================================================================== *)

Module SwapUtils.
Import World RebalanceUtils.

Section WithEnvironment.
Variable env : Environment.

Definition handleTokenApproval (tokenAddress : string) (amount : Z) (ethAddress : string)
    : M (option string) :=
  answer <~ call (fun t => approvalAnswer env t tokenAddress amount ethAddress) ;;
  match answer with
  | None => ret None                      (* already approved *)
  | Some approvalTxHash =>
      emit (Approval tokenAddress amount ethAddress) ;;;
      ret (Some approvalTxHash)
  end.

Definition executeUniswapSwap (swap : SwapOperation) (ethAddress pkpPublicKey : string)
    : M string :=
  emit (UniswapSwap swap ethAddress pkpPublicKey) ;;;
  call (fun t => uniswapAnswer env t swap ethAddress pkpPublicKey).

Definition waitForTransaction (txHash : string) : M unit :=
  emit (AwaitReceipt txHash) ;;;
  ok <~ ask (fun t => confirmed env t txHash) ;;
  if ok : bool then ret tt
  else throw (Js.Error ("Transaction " ++ txHash ++ " not confirmed within 60000ms")).

Definition executeSwap (swap : SwapOperation) (ethAddress pkpPublicKey : string)
    : M string :=
  tryCatch
    (approvalHash <~ handleTokenApproval (tokenInAddress swap) (amountInTokens swap)
                                         ethAddress ;;
     match approvalHash with
     | Some h => if String.eqb h "" then ret tt else waitForTransaction h
     | None => ret tt
     end ;;;
     executeUniswapSwap swap ethAddress pkpPublicKey)
    (fun error =>
       throw (Js.Error ("Failed to execute swap " ++ tokenInSymbol swap ++ " -> "
                        ++ tokenOutSymbol swap ++ ": " ++ Js.message error))).

(** The [for] loop of [executeRebalanceSwaps], from index [i], with the
    local array [txHashes]. *)
Fixpoint swapLoop (ethAddress pkpPublicKey : string) (i : nat)
    (swaps : list SwapOperation) (txHashes : list string) : M (list string) :=
  match swaps with
  | [] => ret txHashes
  | swap :: rest =>
      txHashes' <~
        tryCatch
          (txHash <~ executeSwap swap ethAddress pkpPublicKey ;;
           waitForTransaction txHash ;;;
           ret (txHashes ++ [txHash])%list)
          (fun error =>
             throw (Js.Error ("Rebalancing stopped at swap " ++ Js.ofNat (i + 1) ++ ": "
                              ++ Js.message error))) ;;
      swapLoop ethAddress pkpPublicKey (S i) rest txHashes'
  end.

Definition executeRebalanceSwaps (swaps : list SwapOperation) (portfolioId : string)
    : M (list string) :=
  portfolio <~ ask (fun t => findPortfolio env t portfolioId) ;;
  match portfolio with
  | None => throw (Js.Error ("Portfolio " ++ portfolioId ++ " not found"))
  | Some p =>
      if String.eqb (BalanceUtils.ethAddress p) "" || String.eqb (BalanceUtils.publicKey p) ""
      then throw (Js.Error ("Portfolio " ++ portfolioId
                            ++ " missing ethAddress or pkpInfo.publicKey"))
      else swapLoop (BalanceUtils.ethAddress p) (BalanceUtils.publicKey p) 0 swaps []
  end.

End WithEnvironment.
End SwapUtils.

(* ================================================================== *)
(** ** vincent/dynamicSwapService.ts *)
(* ================================================================== *)

Module DynamicSwapService.
Import World.

Record SwapParams : Type := {
  fromAsset : string;
  toAsset : string;
  amount : Js.number;
  recipient : string;
}.

Record SwapResult : Type := {
  txHash : string;
  fromToken : string;
  toToken : string;
  amountIn : Js.number;
}.

Section WithEnvironment.
Variable env : Environment.

Definition executeSwap (params : SwapParams) : M SwapResult :=
  tryCatch
    (if String.eqb (fromAsset params) (toAsset params)
     then throw (Js.Error "Impossible de swapper un token avec lui-même")
     else
       emit (DynamicSwap (fromAsset params) (toAsset params) (amount params)
                         (recipient params)) ;;;
       swapHash <~ call (fun t => dynamicAnswer env t (fromAsset params) (toAsset params)
                                                (amount params) (recipient params)) ;;
       ret {| txHash := swapHash;
              fromToken := fromAsset params;
              toToken := toAsset params;
              amountIn := amount params |})
    (fun error => throw error).

(** The loop body swallows the error of a failed swap and goes on. *)
Fixpoint swapLoop (swaps : list SwapParams) (results : list SwapResult)
    : M (list SwapResult) :=
  match swaps with
  | [] => ret results
  | swap :: rest =>
      results' <~ tryCatch (result <~ executeSwap swap ;;
                            ret (results ++ [result])%list)
                           (fun _ => ret results) ;;
      swapLoop rest results'
  end.

Definition executeRebalanceSwaps (swaps : list SwapParams) : M (list SwapResult) :=
  swapLoop swaps [].

End WithEnvironment.
End DynamicSwapService.

(* ================================================================== *)
(** ** portfolioMonitoring/portfolioMonitoring.ts *)
(* ================================================================== *)

Module PortfolioMonitoring.
Import World.

(** [hay.includes(needle)] *)
Fixpoint includes (needle hay : string) : bool :=
  if String.prefix needle hay then true
  else match hay with
       | EmptyString => false
       | String _ rest => includes needle rest
       end.

Definition isFatal (message : string) : bool :=
  includes "Not enough balance" message
  || includes "insufficient funds" message
  || includes "gas too low" message
  || includes "out of gas" message.

Section WithEnvironment.
Variable env : Environment.

(** [updatePortfolioBalances]: recomputes the allocations and writes the
    portfolio and allocation documents. *)
Definition updatePortfolioBalances (portfolioId : string) : M unit :=
  call (fun t => refreshBalances env t portfolioId) ;;;
  write env (BalancesRefreshed portfolioId).

(** The call [executeRebalanceSwaps(job, validSwaps, portfolioId)] of the
    source.  The function of swapUtils is declared with [(swaps, portfolioId)]:
    it runs with the job as its [swaps] and the array [validSwaps] as its
    [portfolioId].  Its first await, [Portfolio.findById(portfolioId)], is
    rejected by Mongoose, which cannot cast an array of swaps to an ObjectId,
    and nothing of the function runs after that. *)
Definition executeRebalanceSwapsOfJob (validSwaps : list RebalanceUtils.SwapOperation)
    : M (list string) :=
  throw (Js.CastError (castFailure env validSwaps)).

(** The [try] block of [portfolioMonitoring]. *)
Definition monitoringBody (portfolioId : string) : M unit :=
  portfolio <~ ask (fun t => findPortfolio env t portfolioId) ;;
  match portfolio with
  | None => ret tt
  | Some p =>
      if negb (BalanceUtils.isActive p) then ret tt
      else
        updatePortfolioBalances portfolioId ;;;
        currentAllocations <~ call (fun t => currentAllocations env t portfolioId) ;;
        if (List.length currentAllocations =? 0)%nat then ret tt
        else
          let needsRebalance := existsb BalanceUtils.needsRebalance currentAllocations in
          if needsRebalance then
            rebalancePlan <~ lift (RebalanceUtils.calculateRebalanceSwaps currentAllocations) ;;
            if RebalanceUtils.isRebalanceNeeded rebalancePlan
               && (0 <? List.length (RebalanceUtils.swaps rebalancePlan))%nat
            then
              let validSwaps := filter RebalanceUtils.validateSwapOperation
                                       (RebalanceUtils.swaps rebalancePlan) in
              if (0 <? List.length validSwaps)%nat then
                tryCatch
                  (executeRebalanceSwapsOfJob validSwaps ;;;
                   updatePortfolioBalances portfolioId ;;;
                   write env (PortfolioTouched portfolioId))
                  (fun error => throw error)
              else ret tt
            else ret tt
          else ret tt
  end.

Definition portfolioMonitoring (portfolioId : string) : M unit :=
  tryFinally
    (tryCatch
       (monitoringBody portfolioId)
       (fun err =>
          emit (SentryCapture err) ;;;
          if isFatal (Js.message err) then
            emit JobDisabled ;;;
            emit JobSaved ;;;
            throw (Js.Error ("Portfolio monitoring disabled due to fatal error: "
                             ++ Js.message err))
          else throw err))
    (fun t => (t ++ [SentryFlush])%list).

End WithEnvironment.
End PortfolioMonitoring.

(* ================================================================== *)
(** ** agenda/jobs/portfolioMonitoringJob.ts *)
(* ================================================================== *)

Module PortfolioMonitoringJob.
Import World.

(** [Math.max(...xs)]; of no argument it is [-Infinity]. *)
Definition Math_max (xs : list Q) : Js.number :=
  match xs with
  | [] => Js.NotFinite
  | x :: rest => Js.Finite (fold_left (fun m y => if Js.gt y m then y else m) rest x)
  end.

Section WithEnvironment.
Variable env : Environment.

(** The document is built without [minAmountOut] on its swaps; [save]
    validates it before it writes it, and the [catch] only logs. *)
Definition recordRebalanceJob (portfolioId : string) (plan : RebalanceService.RebalancePlan)
    (swapResults : list DynamicSwapService.SwapResult) : M unit :=
  tryCatch
    (let rebalanceJob :=
       {| job_portfolioId := portfolioId;
          status := executing;
          job_rebalanceType := "threshold";
          deviationDetected :=
            Math_max (map RebalanceService.deviation (RebalanceService.deviations plan));
          job_swaps :=
            map (fun swap =>
                   {| js_fromAsset := RebalanceService.fromAsset swap;
                      js_toAsset := RebalanceService.toAsset swap;
                      js_amount := RebalanceService.amount swap;
                      js_expectedAmount := RebalanceService.expectedAmount swap;
                      js_minAmountOut := None |})
                (RebalanceService.swaps plan);
          txHashes := map DynamicSwapService.txHash swapResults;
          errorMessage := None |} in
     lift (RebalanceJobModel.validate rebalanceJob) ;;;
     write env (RebalanceJobSaved rebalanceJob))
    (fun _ => ret tt).

(** The portfolio updates of [updatePortfolioAfterRebalance], all inside
    one [try] whose [catch] only logs. *)
Definition updatePortfolioAfterRebalance (portfolioId : string)
    (plan : RebalanceService.RebalancePlan) : M unit :=
  tryCatch (write env (PortfolioTouched portfolioId)) (fun _ => ret tt).

Definition executeRebalancing (portfolioId : string) (plan : RebalanceService.RebalancePlan)
    : M unit :=
  tryCatch
    (let dynamicSwaps :=
       map (fun swap =>
              {| DynamicSwapService.fromAsset := RebalanceService.fromAsset swap;
                 DynamicSwapService.toAsset := RebalanceService.toAsset swap;
                 DynamicSwapService.amount := RebalanceService.amount swap;
                 DynamicSwapService.recipient := RebalanceService.portfolioId plan |})
           (RebalanceService.swaps plan) in
     swapResults <~ DynamicSwapService.executeRebalanceSwaps env dynamicSwaps ;;
     recordRebalanceJob portfolioId plan swapResults ;;;
     updatePortfolioAfterRebalance portfolioId plan)
    (fun error => throw error).

Definition updatePortfolioBalances (portfolioId : string) : M unit :=
  call (fun t => refreshBalances env t portfolioId) ;;;
  write env (BalancesRefreshed portfolioId).

(** [RebalanceService.calculateDeviations(portfolioId)] with its reads. *)
Definition calculateDeviations (portfolioId : string)
    : M (list RebalanceService.DeviationResult) :=
  portfolio <~ ask (fun t => findPortfolio env t portfolioId) ;;
  match portfolio with
  | None => throw (Js.Error "Portfolio non trouvé")
  | Some _ =>
      portfolioBalance <~ call (fun t => portfolioBalances env t portfolioId) ;;
      allocations <~ ask (fun t => allocationDocs env t portfolioId) ;;
      lift (RebalanceService.calculateDeviations portfolio portfolioBalance allocations)
  end.

(** [createRebalancePlan] and [createStrictRebalancePlan] with their reads. *)
Definition readAndPlan
    (planner : string -> option BalanceUtils.Portfolio -> RebalanceService.PortfolioBalance
               -> list BalanceUtils.AllocationDoc -> Js.Result RebalanceService.RebalancePlan)
    (portfolioId : string) : M RebalanceService.RebalancePlan :=
  portfolio <~ ask (fun t => findPortfolio env t portfolioId) ;;
  match portfolio with
  | None => throw (Js.Error "Portfolio non trouvé")
  | Some _ =>
      portfolioBalance <~ call (fun t => portfolioBalances env t portfolioId) ;;
      allocations <~ ask (fun t => allocationDocs env t portfolioId) ;;
      lift (planner portfolioId portfolio portfolioBalance allocations)
  end.

Definition execute (portfolioId : string) : M unit :=
  tryCatch
    (portfolio <~ ask (fun t => findPortfolio env t portfolioId) ;;
     match portfolio with
     | None => ret tt
     | Some p =>
         if negb (BalanceUtils.isActive p) then ret tt
         else
           updatePortfolioBalances portfolioId ;;;
           if String.eqb (BalanceUtils.rebalanceType p) "strict_periodic" then
             strictRebalancePlan <~
               readAndPlan RebalanceService.createStrictRebalancePlan portfolioId ;;
             if (0 <? List.length (RebalanceService.swaps strictRebalancePlan))%nat then
               executeRebalancing portfolioId strictRebalancePlan ;;;
               updatePortfolioBalances portfolioId
             else ret tt
           else
             deviations <~ calculateDeviations portfolioId ;;
             let needsRebalance :=
               existsb RebalanceService.needsRebalance deviations in
             if needsRebalance then
               rebalancePlan <~
                 readAndPlan RebalanceService.createRebalancePlan portfolioId ;;
               if RebalanceService.plan_needsRebalance rebalancePlan then
                 executeRebalancing portfolioId rebalancePlan ;;;
                 updatePortfolioBalances portfolioId
               else ret tt
             else ret tt
     end)
    (fun error => throw error).

End WithEnvironment.
End PortfolioMonitoringJob.

(* ================================================================== *)
(** ** express/portfolioSchema.ts *)
(* ================================================================== *)

Module PortfolioSchema.

Record AllocationInput : Type := {
  assetSymbol : string;
  targetPercentage : Q;
}.

Record CreatePortfolioRequest : Type := {
  name : string;
  allocations : list AllocationInput;
  rebalanceThreshold : option Q;
  monitoringFrequency : option string;
  rebalanceType : option string;
}.

(** The [.refine] predicate of both schemas; the sum, the difference and the
    literal [0.001] are doubles. *)
Definition sumRefinement (allocations : list AllocationInput) : bool :=
  let total := Js.fsum targetPercentage allocations in
  Js.lt (Js.Math_abs (Js.fsub total 1)) (Js.double (1 # 1000)).

(** [z.object({ assetSymbol: z.string().min(1), targetPercentage: z.number().min(0).max(1) })] *)
Definition allocationShape (a : AllocationInput) : bool :=
  (1 <=? String.length (assetSymbol a))%nat
  && Qle_bool 0 (targetPercentage a) && Qle_bool (targetPercentage a) 1.

(** The [allocations] field: the array, [.min(1)], [.refine(...)]. *)
Definition allocationsSchema (allocations : list AllocationInput) : bool :=
  forallb allocationShape allocations
  && (1 <=? List.length allocations)%nat
  && sumRefinement allocations.

Definition oneOf (values : list string) (x : option string) : bool :=
  match x with
  | None => true
  | Some v => existsb (String.eqb v) values
  end.

Definition thresholdSchema (x : option Q) : bool :=
  match x with
  | None => true
  | Some q => Qle_bool (1 # 1000) q && Qle_bool q (1 # 2)
  end.

(** [CreatePortfolioSchema.parse(body)] succeeds. *)
Definition CreatePortfolioSchema (body : CreatePortfolioRequest) : bool :=
  (1 <=? String.length (name body))%nat && (String.length (name body) <=? 100)%nat
  && allocationsSchema (allocations body)
  && thresholdSchema (rebalanceThreshold body)
  && oneOf ["10s"; "1m"; "5m"; "15m"; "1h"; "4h"; "1d"] (monitoringFrequency body)
  && oneOf ["threshold"; "strict_periodic"] (rebalanceType body).

(** [UpdateAllocationsSchema.parse(body)] succeeds. *)
Definition UpdateAllocationsSchema (allocations : list AllocationInput) : bool :=
  allocationsSchema allocations.

(** [/^[0-9a-fA-F]{24}$/] *)
Definition isHexDigit (c : ascii) : bool :=
  let n := nat_of_ascii c in
  ((48 <=? n) && (n <=? 57) || (97 <=? n) && (n <=? 102) || (65 <=? n) && (n <=? 70))%nat.

Definition PortfolioParamsSchema (portfolioId : string) : bool :=
  (String.length portfolioId =? 24)%nat && forallb isHexDigit (list_ascii_of_string portfolioId).

End PortfolioSchema.

(* ================================================================== *)
(** ** services/portfolioService.ts *)
(* ================================================================== *)

Module PortfolioService.
Import World PortfolioSchema.

Definition upper (c : ascii) : ascii :=
  let n := nat_of_ascii c in
  if ((97 <=? n) && (n <=? 122))%nat then ascii_of_nat (n - 32) else c.

(** [s.toUpperCase()] on ASCII text. *)
Fixpoint toUpperCase (s : string) : string :=
  match s with
  | EmptyString => EmptyString
  | String c rest => String (upper c) (toUpperCase rest)
  end.

Definition lower (c : ascii) : ascii :=
  let n := nat_of_ascii c in
  if ((65 <=? n) && (n <=? 90))%nat then ascii_of_nat (n + 32) else c.

(** [s.toLowerCase()] on ASCII text. *)
Fixpoint toLowerCase (s : string) : string :=
  match s with
  | EmptyString => EmptyString
  | String c rest => String (lower c) (toLowerCase rest)
  end.

Section WithEnvironment.
Variable env : Environment.

(** The loop creating the allocation documents. *)
Fixpoint saveAllocations (portfolioRef : string) (allocations : list AllocationInput)
    : M unit :=
  match allocations with
  | [] => ret tt
  | allocationData :: rest =>
      found <~ ask (fun t => activeAsset env t (toUpperCase (assetSymbol allocationData))) ;;
      if found : bool then
        write env (AllocationSaved portfolioRef (toUpperCase (assetSymbol allocationData))
                                   (targetPercentage allocationData)) ;;;
        saveAllocations portfolioRef rest
      else throw (Js.Error ("Asset " ++ assetSymbol allocationData
                            ++ " not found or inactive"))
  end.

Definition totalPercentage (allocations : list AllocationInput) : Q :=
  Js.fsum targetPercentage allocations.

Definition createPortfolio (ethAddress : string) (data : CreatePortfolioRequest) : M unit :=
  tryCatch
    (if Js.gt (Js.Math_abs (Js.fsub (totalPercentage (allocations data)) 1))
              (Js.double (1 # 1000))
     then throw (Js.Error "Total allocation percentage must equal 100%")
     else
       write env (PortfolioSaved ethAddress (name data)) ;;;
       saveAllocations (name data) (allocations data) ;;;
       tryCatch (call (fun t => scheduling env t (name data)) ;;;
                 emit (MonitoringJobScheduled (name data)))
                (fun _ => ret tt))
    (fun error => throw error).

Definition updatePortfolioAllocations (portfolioId : string)
    (allocations : list AllocationInput) : M unit :=
  tryCatch
    (if Js.gt (Js.Math_abs (Js.fsub (totalPercentage allocations) 1))
              (Js.double (1 # 1000))
     then throw (Js.Error "Total allocation percentage must equal 100%")
     else
       write env (AllocationsDeleted portfolioId) ;;;
       saveAllocations portfolioId allocations)
    (fun error => throw error).

End WithEnvironment.
End PortfolioService.

(* ================================================================== *)
(** ** express/portfolios.ts *)
(* ================================================================== *)

Module Portfolios.
Import World PortfolioSchema.

Record Response : Type := {
  statusCode : nat;
  success : bool;
}.

Definition zodError : Js.Exception := Js.Error "ZodError".

Section WithEnvironment.
Variable env : Environment.

(** The handlers answer every request; a throw inside becomes a 500. *)
Definition respond (okStatus : nat) (body : M unit) : Trace -> Response * Trace :=
  fun t => match body t with
           | (Js.Ok _, t') => ({| statusCode := okStatus; success := true |}, t')
           | (Js.Throw _, t') => ({| statusCode := 500; success := false |}, t')
           end.

(** [handleCreatePortfolioRoute]; [jwt] is the caller's address when the
    token is that of an app user. *)
Definition handleCreatePortfolioRoute (jwt : option string) (body : CreatePortfolioRequest)
    : Trace -> Response * Trace :=
  respond 201
    (match jwt with
     | None => throw (Js.Error "Vincent JWT is not an app user")
     | Some ethAddress =>
         if CreatePortfolioSchema body
         then PortfolioService.createPortfolio env ethAddress body
         else throw zodError
     end).

(** [handleUpdateAllocationsRoute]; the 403 answer is given outside the
    [respond] wrapper in the source and has [success: false] too. *)
Definition handleUpdateAllocationsRoute (jwt : option string) (portfolioId : string)
    (allocations : list AllocationInput) : Trace -> Response * Trace :=
  fun t =>
    if negb (PortfolioParamsSchema portfolioId) then
      ({| statusCode := 500; success := false |}, t)
    else match jwt with
         | None => ({| statusCode := 500; success := false |}, t)
         | Some ethAddress =>
             if negb (UpdateAllocationsSchema allocations) then
               ({| statusCode := 500; success := false |}, t)
             else match portfolioOwner env t portfolioId with
                  | None => ({| statusCode := 500; success := false |}, t)
                  | Some owner =>
                      if negb (String.eqb (PortfolioService.toLowerCase owner)
                                          (PortfolioService.toLowerCase ethAddress))
                      then ({| statusCode := 403; success := false |}, t)
                      else respond 200
                             (PortfolioService.updatePortfolioAllocations
                                env portfolioId allocations) t
                  end
         end.

End WithEnvironment.
End Portfolios.

(* ================================================================== *)
(** ** balanceUtils.ts: the balances read from the chain *)
(* ================================================================== *)

Module BalanceReads.
Import BalanceUtils.

(** What one iteration of the loop of [getCurrentBalances] reads: the
    allocation document with its asset populated, [balanceOf] on the token
    contract, and [priceUSD] of the latest [PriceData] document, if there is
    one. *)
Record AssetReading : Type := {
  allocation : AllocationDoc;
  balanceWei : Z;
  latestPrice : option Q;
}.

(** [parseFloat(ethers.utils.formatUnits(value, decimals))] *)
Definition formatUnits (value : Z) (decimals : nat) : Q :=
  inject_Z value / inject_Z (Js.pow10 decimals).

(** The body of the loop: the entry pushed for one allocation, none when the
    asset has no price data ([continue]). *)
Definition balanceOf (reading : AssetReading) : list CurrentBalance :=
  let asset := assetId (allocation reading) in
  let balanceFormatted := formatUnits (balanceWei reading) (decimals asset) in
  match latestPrice reading with
  | None => []
  | Some latestPriceUSD =>
      [ {| cb_symbol := symbol asset;
           balance := balanceWei reading;
           balanceFormatted := balanceFormatted;
           usd := balanceFormatted * latestPriceUSD;
           priceUSD := latestPriceUSD |} ]
  end.

Definition getCurrentBalances (portfolioId : string) (portfolio : option Portfolio)
    (readings : list AssetReading) : Js.Result (list CurrentBalance) :=
  match portfolio with
  | None => Js.Throw (Js.Error ("Portfolio " ++ portfolioId ++ " not found"))
  | Some _ => Js.Ok (flat_map balanceOf readings)
  end.

(** [calculateCurrentAllocations(portfolioId)] together with its call of
    [getCurrentBalances]: both read the same portfolio and the same allocation
    documents. *)
Definition calculateCurrentAllocations (portfolioId : string) (portfolio : option Portfolio)
    (readings : list AssetReading) : Js.Result (list PortfolioAllocation) :=
  balances <- getCurrentBalances portfolioId portfolio readings ;;
  BalanceUtils.calculateCurrentAllocations balances portfolio (map allocation readings).

End BalanceReads.

(* ================================================================== *)
(** ** mongo/models/Allocation.ts: the [pre('save')] hook *)
(* ================================================================== *)

Module AllocationModel.
Import World.

(** The [targetPercentage] of the allocation documents of a portfolio as the
    writes of a trace leave them: [deleteMany] empties the set, a save adds a
    document. *)
Definition storedTargets (portfolioId : string) (t : Trace) : list Q :=
  fold_left (fun docs e =>
               match e with
               | AllocationsDeleted p => if String.eqb p portfolioId then [] else docs
               | AllocationSaved p _ target =>
                   if String.eqb p portfolioId then (docs ++ [target])%list else docs
               | _ => docs
               end)
            t [].

(** The hook on a new document: [currentAllocations] are the documents of the
    portfolio found in the collection, none of which is the one being saved. *)
Definition preSave (currentAllocations : list Q) (targetPercentage : Q) : Js.Result unit :=
  let totalPercentage :=
    Js.fadd (Js.fsum (fun allocation => allocation) currentAllocations) targetPercentage in
  if Js.gt totalPercentage 1
  then Js.Throw (Js.Error "Total allocation percentage cannot exceed 100%")
  else Js.Ok tt.

End AllocationModel.

(* ================================================================== *)
(** ** frontend: components/allocation-config.tsx *)
(* ================================================================== *)

Module AllocationConfig.

Record AllocationConfig : Type := {
  assetSymbol : string;
  targetPercentage : Q;
}.

(** [xs.includes(x)] on an array of strings. *)
Definition includes (xs : list string) (x : string) : bool :=
  existsb (String.eqb x) xs.

(** [xs.filter((x, index) => p(x, index))], counting from [i]. *)
Fixpoint filterIndexed {A} (p : A -> nat -> bool) (i : nat) (xs : list A) : list A :=
  match xs with
  | [] => []
  | x :: rest => if p x i then x :: filterIndexed p (S i) rest
                 else filterIndexed p (S i) rest
  end.

(** The state after [addAllocation]; [availableAssets] is read for the
    symbols only. *)
Definition addAllocation (localAllocations : list AllocationConfig)
    (availableAssets : list BalanceUtils.Asset) : list AllocationConfig :=
  let usedSymbols := map assetSymbol localAllocations in
  match find (fun asset => negb (includes usedSymbols (BalanceUtils.symbol asset)))
             availableAssets with
  | Some availableAsset =>
      (localAllocations
       ++ [ {| assetSymbol := BalanceUtils.symbol availableAsset;
               targetPercentage := 0 |} ])%list
  | None => localAllocations
  end.

Definition removeAllocation (localAllocations : list AllocationConfig) (index : nat)
    : list AllocationConfig :=
  filterIndexed (fun _ i => negb (i =? index)%nat) 0 localAllocations.

Definition getAvailableAssets (localAllocations : list AllocationConfig)
    (availableAssets : list BalanceUtils.Asset) (currentIndex : nat)
    : list BalanceUtils.Asset :=
  let usedSymbols :=
    map assetSymbol
        (filterIndexed (fun _ index => negb (index =? currentIndex)%nat) 0 localAllocations) in
  filter (fun asset => negb (includes usedSymbols (BalanceUtils.symbol asset)))
         availableAssets.

(** The total the editor displays, over the rationals. *)
Definition getTotalPercentage (localAllocations : list AllocationConfig) : Q :=
  Js.sumOf targetPercentage localAllocations.

End AllocationConfig.

(* ================================================================== *)
(** * Terms of the statements, and example inputs *)
(* ================================================================== *)

Unset Implicit Arguments.

Section GateTerms.
Import BalanceUtils.

(** [balances.find((b) => b.symbol === asset.symbol)] finds an entry. *)
Definition hasBalance (balances : list CurrentBalance) (a : PortfolioAllocation) : bool :=
  existsb (fun b => String.eqb (cb_symbol b) (symbol (asset a))) balances.

End GateTerms.

(** A portfolio with [rebalanceThreshold = 0.05] holding 549 USD of A and
    451 USD of B, with targets one half each: A stands at 0.549, a deviation
    of 0.049. *)
Module GateExample.
Import BalanceUtils.

Definition assetA : Asset := {| symbol := "A"; address := "0xa"; decimals := 6 |}.
Definition assetB : Asset := {| symbol := "B"; address := "0xb"; decimals := 6 |}.

Definition portfolio : Portfolio :=
  {| isActive := true; ethAddress := "0x1"; publicKey := "0x04";
     rebalanceThreshold := Some (5 # 100); rebalanceType := "threshold" |}.

Definition balances : list CurrentBalance :=
  [ {| cb_symbol := "A"; balance := 549; balanceFormatted := 549; usd := 549; priceUSD := 1 |};
    {| cb_symbol := "B"; balance := 451; balanceFormatted := 451; usd := 451; priceUSD := 1 |} ].

Definition allocations : list AllocationDoc :=
  [ {| assetId := assetA; doc_targetPercentage := 1 # 2 |};
    {| assetId := assetB; doc_targetPercentage := 1 # 2 |} ].

Definition portfolioBalance : RebalanceService.PortfolioBalance :=
  {| RebalanceService.pb_totalValueUSD := 1000;
     RebalanceService.balances :=
       [ {| RebalanceService.bi_assetSymbol := "A"; RebalanceService.valueUSD := 549 |};
         {| RebalanceService.bi_assetSymbol := "B"; RebalanceService.valueUSD := 451 |} ] |}.
End GateExample.

Section PlannerTerms.
Import BalanceUtils RebalanceUtils.

(** [parseUnits((usd / price).toFixed(d), d)] *)
Definition tokensOf (usd price : Q) (d : nat) : Js.Result Z :=
  text <- Js.toFixed (Js.fdiv usd price) d ;; Js.parseUnits text d.

(** The swap pushed for a pair. *)
Definition swapOf (sellAsset buyAsset : Trade) (amountIn amountOut : Z) : SwapOperation :=
  {| tokenInSymbol := tv_symbol (base sellAsset);
     tokenOutSymbol := tv_symbol (base buyAsset);
     tokenInAddress := address (tv_asset (base sellAsset));
     tokenOutAddress := address (tv_asset (base buyAsset));
     tokenInDecimals := decimals (tv_asset (base sellAsset));
     tokenOutDecimals := decimals (tv_asset (base buyAsset));
     amountInUSD := Js.Math_min (difference sellAsset) (difference buyAsset);
     amountInTokens := amountIn;
     amountOutTokens := amountOut;
     swap_gap := Js.Math_abs (tv_gap (base sellAsset)) + Js.Math_abs (tv_gap (base buyAsset)) |}.

(** What one iteration did: it skipped the buy asset, or pushed one swap
    drawn from the sell asset [reduceMax] picked. *)
Inductive Step (allocations : list PortfolioAllocation) (buyAsset : Trade)
    (toSell : list Trade) (swaps : list SwapOperation)
    (toSell' : list Trade) (swaps' : list SwapOperation) : Prop :=
| Skip (i : nat) (sellAsset : Trade) :
    reduceMax toSell = Js.Ok (i, sellAsset) ->
    toSell' = toSell -> swaps' = swaps ->
    Step allocations buyAsset toSell swaps toSell' swaps'
| Emit (i : nat) (sellAsset : Trade) (sellAllocation buyAllocation : PortfolioAllocation)
       (sellPrice buyPrice : Q) (amountIn amountOut : Z) :
    reduceMax toSell = Js.Ok (i, sellAsset) ->
    1 # 100 < difference sellAsset ->
    findAllocation allocations (tv_symbol (base sellAsset)) = Some sellAllocation ->
    findAllocation allocations (tv_symbol (base buyAsset)) = Some buyAllocation ->
    currentPriceUSD sellAllocation = Some sellPrice ->
    currentPriceUSD buyAllocation = Some buyPrice ->
    tokensOf (Js.Math_min (difference sellAsset) (difference buyAsset))
             sellPrice (decimals (tv_asset (base sellAsset)))
    = Js.Ok amountIn ->
    tokensOf (Js.Math_min (difference sellAsset) (difference buyAsset))
             buyPrice (decimals (tv_asset (base buyAsset)))
    = Js.Ok amountOut ->
    toSell' = subtractAt i (Js.Math_min (difference sellAsset) (difference buyAsset)) toSell ->
    swaps' = (swaps ++ [swapOf sellAsset buyAsset amountIn amountOut])%list ->
    Step allocations buyAsset toSell swaps toSell' swaps'.

(** The run of the loop as the list of its iterations. *)
Inductive Run (allocations : list PortfolioAllocation)
  : list Trade -> list Trade -> list SwapOperation ->
    list Trade -> list SwapOperation -> Prop :=
| RunDone (toSell : list Trade) (swaps : list SwapOperation) :
    Run allocations [] toSell swaps toSell swaps
| RunStep (buyAsset : Trade) (rest toSell toSell1 toSell2 : list Trade)
          (swaps swaps1 swaps2 : list SwapOperation) :
    Step allocations buyAsset toSell swaps toSell1 swaps1 ->
    Run allocations rest toSell1 swaps1 toSell2 swaps2 ->
    Run allocations (buyAsset :: rest) toSell swaps toSell2 swaps2.

(** The asset symbol of an allocation, and of an entry of the two lists. *)
Definition symbolOf (a : PortfolioAllocation) : string := symbol (asset a).

Definition tradeSymbol (t : Trade) : string := tv_symbol (base t).

(** The swaps of a plan whose source, or destination, is a given asset. *)
Definition swapsFrom (X : string) (swaps : list SwapOperation) : list SwapOperation :=
  filter (fun s => String.eqb (tokenInSymbol s) X) swaps.

Definition swapsTo (Y : string) (swaps : list SwapOperation) : list SwapOperation :=
  filter (fun s => String.eqb (tokenOutSymbol s) Y) swaps.

Definition soldUSD (X : string) (swaps : list SwapOperation) : Q :=
  Js.sumOf amountInUSD (swapsFrom X swaps).

Definition boughtUSD (Y : string) (swaps : list SwapOperation) : Q :=
  Js.sumOf amountInUSD (swapsTo Y swaps).

(** The state of a sell asset against its state before the loop: same asset,
    nothing oversold, and what it lost is what the swaps drawn from it carry. *)
Definition Drawn (swaps : list SwapOperation) (s0 s : Trade) : Prop :=
  base s0 = base s /\ 0 <= difference s
  /\ difference s0 == difference s + soldUSD (tradeSymbol s) swaps.

(** The invariant of the loop on the sell side. *)
Definition SellInv (toSell0 toSell : list Trade) (swaps : list SwapOperation) : Prop :=
  NoDup (map tradeSymbol toSell)
  /\ Forall2 (Drawn swaps) toSell0 toSell
  /\ (forall e, In e swaps -> In (tokenInSymbol e) (map tradeSymbol toSell)).

(** The swaps pushed while the loop walks the buy assets: at most one per buy
    asset, into that asset, for a positive amount within its difference. *)
Inductive Emits : list Trade -> list SwapOperation -> Prop :=
| EmitsNil : Emits [] []
| EmitsSkip (b : Trade) (rest : list Trade) (es : list SwapOperation) :
    Emits rest es -> Emits (b :: rest) es
| EmitsSwap (b : Trade) (rest : list Trade) (e : SwapOperation) (es : list SwapOperation) :
    tokenOutSymbol e = tradeSymbol b ->
    0 < amountInUSD e -> amountInUSD e <= difference b ->
    Emits rest es -> Emits (b :: rest) (e :: es).

(** Target value minus current value of an allocation, in USD. *)
Definition gapUSD (total : Q) (a : PortfolioAllocation) : Q :=
  total * targetPercentage a - currentValueUSD a.

(** The entry of [targetValuesUSD], [assetsToBuy] and [assetsToSell] made
    from an allocation. *)
Definition tvOf (total : Q) (a : PortfolioAllocation) : TargetValue :=
  {| tv_symbol := symbol (asset a);
     targetValueUSD := total * targetPercentage a;
     tv_currentValueUSD := currentValueUSD a;
     tv_gap := gap a;
     tv_asset := asset a |}.

Definition buyTrade (total : Q) (a : PortfolioAllocation) : Trade :=
  {| base := tvOf total a; difference := gapUSD total a |}.

Definition sellTrade (total : Q) (a : PortfolioAllocation) : Trade :=
  {| base := tvOf total a; difference := Qabs (gapUSD total a) |}.

Definition isDeficit (total : Q) (a : PortfolioAllocation) : bool := Js.gt (gapUSD total a) 0.

Definition isSurplus (total : Q) (a : PortfolioAllocation) : bool := Js.lt (gapUSD total a) 0.

(** The iteration that pushed a swap: the buy asset it served, the state of
    the sell list when that asset was reached, and the sell asset drawn. *)
Inductive PushedAt (allocations : list PortfolioAllocation) (toBuy toSell : list Trade)
    (swaps : list SwapOperation) (e : SwapOperation) : Prop :=
| pushedAt (before : list Trade) (buyAsset : Trade) (after : list Trade)
           (sellState : list Trade) (swapsBefore : list SwapOperation)
           (position : nat) (sellAsset : Trade) (sellAllocation : PortfolioAllocation)
           (sellPrice : Q) (amountIn amountOut : Z) :
    toBuy = (before ++ buyAsset :: after)%list ->
    buyLoop allocations before (toSell, swaps) = Js.Ok (sellState, swapsBefore) ->
    reduceMax sellState = Js.Ok (position, sellAsset) ->
    1 # 100 < difference sellAsset ->
    findAllocation allocations (tv_symbol (base sellAsset)) = Some sellAllocation ->
    currentPriceUSD sellAllocation = Some sellPrice ->
    tokensOf (Js.Math_min (difference sellAsset) (difference buyAsset))
             sellPrice (decimals (tv_asset (base sellAsset)))
    = Js.Ok amountIn ->
    e = swapOf sellAsset buyAsset amountIn amountOut ->
    PushedAt allocations toBuy toSell swaps e.

End PlannerTerms.

(** The order [sort] leaves its output in: larger key first. *)
Definition keyDesc {A : Type} (key : A -> Q) (x y : A) : Prop := key y <= key x.

(** Inputs of [calculateRebalanceSwaps]. *)
Module PlannerExample.
Import BalanceUtils RebalanceUtils.

(** An allocation with its derived fields filled as [calculateCurrentAllocations]
    fills them, and a price added. *)
Definition allocation (sym : string) (digits : nat) (target current : Q) (total price : Q)
    : PortfolioAllocation :=
  {| asset := {| symbol := sym; address := "0x" ++ sym; decimals := digits |};
     targetPercentage := target;
     currentPercentage := current / total;
     currentValueUSD := current;
     currentBalance := 0;
     gap := current / total - target;
     needsRebalance := Js.gt (Qabs (current / total - target)) (1 # 1000);
     currentPriceUSD := Some price |}.

(** 1600 USD: two surplus assets (200 and 100 USD over target) and two deficit
    assets (100 and 200 USD under target), the smaller deficit listed first. *)
Definition twoByTwo : list PortfolioAllocation :=
  [ allocation "S1" 6 (1 # 4) 600 1600 1;
    allocation "S2" 6 (1 # 4) 500 1600 1;
    allocation "D1" 6 (1 # 8) 100 1600 1;
    allocation "D2" 6 (3 # 8) 400 1600 1 ].

(** 16 USD: 11 USD of S against a target of a quarter, 5 USD of D against a
    target of three quarters; S is priced 4 USD and has no decimals. *)
Definition coarse : list PortfolioAllocation :=
  [ allocation "S" 0 (1 # 4) 11 16 4;
    allocation "D" 0 (3 # 4) 5 16 1 ].

(** 100 USD held in A, on target; B has a target of 1/2048 and no balance
    entry, as [calculateCurrentAllocations] reports an asset without price
    data: value zero, flagged. *)
Definition noSurplus : list PortfolioAllocation :=
  [ allocation "A" 6 1 100 100 1;
    {| asset := {| symbol := "B"; address := "0xB"; decimals := 6 |};
       targetPercentage := 1 # 2048;
       currentPercentage := 0;
       currentValueUSD := 0;
       currentBalance := 0;
       gap := 1 # 2048;
       needsRebalance := true;
       currentPriceUSD := None |} ].

(** 10000 USD: A is 500 USD over its target and B 497 USD under, both
    flagged; C is 3 USD under its target, a gap of 0.0003, and is not. *)
Definition withinTolerance : list PortfolioAllocation :=
  [ allocation "A" 6 (1 # 2) 5500 10000 1;
    allocation "B" 6 (1 # 5) 1503 10000 1;
    allocation "C" 6 (3 # 10) 2997 10000 1 ].

(** A swap reduced to what it moves. *)
Definition summary (s : SwapOperation) : string * string * Q * Z :=
  (tokenInSymbol s, tokenOutSymbol s, Qred (amountInUSD s), amountInTokens s).

End PlannerExample.

(** What [reduce] throws on an empty array when given no initial value. *)
Definition reduceOfEmpty : Js.Exception :=
  Js.TypeError "Reduce of empty array with no initial value".

(** The lists as C3 states them: largest imbalance first. *)
Definition largestFirst (allocs : list BalanceUtils.PortfolioAllocation) : Prop :=
  let total := Js.sumOf BalanceUtils.currentValueUSD allocs in
  let tvs := RebalanceUtils.targetValuesUSD allocs total in
  StronglySorted (keyDesc RebalanceUtils.difference) (RebalanceUtils.assetsToSell tvs)
  /\ StronglySorted (keyDesc RebalanceUtils.difference) (RebalanceUtils.assetsToBuy tvs).

Section ServiceTerms.
Import RebalanceService.

(** The two filters of [generateSwapOperations]. *)
Definition isExcess (d : DeviationResult) : bool :=
  Js.gt (currentPercentage d) (targetPercentage d).

Definition isShort (d : DeviationResult) : bool :=
  Js.lt (currentPercentage d) (targetPercentage d).

(** [amountToSell]: half of the excess asset's surplus. *)
Definition amountToSell (d : DeviationResult) : Q :=
  (currentValueUSD d - targetValueUSD d) / 2.

Definition sellable (d : DeviationResult) : bool := Js.gt (amountToSell d) 0.

(** USD leaving, or entering, an asset over a plan of the service. *)
Definition serviceSold (X : string) (plan : list SwapOperation) : Q :=
  Js.sumOf expectedAmount (filter (fun s => String.eqb (fromAsset s) X) plan).

Definition serviceBought (Y : string) (plan : list SwapOperation) : Q :=
  Js.sumOf expectedAmount (filter (fun s => String.eqb (toAsset s) Y) plan).

(** The assets taking part in a plan, read off the deviations themselves. *)
Definition sellers (deviations : list DeviationResult) : list DeviationResult :=
  filter (fun d => needsRebalance d && isExcess d && sellable d) deviations.

Definition buyers (deviations : list DeviationResult) : list DeviationResult :=
  filter (fun d => needsRebalance d && isShort d) deviations.

(** A deviation as [calculateDeviations] computes it. *)
Definition consistent (d : DeviationResult) : Prop :=
  deviation d == Qabs (currentPercentage d - targetPercentage d).

End ServiceTerms.

(** Inputs of [RebalanceService]: what the reads of a portfolio return. *)
Module ServiceExample.
Import BalanceUtils.

Definition doc (sym : string) (target : Q) : AllocationDoc :=
  {| assetId := {| symbol := sym; address := "0x" ++ sym; decimals := 6 |};
     doc_targetPercentage := target |}.

Definition holding (sym : string) (value : Q) : RebalanceService.BalanceInfo :=
  {| RebalanceService.bi_assetSymbol := sym; RebalanceService.valueUSD := value |}.

(** 1600 USD, 848 in A and 752 in B, targets one half each: both deviate by
    0.03, under the threshold of 0.05. *)
Definition drift : RebalanceService.PortfolioBalance :=
  {| RebalanceService.pb_totalValueUSD := 1600;
     RebalanceService.balances := [ holding "A" 848; holding "B" 752 ] |}.
Definition halves : list AllocationDoc := [ doc "A" (1 # 2); doc "B" (1 # 2) ].

(** 800 USD, 500 in WBTC and 100 in each of WETH, USDC and DAI, targets one
    quarter each: WBTC is 300 USD over target, the others 100 USD under. *)
Definition heavy : RebalanceService.PortfolioBalance :=
  {| RebalanceService.pb_totalValueUSD := 800;
     RebalanceService.balances :=
       [ holding "WBTC" 500; holding "WETH" 100; holding "USDC" 100; holding "DAI" 100 ] |}.
Definition quarters : list AllocationDoc :=
  [ doc "WBTC" (1 # 4); doc "WETH" (1 # 4); doc "USDC" (1 # 4); doc "DAI" (1 # 4) ].

Definition summary (s : RebalanceService.SwapOperation) : string * string * Q :=
  (RebalanceService.fromAsset s, RebalanceService.toAsset s,
   Qred (RebalanceService.expectedAmount s)).

End ServiceExample.

Section ExecutorTerms.
Import World RebalanceUtils.

(** The swaps handed to the venue of the dynamic service along a trace, as
    pairs of tokens. *)
Definition dynamicAttempts (t : Trace) : list (string * string) :=
  flat_map (fun e => match e with DynamicSwap a b _ _ => [(a, b)] | _ => [] end) t.

Definition differentTokens (s : DynamicSwapService.SwapParams) : bool :=
  negb (String.eqb (DynamicSwapService.fromAsset s) (DynamicSwapService.toAsset s)).

Definition pairOf (s : DynamicSwapService.SwapParams) : string * string :=
  (DynamicSwapService.fromAsset s, DynamicSwapService.toAsset s).

(** What the loop of [DynamicSwapService.executeRebalanceSwaps] collects from
    a list of swaps: the result of each swap whose [executeSwap] returned, in
    the order of the list; a swap whose [executeSwap] threw leaves none, and
    the next swap is run from the trace that attempt left. *)
Inductive Collected (env : Environment)
  : list DynamicSwapService.SwapParams -> Trace
    -> list DynamicSwapService.SwapResult -> Trace -> Prop :=
| CollectedNone (t : Trace) : Collected env [] t [] t
| CollectedResult (swap : DynamicSwapService.SwapParams)
                  (rest : list DynamicSwapService.SwapParams) (t t1 t' : Trace)
                  (result : DynamicSwapService.SwapResult)
                  (results : list DynamicSwapService.SwapResult) :
    DynamicSwapService.executeSwap env swap t = (Js.Ok result, t1) ->
    Collected env rest t1 results t' ->
    Collected env (swap :: rest) t (result :: results) t'
| CollectedFailure (swap : DynamicSwapService.SwapParams)
                   (rest : list DynamicSwapService.SwapParams) (t t1 t' : Trace)
                   (x : Js.Exception) (results : list DynamicSwapService.SwapResult) :
    DynamicSwapService.executeSwap env swap t = (Js.Throw x, t1) ->
    Collected env rest t1 results t' ->
    Collected env (swap :: rest) t results t'.

End ExecutorTerms.

(** Three swaps and a venue for the executors. *)
Module ExecutorExample.
Import World RebalanceUtils.

Definition swap (from to : string) : SwapOperation :=
  {| tokenInSymbol := from; tokenOutSymbol := to;
     tokenInAddress := "0x" ++ from; tokenOutAddress := "0x" ++ to;
     tokenInDecimals := 6; tokenOutDecimals := 6;
     amountInUSD := 10; amountInTokens := 10000000; amountOutTokens := 10000000;
     swap_gap := 1 # 10 |}.

Definition s1 : SwapOperation := swap "A" "B".
Definition s2 : SwapOperation := swap "B" "C".
Definition s3 : SwapOperation := swap "C" "D".

Definition params (from to : string) : DynamicSwapService.SwapParams :=
  {| DynamicSwapService.fromAsset := from; DynamicSwapService.toAsset := to;
     DynamicSwapService.amount := Js.Finite 10; DynamicSwapService.recipient := "p" |}.

(** A venue on which every allowance is in place and every swap is accepted,
    with the hash "0x" followed by the bought token; only the transaction
    "0xB" of the first swap is ever confirmed.  For the dynamic service the
    swap from B fails. *)
Definition venue : Environment :=
  {| findPortfolio := fun _ _ => Some GateExample.portfolio;
     currentAllocations := fun _ _ => Js.Ok [];
     refreshBalances := fun _ _ => Js.Ok tt;
     writeFault := fun _ _ => None;
     approvalAnswer := fun _ _ _ _ => Js.Ok None;
     uniswapAnswer := fun _ s _ _ => Js.Ok ("0x" ++ tokenOutSymbol s);
     confirmed := fun _ h => String.eqb h "0xB";
     dynamicAnswer := fun _ from to _ _ =>
                        if String.eqb from "B" then Js.Throw (Js.Error "swap reverted")
                        else Js.Ok ("0x" ++ to);
     portfolioBalances := fun _ _ => Js.Ok ServiceExample.drift;
     allocationDocs := fun _ _ => ServiceExample.halves;
     activeAsset := fun _ _ => true;
     scheduling := fun _ _ => Js.Ok tt;
     portfolioOwner := fun _ _ => Some "0x1";
     castFailure := fun _ => "Cast to ObjectId failed" |}.

End ExecutorExample.

Section RecordTerms.
Import World.

(** [Adds P c]: whatever [c] does, the [RebalanceJob] documents it persists
    all satisfy [P], and it removes none. *)
Definition Adds (P : RebalanceJobDoc -> Prop) {A : Type} (c : M A) : Prop :=
  forall t r t', c t = (r, t') ->
                 exists added, rebalanceJobs t' = (rebalanceJobs t ++ added)%list
                               /\ Forall P added.

(** Events other than the save of a [RebalanceJob] document. *)
Definition notAJob (e : Event) : Prop :=
  match e with RebalanceJobSaved _ => False | _ => True end.

(** The documents [PortfolioMonitoringJob] gets written: no failure is
    recorded in them, and they list no swap. *)
Definition Executing (d : RebalanceJobDoc) : Prop :=
  status d = executing /\ errorMessage d = None /\ job_swaps d = [].

End RecordTerms.

(** A monitoring cycle that finds a portfolio off its targets. *)
Module MonitoringExample.
Import World.

(** 600 USD of S and 400 USD of D, with targets of one half each. *)
Definition balances : list BalanceUtils.CurrentBalance :=
  [ {| BalanceUtils.cb_symbol := "S"; BalanceUtils.balance := 600000000;
       BalanceUtils.balanceFormatted := 600; BalanceUtils.usd := 600;
       BalanceUtils.priceUSD := 1 |};
    {| BalanceUtils.cb_symbol := "D"; BalanceUtils.balance := 400000000;
       BalanceUtils.balanceFormatted := 400; BalanceUtils.usd := 400;
       BalanceUtils.priceUSD := 1 |} ].

(** The venue of [ExecutorExample], except that every swap is refused for
    lack of funds; the allocations are those [calculateCurrentAllocations]
    returns for [balances]. *)
Definition broke : Environment :=
  {| findPortfolio := fun _ _ => Some GateExample.portfolio;
     currentAllocations := fun _ _ =>
       BalanceUtils.calculateCurrentAllocations balances (Some GateExample.portfolio)
         [ ServiceExample.doc "S" (1 # 2); ServiceExample.doc "D" (1 # 2) ];
     refreshBalances := fun _ _ => Js.Ok tt;
     writeFault := fun _ _ => None;
     approvalAnswer := fun _ _ _ _ => Js.Ok None;
     uniswapAnswer := fun _ _ _ _ => Js.Throw (Js.Error "insufficient funds for gas");
     confirmed := fun _ _ => true;
     dynamicAnswer := fun _ _ _ _ _ => Js.Throw (Js.Error "insufficient funds for gas");
     portfolioBalances := fun _ _ => Js.Ok ServiceExample.heavy;
     allocationDocs := fun _ _ => ServiceExample.quarters;
     activeAsset := fun _ _ => true;
     scheduling := fun _ _ => Js.Ok tt;
     portfolioOwner := fun _ _ => Some "0x1";
     castFailure := fun _ => "Cast to ObjectId failed" |}.

(** A document with [status = failed] and an error message. *)
Definition isAuditFailure (d : RebalanceJobDoc) : bool :=
  match status d, errorMessage d with
  | failed, Some _ => true
  | _, _ => false
  end.

End MonitoringExample.

Section SumGateTerms.
Import World PortfolioSchema.

(** The bound of the invariant, on the numbers the code computes: the sum of
    the targets, added up from the left in binary64, is within the double
    [0.001] of 1. *)
Definition sumsToOne (allocations : list AllocationInput) : Prop :=
  Qabs (Js.fsub (Js.fsum targetPercentage allocations) 1) < Js.double (1 # 1000).

(** What the schemas ask besides the sum. *)
Definition shapesValid (allocations : list AllocationInput) : bool :=
  forallb allocationShape allocations && (1 <=? List.length allocations)%nat.

Definition fieldsValid (body : CreatePortfolioRequest) : bool :=
  (1 <=? String.length (name body))%nat && (String.length (name body) <=? 100)%nat
  && shapesValid (allocations body)
  && thresholdSchema (rebalanceThreshold body)
  && oneOf ["10s"; "1m"; "5m"; "15m"; "1h"; "4h"; "1d"] (monitoringFrequency body)
  && oneOf ["threshold"; "strict_periodic"] (rebalanceType body).

End SumGateTerms.

(** A create request whose targets sum to 1. *)
Module SumExample.
Import PortfolioSchema.

Definition target (sym : string) (t : Q) : AllocationInput :=
  {| assetSymbol := sym; targetPercentage := t |}.

Definition balanced : list AllocationInput :=
  [ target "WBTC" (1 # 2); target "WETH" (1 # 4); target "USDC" (1 # 4) ].

Definition request : CreatePortfolioRequest :=
  {| name := "Test"; allocations := balanced; rebalanceThreshold := None;
     monitoringFrequency := Some "1h"; rebalanceType := Some "threshold" |}.

Definition portfolioId : string := "0123456789abcdef01234567".

End SumExample.

(* ================================================================== *)
(** ** Terms of the further properties *)
(* ================================================================== *)

Section PlannerInputTerms.
Import BalanceUtils RebalanceUtils.

(** The amounts [toFixed] prints as a numeral whatever the rounding of the
    quotient: up to the last double under 10^21 but one. *)
Definition numeralRange : Q := inject_Z (Js.pow10 21) - inject_Z (2 ^ 18).

(** An allocation the planner can price: a price, which is positive, at most
    100 decimals, no negative value or target, and every value held in the
    portfolio worth no more than [numeralRange] units of the asset. *)
Definition priceable (allocs : list PortfolioAllocation) (a : PortfolioAllocation) : Prop :=
  exists price,
    currentPriceUSD a = Some price
    /\ 0 < price
    /\ (decimals (asset a) <= 100)%nat
    /\ 0 <= currentValueUSD a
    /\ 0 <= targetPercentage a
    /\ Forall (fun b => currentValueUSD b <= numeralRange * price) allocs.

(** An entry of the buy list made from an allocation of the input, and an
    entry of the sell list made from one and holding no more than the value
    of that allocation. *)
Definition buyOf (allocs : list PortfolioAllocation) (total : Q) (b : Trade) : Prop :=
  0 < difference b /\ exists a, In a allocs /\ base b = tvOf total a.

Definition sellOf (allocs : list PortfolioAllocation) (total : Q) (s : Trade) : Prop :=
  exists a, In a allocs /\ base s = tvOf total a /\ difference s <= currentValueUSD a.

End PlannerInputTerms.

Section BalanceReadTerms.
Import BalanceUtils BalanceReads.

Definition readingSymbol (r : AssetReading) : string := symbol (assetId (allocation r)).

(** The USD value [getCurrentBalances] reports for what it read of an asset;
    an asset without price data has no entry. *)
Definition valueOf (r : AssetReading) : Q :=
  match latestPrice r with
  | Some price => formatUnits (balanceWei r) (decimals (assetId (allocation r))) * price
  | None => 0
  end.

End BalanceReadTerms.

(** A portfolio of 3 WBTC at 100 USD, 100 USDC at 1 USD, and DAI without
    price data. *)
Module ReadingExample.
Import BalanceUtils BalanceReads.

Definition reading (sym : string) (digits : nat) (target : Q) (wei : Z) (price : option Q)
    : AssetReading :=
  {| allocation := {| assetId := {| symbol := sym; address := "0x" ++ sym;
                                    decimals := digits |};
                      doc_targetPercentage := target |};
     balanceWei := wei;
     latestPrice := price |}.

Definition readings : list AssetReading :=
  [ reading "WBTC" 2 (1 # 2) 300 (Some 100);
    reading "USDC" 1 (1 # 4) 1000 (Some 1);
    reading "DAI" 1 (1 # 4) 50 None ].

End ReadingExample.

Section HandoverTerms.
Import World.

(** [Hands P c]: whatever [c] does, the swaps it hands to the venue all
    satisfy [P], and what was handed over before stays. *)
Definition Hands (P : RebalanceUtils.SwapOperation -> Prop) {A : Type} (c : M A) : Prop :=
  forall t r t', c t = (r, t') ->
                 exists new, submitted t' = (submitted t ++ new)%list /\ Forall P new.

(** Events other than the hand-over of a swap of [swapUtils]. *)
Definition notAHandover (e : Event) : Prop :=
  match e with UniswapSwap _ _ _ => False | _ => True end.

End HandoverTerms.

Section StoreTerms.
Import World PortfolioSchema.

(** The document saved for an entry of a request. *)
Definition savedAs (portfolioRef : string) (a : AllocationInput) : Event :=
  AllocationSaved portfolioRef (PortfolioService.toUpperCase (assetSymbol a))
                  (targetPercentage a).

(** A database on which the [pre('save')] hook of [Allocation] runs: a save
    the hook refuses does not go through. *)
Definition enforcesPreSave (env : Environment) : Prop :=
  forall t portfolioId symbol target e,
    AllocationModel.preSave (AllocationModel.storedTargets portfolioId t) target
    = Js.Throw e ->
    writeFault env t (AllocationSaved portfolioId symbol target) <> None.

End StoreTerms.

(** Environments of the portfolio service, made from [ExecutorExample.venue]. *)
Module ServiceFaultExample.
Import World PortfolioSchema.

Definition venueWith (knownAsset : string -> bool) (scheduler : Js.Result unit)
    (fault : Trace -> Event -> option Js.Exception) : Environment :=
  {| findPortfolio := findPortfolio ExecutorExample.venue;
     currentAllocations := currentAllocations ExecutorExample.venue;
     refreshBalances := refreshBalances ExecutorExample.venue;
     writeFault := fault;
     approvalAnswer := approvalAnswer ExecutorExample.venue;
     uniswapAnswer := uniswapAnswer ExecutorExample.venue;
     confirmed := confirmed ExecutorExample.venue;
     dynamicAnswer := dynamicAnswer ExecutorExample.venue;
     portfolioBalances := portfolioBalances ExecutorExample.venue;
     allocationDocs := allocationDocs ExecutorExample.venue;
     activeAsset := fun _ symbol => knownAsset symbol;
     scheduling := fun _ _ => scheduler;
     portfolioOwner := portfolioOwner ExecutorExample.venue;
     castFailure := castFailure ExecutorExample.venue |}.

(** DAI is not among the active assets. *)
Definition withoutDai : Environment :=
  venueWith (fun symbol => negb (String.eqb symbol "DAI")) (Js.Ok tt) (fun _ _ => None).

Definition withDai : list AllocationInput :=
  [ SumExample.target "wbtc" (1 # 2); SumExample.target "dai" (1 # 4);
    SumExample.target "usdc" (1 # 4) ].

(** The scheduler is down. *)
Definition schedulerDown : Environment :=
  venueWith (fun _ => true) (Js.Throw (Js.Error "agenda not started")) (fun _ _ => None).

(** A database that runs the [pre('save')] hook and refuses nothing else. *)
Definition hooked : Environment :=
  venueWith (fun _ => true) (Js.Ok tt)
    (fun t e =>
       match e with
       | AllocationSaved portfolioId _ target =>
           match AllocationModel.preSave (AllocationModel.storedTargets portfolioId t)
                                         target with
           | Js.Throw x => Some x
           | Js.Ok _ => None
           end
       | _ => None
       end).

(** Targets of 0.5 and 0.5005: 1.0005 in all. *)
Definition overOne : list AllocationInput :=
  [ SumExample.target "WBTC" (1 # 2);
    SumExample.target "WETH" (Js.double (1001 # 2000)) ].

(** Targets of 0.5 and 0.501: as doubles they add up to the double next below
    1.001, though 0.501 itself is a double above 501/1000. *)
Definition atTheEdge : list AllocationInput :=
  [ SumExample.target "WBTC" (1 # 2);
    SumExample.target "WETH" (Js.double (501 # 1000)) ].

End ServiceFaultExample.

(** Two rows of the editor and the assets to choose from. *)
Module EditorExample.
Import AllocationConfig.

Definition rows : list AllocationConfig :=
  [ {| assetSymbol := "WBTC"; targetPercentage := 1 # 2 |};
    {| assetSymbol := "WETH"; targetPercentage := 1 # 2 |} ].

Definition assets : list BalanceUtils.Asset :=
  [ {| BalanceUtils.symbol := "WBTC"; BalanceUtils.address := "0x1";
       BalanceUtils.decimals := 8 |};
    {| BalanceUtils.symbol := "USDC"; BalanceUtils.address := "0x2";
       BalanceUtils.decimals := 6 |} ].

End EditorExample.

Section FillTerms.
Import BalanceUtils RebalanceUtils.

(** The swaps pushed while the loop walks the buy assets, when each buy asset
    is either served in full or skipped with at most 0.01 USD missing. *)
Inductive Fills : list Trade -> list SwapOperation -> Prop :=
| FillsNil : Fills [] []
| FillsSkip (b : Trade) (rest : list Trade) (es : list SwapOperation) :
    difference b <= 1 # 100 -> Fills rest es -> Fills (b :: rest) es
| FillsSwap (b : Trade) (rest : list Trade) (e : SwapOperation) (es : list SwapOperation) :
    tokenOutSymbol e = tradeSymbol b ->
    amountInUSD e == difference b ->
    Fills rest es -> Fills (b :: rest) (e :: es).

End FillTerms.

Section FlagTerms.
Import BalanceUtils.

(** An allocation with its [needsRebalance] flag raised. *)
Definition flagged (a : PortfolioAllocation) : PortfolioAllocation :=
  {| asset := asset a;
     targetPercentage := targetPercentage a;
     currentPercentage := currentPercentage a;
     currentValueUSD := currentValueUSD a;
     currentBalance := currentBalance a;
     gap := gap a;
     needsRebalance := true;
     currentPriceUSD := currentPriceUSD a |}.

End FlagTerms.

(* ================================================================== *)
(** * Properties *)
(* ================================================================== *)

(** ** Comparisons, sums and the stable sort *)

Lemma gt_true (a b : Q) : Js.gt a b = true <-> b < a.
Proof.
  unfold Js.gt. rewrite negb_true_iff.
  split; intro H.
  - apply Qnot_le_lt. intro Hle. apply Qle_bool_iff in Hle. congruence.
  - destruct (Qle_bool a b) eqn:E; [|reflexivity].
    apply Qle_bool_iff in E. exfalso. apply (Qlt_not_le b a); assumption.
Qed.

Lemma gt_false (a b : Q) : Js.gt a b = false <-> a <= b.
Proof.
  unfold Js.gt. rewrite negb_false_iff. apply Qle_bool_iff.
Qed.

Lemma lt_true (a b : Q) : Js.lt a b = true <-> a < b.
Proof. unfold Js.lt. apply (gt_true b a). Qed.

Lemma lt_false (a b : Q) : Js.lt a b = false <-> b <= a.
Proof. unfold Js.lt. apply (gt_false b a). Qed.

Lemma strictEq_true (a b : Q) : Js.strictEq a b = true <-> a == b.
Proof. unfold Js.strictEq. apply Qeq_bool_iff. Qed.

Lemma Math_min_spec (a b : Q) :
  (a <= b /\ Js.Math_min a b = a) \/ (b < a /\ Js.Math_min a b = b).
Proof.
  unfold Js.Math_min. destruct (Qle_bool a b) eqn:E.
  - left. split; [apply Qle_bool_iff; exact E | reflexivity].
  - right. split; [|reflexivity]. apply gt_true. unfold Js.gt. rewrite E. reflexivity.
Qed.

Lemma Math_min_le_l (a b : Q) : Js.Math_min a b <= a.
Proof. destruct (Math_min_spec a b) as [[H ->]|[H ->]]; lra. Qed.

Lemma Math_min_le_r (a b : Q) : Js.Math_min a b <= b.
Proof. destruct (Math_min_spec a b) as [[H ->]|[H ->]]; lra. Qed.

Lemma Math_min_pos (a b : Q) : 0 < a -> 0 < b -> 0 < Js.Math_min a b.
Proof. intros; destruct (Math_min_spec a b) as [[H' ->]|[H' ->]]; lra. Qed.

Section Sums.
Variable A : Type.
Variable f : A -> Q.

Lemma fold_sum_shift (l : list A) (acc : Q) :
  fold_left (fun sum x => sum + f x) l acc == acc + Js.sumOf f l.
Proof.
  unfold Js.sumOf. revert acc.
  induction l as [|x l IH]; intros acc; simpl.
  - lra.
  - rewrite IH. rewrite (IH (0 + f x)). lra.
Qed.

Lemma sumOf_nil : Js.sumOf f [] == 0.
Proof. reflexivity. Qed.

Lemma sumOf_cons (x : A) (l : list A) : Js.sumOf f (x :: l) == f x + Js.sumOf f l.
Proof. unfold Js.sumOf at 1. simpl. rewrite fold_sum_shift. lra. Qed.

Lemma sumOf_app (l1 l2 : list A) : Js.sumOf f (l1 ++ l2) == Js.sumOf f l1 + Js.sumOf f l2.
Proof.
  induction l1 as [|x l1 IH]; simpl.
  - rewrite sumOf_nil. lra.
  - rewrite !sumOf_cons, IH. lra.
Qed.

Lemma sumOf_perm (l1 l2 : list A) : Permutation l1 l2 -> Js.sumOf f l1 == Js.sumOf f l2.
Proof.
  induction 1 as [|x l l' _ IH|x y l|l l' l'' _ IH1 _ IH2].
  - reflexivity.
  - rewrite !sumOf_cons, IH. reflexivity.
  - rewrite !sumOf_cons. lra.
  - rewrite IH1. exact IH2.
Qed.

Lemma sumOf_nonneg (l : list A) : (forall x, In x l -> 0 <= f x) -> 0 <= Js.sumOf f l.
Proof.
  induction l as [|x l IH]; intros H.
  - rewrite sumOf_nil. lra.
  - rewrite sumOf_cons.
    assert (0 <= f x) by (apply H; left; reflexivity).
    assert (0 <= Js.sumOf f l) by (apply IH; intros; apply H; right; assumption).
    lra.
Qed.
End Sums.

Section Sorting.
Variable A : Type.
Variable key : A -> Q.

Lemma insertDesc_perm (x : A) (l : list A) : Permutation (x :: l) (Js.insertDesc key x l).
Proof.
  induction l as [|y l IH]; simpl.
  - apply Permutation_refl.
  - destruct (Qle_bool (key y) (key x)).
    + apply Permutation_refl.
    + eapply perm_trans; [apply perm_swap|]. apply perm_skip. exact IH.
Qed.

Lemma sortDesc_perm (l : list A) : Permutation l (Js.sortDesc key l).
Proof.
  induction l as [|x l IH]; simpl.
  - apply perm_nil.
  - eapply perm_trans; [apply perm_skip; exact IH|]. apply insertDesc_perm.
Qed.

Lemma sortDesc_In (x : A) (l : list A) : In x (Js.sortDesc key l) <-> In x l.
Proof.
  split; intro H.
  - eapply Permutation_in; [apply Permutation_sym, sortDesc_perm | exact H].
  - eapply Permutation_in; [apply sortDesc_perm | exact H].
Qed.

Lemma filter_perm (p : A -> bool) (l1 l2 : list A) :
  Permutation l1 l2 -> Permutation (filter p l1) (filter p l2).
Proof.
  induction 1 as [|x l l' _ IH|x y l|l l' l'' _ IH1 _ IH2]; simpl.
  - apply perm_nil.
  - destruct (p x); [apply perm_skip|]; exact IH.
  - destruct (p x), (p y); try apply Permutation_refl. apply perm_swap.
  - eapply perm_trans; eassumption.
Qed.
End Sorting.

(* ================================================================== *)
(** ** The needs-rebalance gate of the two deviation calculators *)
(* ================================================================== *)

Section Gates.
Import BalanceUtils.

Lemma deviationOf_gate (p : Portfolio) (pb : RebalanceService.PortfolioBalance)
    (a : AllocationDoc) (d : RebalanceService.DeviationResult) :
  RebalanceService.deviationOf p pb a = Some d ->
  RebalanceService.needsRebalance d
  = Js.gt (RebalanceService.deviation d)
          (RebalanceService.orDefault (rebalanceThreshold p) (5 # 100))
  /\ RebalanceService.deviation d
     = Qabs (RebalanceService.currentPercentage d - RebalanceService.targetPercentage d).
Proof.
  unfold RebalanceService.deviationOf.
  destruct (find _ _) as [b|]; [|discriminate].
  intros [= <-]. simpl. split; reflexivity.
Qed.

Lemma calculateDeviations_In (p : Portfolio) (pb : RebalanceService.PortfolioBalance)
    (allocs : list AllocationDoc) (devs : list RebalanceService.DeviationResult)
    (d : RebalanceService.DeviationResult) :
  RebalanceService.calculateDeviations (Some p) pb allocs = Js.Ok devs ->
  In d devs ->
  exists a, In a allocs /\ RebalanceService.deviationOf p pb a = Some d.
Proof.
  unfold RebalanceService.calculateDeviations. intros [= <-] Hin.
  apply in_flat_map in Hin. destruct Hin as [a [Ha Hd]].
  exists a. split; [exact Ha|].
  destruct (RebalanceService.deviationOf p pb a) as [d'|]; simpl in Hd.
  - destruct Hd as [->|[]]. reflexivity.
  - destruct Hd.
Qed.

Lemma allocationOf_gate (balances : list CurrentBalance) (total : Q) (doc : AllocationDoc) :
  match find (fun b => String.eqb (cb_symbol b) (symbol (assetId doc))) balances with
  | Some _ =>
      needsRebalance (allocationOf balances total doc)
      = Js.gt (Qabs (gap (allocationOf balances total doc))) (1 # 1000)
  | None => needsRebalance (allocationOf balances total doc) = true
  end.
Proof.
  unfold allocationOf.
  destruct (find _ balances) as [b|]; reflexivity.
Qed.

Lemma find_existsb (A : Type) (p : A -> bool) (l : list A) :
  existsb p l = match find p l with Some _ => true | None => false end.
Proof.
  induction l as [|x l IH]; simpl; [reflexivity|].
  destruct (p x); simpl; [reflexivity | exact IH].
Qed.

Lemma calculateCurrentAllocations_gate (balances : list CurrentBalance)
    (portfolio : option Portfolio) (docs : list AllocationDoc)
    (result : list PortfolioAllocation) (a : PortfolioAllocation) :
  calculateCurrentAllocations balances portfolio docs = Js.Ok result ->
  In a result ->
  needsRebalance a
  = if hasBalance balances a then Js.gt (Qabs (gap a)) (1 # 1000) else true.
Proof.
  unfold calculateCurrentAllocations.
  destruct (Js.strictEq _ 0).
  - intros [= <-] [].
  - destruct portfolio as [p|]; [|discriminate].
    intros [= <-] Hin. apply in_map_iff in Hin. destruct Hin as [doc [<- _]].
    pose proof (allocationOf_gate balances (Js.sumOf usd balances) doc) as G.
    unfold hasBalance. rewrite find_existsb.
    assert (Hs : symbol (asset (allocationOf balances (Js.sumOf usd balances) doc))
                 = symbol (assetId doc)).
    { unfold allocationOf. destruct (find _ balances); reflexivity. }
    rewrite Hs. destruct (find _ balances); exact G.
Qed.
End Gates.

(** C6, as stated, fails on [calculateCurrentAllocations]: the portfolio's
    threshold is 0.05 and asset A deviates by 0.049, yet A is flagged. *)
Lemma gate_ignores_portfolio_threshold :
  BalanceUtils.rebalanceThreshold GateExample.portfolio = Some (5 # 100)
  /\ match BalanceUtils.calculateCurrentAllocations
             GateExample.balances (Some GateExample.portfolio) GateExample.allocations with
     | Js.Ok (a :: _) =>
         Qabs (BalanceUtils.gap a) == 49 # 1000 /\ BalanceUtils.needsRebalance a = true
     | _ => False
     end.
Proof. split; [reflexivity|]. vm_compute. split; reflexivity. Qed.

(** C6 (amended).  For a portfolio with [rebalanceThreshold = 0.05]:
    [RebalanceService.calculateDeviations] flags an asset exactly when its
    deviation is strictly greater than 0.05, so 0.049 and 0.05 itself give
    [false] and 0.051 gives [true]; [calculateCurrentAllocations] does not read
    the portfolio's threshold: it flags an asset exactly when [|gap| > 0.001],
    and always when the asset has no balance entry. *)
Theorem needsRebalance_gates
    (p : BalanceUtils.Portfolio)
    (pb : RebalanceService.PortfolioBalance) (docs : list BalanceUtils.AllocationDoc)
    (devs : list RebalanceService.DeviationResult) (d : RebalanceService.DeviationResult)
    (balances : list BalanceUtils.CurrentBalance)
    (result : list BalanceUtils.PortfolioAllocation) (a : BalanceUtils.PortfolioAllocation) :
  BalanceUtils.rebalanceThreshold p = Some (5 # 100) ->
  (RebalanceService.calculateDeviations (Some p) pb docs = Js.Ok devs -> In d devs ->
     (RebalanceService.needsRebalance d = true <-> 5 # 100 < RebalanceService.deviation d)
     /\ (RebalanceService.deviation d == 49 # 1000 -> RebalanceService.needsRebalance d = false)
     /\ (RebalanceService.deviation d == 51 # 1000 -> RebalanceService.needsRebalance d = true)
     /\ (RebalanceService.deviation d == 5 # 100 -> RebalanceService.needsRebalance d = false))
  /\ (BalanceUtils.calculateCurrentAllocations balances (Some p) docs = Js.Ok result ->
      In a result ->
      (hasBalance balances a = true ->
         (BalanceUtils.needsRebalance a = true <-> 1 # 1000 < Qabs (BalanceUtils.gap a)))
      /\ (hasBalance balances a = false -> BalanceUtils.needsRebalance a = true)).
Proof.
  intros Hthr. split.
  - intros Hcalc Hin.
    destruct (calculateDeviations_In _ _ _ _ _ Hcalc Hin) as [doc [_ Hdev]].
    destruct (deviationOf_gate _ _ _ _ Hdev) as [G _].
    rewrite Hthr in G. simpl in G.
    split; [|split; [|split]].
    + rewrite G. apply gt_true.
    + intro H. rewrite G. apply gt_false. rewrite H. unfold Qle; simpl; lia.
    + intro H. rewrite G. apply gt_true. rewrite H. unfold Qlt; simpl; lia.
    + intro H. rewrite G. apply gt_false. rewrite H. unfold Qle; simpl; lia.
  - intros Hcalc Hin.
    pose proof (calculateCurrentAllocations_gate _ _ _ _ _ Hcalc Hin) as G.
    split; intro Hb; rewrite Hb in G.
    + rewrite G. apply gt_true.
    + exact G.
Qed.

(** The theorem at the example portfolio: the deviation calculator of the
    service leaves A (deviation 0.049) unflagged. *)
Lemma needsRebalance_gates_witness :
  match RebalanceService.calculateDeviations (Some GateExample.portfolio)
          GateExample.portfolioBalance GateExample.allocations with
  | Js.Ok (d :: _) =>
      RebalanceService.deviation d == 49 # 1000 /\ RebalanceService.needsRebalance d = false
  | _ => False
  end.
Proof.
  destruct (RebalanceService.calculateDeviations (Some GateExample.portfolio)
              GateExample.portfolioBalance GateExample.allocations) as [devs|e] eqn:E;
    [|discriminate E].
  destruct devs as [|d devs]; [discriminate E|].
  assert (Hd : RebalanceService.deviation d == 49 # 1000).
  { injection E as E1 _. rewrite <- E1. vm_compute. reflexivity. }
  split; [exact Hd|].
  refine (proj1 (proj2 (proj1
    (@needsRebalance_gates GateExample.portfolio GateExample.portfolioBalance
       GateExample.allocations (d :: devs) d GateExample.balances [] 
       (BalanceUtils.allocationOf GateExample.balances 1000
          {| BalanceUtils.assetId := GateExample.assetA;
             BalanceUtils.doc_targetPercentage := 1 # 2 |})
       eq_refl) E (or_introl eq_refl))) Hd).
Defined.

(* ================================================================== *)
(** ** Binary64 rounding *)
(* ================================================================== *)

Lemma pow2_pos (e : Z) : 0 < Js.pow2 e.
Proof. apply Qpower_0_lt. reflexivity. Qed.

Lemma pow2_plus (a b : Z) : Js.pow2 (a + b) == Js.pow2 a * Js.pow2 b.
Proof. apply Qpower_plus. discriminate. Qed.

Lemma pow2_twice (e : Z) : Js.pow2 (e + 1) == 2 * Js.pow2 e.
Proof. rewrite pow2_plus. change (Js.pow2 1) with 2. ring. Qed.

Lemma pow2_inject (n : Z) : (0 <= n)%Z -> Js.pow2 n == inject_Z (2 ^ n).
Proof. intro H. unfold Js.pow2. rewrite Zpower_Qpower by exact H. reflexivity. Qed.

Lemma quotient_le (a b n d : Q) :
  0 <= a -> a <= n -> 0 < d -> d <= b -> a / b <= n / d.
Proof.
  intros Ha Han Hd Hdb.
  assert (Hb : 0 < b) by lra.
  apply Qle_shift_div_l; [exact Hd|].
  apply Qle_trans with (a / b * b).
  - apply Qmult_le_compat_nonneg.
    + split; [|apply Qle_refl]. apply Qle_shift_div_l; [exact Hb | lra].
    + split; lra.
  - assert (E : a / b * b == a) by (field; lra). lra.
Qed.

(** [exponent] does not overshoot. *)
Lemma exponent_le (q : Q) : ~ q == 0 -> Js.pow2 (Js.exponent q) <= Qabs q.
Proof.
  intro Hq. unfold Js.exponent.
  set (n := Z.abs (Qnum q)). set (d := Zpos (Qden q)).
  destruct (Qle_bool (Js.pow2 (Z.log2 n - Z.log2 d)) (Qabs q)) eqn:H.
  - apply Qle_bool_iff. exact H.
  - assert (Hn : (0 < n)%Z).
    { unfold n. destruct q as [num den]. unfold Qeq in Hq. simpl in *. lia. }
    assert (Hd : (0 < d)%Z) by (unfold d; lia).
    destruct (Z.log2_spec n Hn) as [Hn1 _].
    destruct (Z.log2_spec d Hd) as [_ Hd2].
    pose proof (Z.log2_nonneg n) as Ln. pose proof (Z.log2_nonneg d) as Ld.
    replace (Z.log2 n - Z.log2 d - 1)%Z with (Z.log2 n - Z.succ (Z.log2 d))%Z by lia.
    unfold Js.pow2 at 1. rewrite Qpower_minus by discriminate.
    fold (Js.pow2 (Z.log2 n)). fold (Js.pow2 (Z.succ (Z.log2 d))).
    rewrite !pow2_inject by lia.
    assert (E : Qabs q == inject_Z n / inject_Z d).
    { destruct q as [num den]. unfold n, d. simpl. apply Qmake_Qdiv. }
    rewrite E. apply quotient_le.
    + change 0 with (inject_Z 0). rewrite <- Zle_Qle. lia.
    + rewrite <- Zle_Qle. exact Hn1.
    + change 0 with (inject_Z 0). rewrite <- Zlt_Qlt. exact Hd.
    + rewrite <- Zle_Qle. lia.
Qed.

Lemma roundHalfEven_near (x : Q) : Qabs (inject_Z (Js.roundHalfEven x) - x) <= 1 # 2.
Proof.
  unfold Js.roundHalfEven.
  pose proof (Qfloor_le x) as H1. pose proof (Qlt_floor x) as H2.
  rewrite inject_Z_plus in H2. change (inject_Z 1) with 1 in H2.
  destruct (Qcompare (x - inject_Z (Qfloor x)) (1 # 2)) eqn:C.
  - apply Qeq_alt in C.
    destruct (Z.even (Qfloor x)); [|rewrite inject_Z_plus; change (inject_Z 1) with 1];
      apply Qabs_Qle_condition; split; lra.
  - apply Qlt_alt in C. apply Qabs_Qle_condition; split; lra.
  - apply Qgt_alt in C. rewrite inject_Z_plus. change (inject_Z 1) with 1.
    apply Qabs_Qle_condition; split; lra.
Qed.

Lemma ulp_pos (q : Q) : 0 < Js.ulp q.
Proof. apply pow2_pos. Qed.

Lemma double_near (q : Q) : Qabs (Js.double q - q) <= (1 # 2) * Js.ulp q.
Proof.
  unfold Js.double. pose proof (ulp_pos q) as Hu. destruct (Qeq_bool q 0) eqn:Hz.
  - apply Qeq_bool_iff in Hz. apply Qabs_Qle_condition. split; lra.
  - pose proof (roundHalfEven_near (q / Js.ulp q)) as Hr.
    set (r := inject_Z (Js.roundHalfEven (q / Js.ulp q))) in *.
    assert (E : r * Js.ulp q - q == (r - q / Js.ulp q) * Js.ulp q) by (field; lra).
    rewrite Qred_correct, E, Qabs_Qmult. rewrite (Qabs_pos (Js.ulp q)) by lra.
    apply Qmult_le_compat_r; [exact Hr | lra].
Qed.

(** The double nearest to [q] is [q] up to a relative error of [2^-53], and
    up to [2^-1075] where the doubles thin out near zero. *)
Lemma double_error (q : Q) :
  Qabs (Js.double q - q) <= Qabs q * Js.pow2 (-53) + Js.pow2 (-1075).
Proof.
  pose proof (pow2_pos (-53)) as P53. pose proof (pow2_pos (-1075)) as P1075.
  pose proof (Qabs_nonneg q) as Hq.
  assert (Hrel : 0 <= Qabs q * Js.pow2 (-53)) by (apply Qmult_le_0_compat; lra).
  destruct (Qeq_bool q 0) eqn:Hz.
  - unfold Js.double. rewrite Hz. apply Qeq_bool_iff in Hz.
    apply Qabs_Qle_condition. split; lra.
  - assert (Hnz : ~ q == 0) by (intro H; apply Qeq_bool_iff in H; congruence).
    apply Qle_trans with ((1 # 2) * Js.ulp q); [apply double_near|].
    unfold Js.ulp. destruct (Z.max_spec (Js.exponent q) (-1022)) as [[_ ->]|[_ ->]].
    + change (-1022 - 52)%Z with (-1075 + 1)%Z. rewrite pow2_twice. lra.
    + pose proof (exponent_le q Hnz) as He.
      replace (Js.exponent q - 52)%Z with (Js.exponent q + -53 + 1)%Z by lia.
      rewrite pow2_twice, pow2_plus.
      assert (Js.pow2 (Js.exponent q) * Js.pow2 (-53) <= Qabs q * Js.pow2 (-53))
        by (apply Qmult_le_compat_r; lra).
      lra.
Qed.

(** The doubles of a few decimal literals, as any JavaScript engine has
    them: 0.1, 0.001 and 0.501 are not dyadic, 1.75 is. *)
Lemma double_of_literals :
  Js.double (1 # 10) == 3602879701896397 # 36028797018963968
  /\ Js.double (1 # 1000) == 1152921504606847 # 1152921504606846976
  /\ Js.double (501 # 1000) == 4512606826625237 # 9007199254740992
  /\ Js.double (7 # 4) == 7 # 4
  /\ Js.fadd (Js.double (1 # 10)) (Js.double (2 # 10))
     == 1351079888211149 # 4503599627370496.
Proof. repeat split; vm_compute; reflexivity. Qed.

(* ================================================================== *)
(** ** Rounding of token amounts *)
(* ================================================================== *)

Lemma pow10_pos (n : nat) : (0 < Js.pow10 n)%Z.
Proof. unfold Js.pow10. apply Z.pow_pos_nonneg; lia. Qed.

Lemma nearest_bounds (x : Q) (f : nat) :
  inject_Z (Js.nearest x f) <= x * inject_Z (Js.pow10 f) + (1 # 2)
  /\ x * inject_Z (Js.pow10 f) + (1 # 2) < inject_Z (Js.nearest x f) + 1.
Proof.
  unfold Js.nearest. split.
  - apply Qfloor_le.
  - pose proof (Qlt_floor (x * inject_Z (Js.pow10 f) + (1 # 2))) as H.
    rewrite inject_Z_plus in H. exact H.
Qed.

Lemma parseUnits_same_digits (m : Z) (d : nat) :
  Js.parseUnits (Js.Numeral m d) d = Js.Ok m.
Proof.
  unfold Js.parseUnits. rewrite Nat.leb_refl, Nat.sub_diag.
  change (Js.pow10 0) with 1%Z. rewrite Z.mul_1_r. reflexivity.
Qed.

(** [parseUnits(x.toFixed(d), d)] is within half a unit of [x * 10^d]. *)
Lemma toFixed_parseUnits_nearest (q : Q) (d : nat) (text : Js.FixedString) (n : Z) :
  Js.toFixed (Js.Finite q) d = Js.Ok text ->
  Js.parseUnits text d = Js.Ok n ->
  Qabs (inject_Z n - q * inject_Z (Js.pow10 d)) <= 1 # 2.
Proof.
  unfold Js.toFixed.
  destruct (100 <? d)%nat; [discriminate|].
  destruct (Qle_bool _ (Qabs q)).
  - intros [= <-]. discriminate.
  - destruct (Js.lt q 0); intros [= <-]; rewrite parseUnits_same_digits;
      intros [= <-]; apply Qabs_Qle_condition.
    + destruct (nearest_bounds (- q) d) as [B1 B2].
      rewrite inject_Z_opp. split; lra.
    + destruct (nearest_bounds q d) as [B1 B2]. split; lra.
Qed.

(** Where [toFixed] rounds up, the result exceeds the exact quotient. *)
Lemma toFixed_may_round_up :
  match RebalanceUtils.calculateTokenAmounts 7 4 0 with
  | Js.Ok r => RebalanceUtils.amountTokens r = 2%Z
               /\ RebalanceUtils.amountFormatted r = Js.Finite (7 / 4)
               /\ 7 / 4 < inject_Z (RebalanceUtils.amountTokens r)
  | Js.Throw _ => False
  end.
Proof. vm_compute. repeat split; reflexivity. Qed.

(* ================================================================== *)
(** ** The loop of [calculateRebalanceSwaps], step by step *)
(* ================================================================== *)

Section Planner.
Import BalanceUtils RebalanceUtils.

Lemma buyStep_inv (allocations : list PortfolioAllocation) (buyAsset : Trade)
    (toSell : list Trade) (swaps : list SwapOperation)
    (toSell' : list Trade) (swaps' : list SwapOperation) :
  buyStep allocations buyAsset (toSell, swaps) = Js.Ok (toSell', swaps') ->
  Step allocations buyAsset toSell swaps toSell' swaps'.
Proof.
  unfold buyStep.
  destruct (reduceMax toSell) as [[i s]|e] eqn:Hmax; simpl; [|discriminate].
  destruct (Js.gt (difference s) (1 # 100)) eqn:Hgt.
  2:{ intros [= <- <-]. eapply Skip; eauto. }
  destruct (findAllocation allocations (tv_symbol (base s))) as [sa|] eqn:Hsa.
  2:{ intros [= <- <-]. eapply Skip; eauto. }
  destruct (findAllocation allocations (tv_symbol (base buyAsset))) as [ba|] eqn:Hba.
  2:{ intros [= <- <-]. eapply Skip; eauto. }
  destruct (currentPriceUSD sa) as [ps|] eqn:Hps; cbn [logged Js.bind]; [|discriminate].
  destruct (currentPriceUSD ba) as [pb|] eqn:Hpb; cbn [logged Js.bind]; [|discriminate].
  destruct (Js.toFixed (Js.fdiv (Js.Math_min (difference s) (difference buyAsset)) ps)
                       (decimals (tv_asset (base s))))
    as [inText|e] eqn:Hin; simpl; [|discriminate].
  destruct (Js.parseUnits inText (decimals (tv_asset (base s)))) as [tin|e] eqn:Hpin;
    simpl; [|discriminate].
  destruct (Js.toFixed (Js.fdiv (Js.Math_min (difference s) (difference buyAsset)) pb)
                       (decimals (tv_asset (base buyAsset))))
    as [outText|e] eqn:Hout; simpl; [|discriminate].
  destruct (Js.parseUnits outText (decimals (tv_asset (base buyAsset)))) as [tout|e] eqn:Hpout;
    simpl; [|discriminate].
  intros [= <- <-].
  eapply Emit with (i := i) (sellAsset := s) (amountIn := tin) (amountOut := tout); eauto.
  - apply gt_true. exact Hgt.
  - unfold tokensOf. rewrite Hin. simpl. exact Hpin.
  - unfold tokensOf. rewrite Hout. simpl. exact Hpout.
Qed.

Lemma buyLoop_run (allocations : list PortfolioAllocation) (toBuy : list Trade) :
  forall toSell swaps toSell' swaps',
    buyLoop allocations toBuy (toSell, swaps) = Js.Ok (toSell', swaps') ->
    Run allocations toBuy toSell swaps toSell' swaps'.
Proof.
  induction toBuy as [|b rest IH]; intros toSell swaps toSell' swaps'; cbn [buyLoop].
  - intros [= <- <-]. constructor.
  - destruct (buyStep allocations b (toSell, swaps)) as [[toSell1 swaps1]|e] eqn:Hstep;
      cbn [Js.bind]; [|discriminate].
    intro Hrest. econstructor.
    + apply buyStep_inv. exact Hstep.
    + apply IH. exact Hrest.
Qed.

End Planner.

(* ================================================================== *)
(** ** The sell asset picked by [reduce] *)
(* ================================================================== *)

Section ReduceMax.
Import BalanceUtils RebalanceUtils.

Lemma reduceFrom_spec (l : list Trade) :
  forall (j i k : nat) (m r : Trade),
    reduceFrom (j, m) i l = (k, r) ->
    (k = j /\ r = m /\ forall a, In a l -> difference a <= difference m)
    \/ (exists l1 l2, l = (l1 ++ r :: l2)%list /\ k = (i + List.length l1)%nat
                      /\ difference m < difference r
                      /\ (forall a, In a l1 -> difference a < difference r)
                      /\ (forall a, In a l2 -> difference a <= difference r)).
Proof.
  induction l as [|a rest IH]; intros j i k m r; cbn [reduceFrom snd].
  - intros [= <- <-]. left. repeat split. intros a [].
  - destruct (Js.gt (difference a) (difference m)) eqn:Hgt; intro H.
    + apply gt_true in Hgt.
      destruct (IH _ _ _ _ _ H) as [[-> [-> Hall]]|[l1 [l2 [-> [-> [Hlt [H1 H2]]]]]]].
      * right. exists [], rest.
        split; [reflexivity|]. split; [simpl; lia|]. split; [exact Hgt|].
        split; [intros x []|exact Hall].
      * right. exists (a :: l1), l2.
        split; [reflexivity|]. split; [simpl; lia|]. split; [lra|].
        split; [|exact H2].
        intros x [<-|Hx]; [exact Hlt | apply H1; exact Hx].
    + apply gt_false in Hgt.
      destruct (IH _ _ _ _ _ H) as [[-> [-> Hall]]|[l1 [l2 [-> [-> [Hlt [H1 H2]]]]]]].
      * left. split; [reflexivity|]. split; [reflexivity|].
        intros x [<-|Hx]; [exact Hgt | apply Hall; exact Hx].
      * right. exists (a :: l1), l2.
        split; [reflexivity|]. split; [simpl; lia|]. split; [exact Hlt|].
        split; [|exact H2].
        intros x [<-|Hx]; [lra | apply H1; exact Hx].
Qed.

(** [reduce] returns the first element whose [difference] is largest. *)
Lemma reduceMax_spec (l : list Trade) (k : nat) (r : Trade) :
  reduceMax l = Js.Ok (k, r) ->
  exists l1 l2, l = (l1 ++ r :: l2)%list /\ k = List.length l1
                /\ (forall a, In a l1 -> difference a < difference r)
                /\ (forall a, In a l2 -> difference a <= difference r).
Proof.
  destruct l as [|m rest]; cbn [reduceMax]; [discriminate|].
  intros [= H].
  destruct (reduceFrom_spec _ _ _ _ _ _ H) as [[-> [-> Hall]]|[l1 [l2 [-> [-> [Hlt [H1 H2]]]]]]].
  - exists [], rest.
    split; [reflexivity|]. split; [reflexivity|]. split; [intros a []|exact Hall].
  - exists (m :: l1), l2.
    split; [reflexivity|]. split; [reflexivity|]. split; [|exact H2].
    intros x [<-|Hx]; [exact Hlt | apply H1; exact Hx].
Qed.

Lemma reduceMax_max (l : list Trade) (k : nat) (r : Trade) :
  reduceMax l = Js.Ok (k, r) ->
  In r l /\ forall a, In a l -> difference a <= difference r.
Proof.
  intro H. destruct (reduceMax_spec _ _ _ H) as [l1 [l2 [-> [_ [H1 H2]]]]].
  split.
  - apply in_or_app. right. left. reflexivity.
  - intros a Ha. apply in_app_or in Ha. destruct Ha as [Ha|[<-|Ha]].
    + apply Qlt_le_weak, H1, Ha.
    + lra.
    + apply H2, Ha.
Qed.

Lemma reduceMax_nonempty (l : list Trade) : l <> [] -> exists k r, reduceMax l = Js.Ok (k, r).
Proof.
  destruct l as [|m rest]; [congruence|]. intros _. cbn [reduceMax].
  destruct (reduceFrom (0%nat, m) 1 rest) as [k r]. eauto.
Qed.

Lemma subtractAt_split (l1 l2 : list Trade) (r : Trade) (amount : Q) :
  subtractAt (List.length l1) amount (l1 ++ r :: l2)
  = (l1 ++ {| base := base r; difference := difference r - amount |} :: l2)%list.
Proof.
  induction l1 as [|a l1 IH]; simpl; [reflexivity|]. rewrite IH. reflexivity.
Qed.

Lemma subtractAt_length (i : nat) (amount : Q) (l : list Trade) :
  List.length (subtractAt i amount l) = List.length l.
Proof.
  revert i. induction l as [|a l IH]; intros [|i]; simpl; auto.
Qed.

Lemma subtractAt_bases (i : nat) (amount : Q) (l : list Trade) :
  map base (subtractAt i amount l) = map base l.
Proof.
  revert i. induction l as [|a l IH]; intros [|i]; simpl; auto. rewrite IH. reflexivity.
Qed.

End ReduceMax.

(* ================================================================== *)
(** ** What a plan sells and buys *)
(* ================================================================== *)

Section Conservation.
Import BalanceUtils RebalanceUtils.

Lemma soldUSD_snoc (X : string) (swaps : list SwapOperation) (e : SwapOperation) :
  soldUSD X (swaps ++ [e])
  == soldUSD X swaps + (if String.eqb (tokenInSymbol e) X then amountInUSD e else 0).
Proof.
  unfold soldUSD, swapsFrom. rewrite filter_app, sumOf_app. simpl.
  destruct (String.eqb (tokenInSymbol e) X).
  - rewrite sumOf_cons, sumOf_nil. lra.
  - rewrite sumOf_nil. lra.
Qed.

Lemma Forall2_impl_In (A B : Type) (R1 R2 : A -> B -> Prop) (l : list A) (l' : list B) :
  Forall2 R1 l l' ->
  (forall a b, In a l -> In b l' -> R1 a b -> R2 a b) ->
  Forall2 R2 l l'.
Proof.
  induction 1 as [|a b l l' Hab _ IH]; intros Himp; constructor.
  - apply Himp; [left; reflexivity | left; reflexivity | exact Hab].
  - apply IH. intros x y Hx Hy. apply Himp; right; assumption.
Qed.

Lemma Step_sell_inv (allocations : list PortfolioAllocation) (b : Trade)
    (toSell0 toSell toSell' : list Trade) (swaps swaps' : list SwapOperation) :
  Step allocations b toSell swaps toSell' swaps' ->
  0 < difference b ->
  SellInv toSell0 toSell swaps -> SellInv toSell0 toSell' swaps'.
Proof.
  intros [i s Hmax -> ->|i s sa ba ps pb tin tout Hmax Hgt Hsa Hba _ _ Hin Hout -> ->] Hb Hinv;
    [exact Hinv|].
  destruct Hinv as [Hnd [Hall Hsrc]].
  destruct (reduceMax_spec _ _ _ Hmax) as [l1 [l2 [-> [-> [_ _]]]]].
  rewrite subtractAt_split.
  set (amt := Js.Math_min (difference s) (difference b)).
  set (e := swapOf s b tin tout).
  assert (Hamt : 0 < amt /\ amt <= difference s).
  { split; [apply Math_min_pos; lra | apply Math_min_le_l]. }
  assert (Hsym : forall x, In x (l1 ++ l2)%list -> tradeSymbol x <> tradeSymbol s).
  { intros x Hx Heq. rewrite map_app in Hnd. simpl in Hnd.
    apply NoDup_remove_2 in Hnd. apply Hnd. rewrite <- map_app, <- Heq.
    apply in_map. exact Hx. }
  split; [|split].
  - rewrite map_app in *. exact Hnd.
  - apply Forall2_app_inv_r in Hall. destruct Hall as [m1 [m2' [Hm1 [Hm2 ->]]]].
    inversion Hm2 as [|r0 r m2 l2' Hr Hm2t]; subst.
    apply Forall2_app; [|constructor].
    + eapply Forall2_impl_In; [exact Hm1|].
      intros x0 x _ Hx [E1 [E2 E3]]. split; [exact E1|]. split; [exact E2|].
      rewrite soldUSD_snoc. change (tokenInSymbol e) with (tradeSymbol s).
      destruct (String.eqb (tradeSymbol s) (tradeSymbol x)) eqn:Heq.
      * apply String.eqb_eq in Heq. exfalso.
        apply (Hsym x); [apply in_or_app; left; exact Hx | symmetry; exact Heq].
      * rewrite E3. lra.
    + destruct Hr as [E1 [E2 E3]]. split; [exact E1|]. split; [cbn [difference]; lra|].
      rewrite soldUSD_snoc. change (tokenInSymbol e) with (tradeSymbol s).
      unfold tradeSymbol at 1 2. cbn [base difference]. fold (tradeSymbol s).
      rewrite String.eqb_refl. rewrite E3. change (amountInUSD e) with amt. lra.
    + eapply Forall2_impl_In; [exact Hm2t|].
      intros x0 x _ Hx [E1 [E2 E3]]. split; [exact E1|]. split; [exact E2|].
      rewrite soldUSD_snoc. change (tokenInSymbol e) with (tradeSymbol s).
      destruct (String.eqb (tradeSymbol s) (tradeSymbol x)) eqn:Heq.
      * apply String.eqb_eq in Heq. exfalso.
        apply (Hsym x); [apply in_or_app; right; exact Hx | symmetry; exact Heq].
      * rewrite E3. lra.
  - intros x Hx. rewrite map_app in *. simpl in *.
    apply in_app_or in Hx. destruct Hx as [Hx|[<-|[]]].
    + apply Hsrc. exact Hx.
    + apply in_or_app. right. left. reflexivity.
Qed.

Lemma Run_sell_inv (allocations : list PortfolioAllocation) (toBuy : list Trade)
    (toSell toSell' : list Trade) (swaps swaps' : list SwapOperation) :
  Run allocations toBuy toSell swaps toSell' swaps' ->
  (forall b, In b toBuy -> 0 < difference b) ->
  forall toSell0, SellInv toSell0 toSell swaps -> SellInv toSell0 toSell' swaps'.
Proof.
  induction 1 as [|b rest S S1 S2 sw sw1 sw2 Hstep _ IH]; intros Hpos S0 Hinv.
  - exact Hinv.
  - apply IH.
    + intros x Hx. apply Hpos. right. exact Hx.
    + eapply Step_sell_inv; [exact Hstep | apply Hpos; left; reflexivity | exact Hinv].
Qed.

End Conservation.

Section BuySide.
Import BalanceUtils RebalanceUtils.

Lemma Run_emits (allocations : list PortfolioAllocation) (toBuy : list Trade)
    (toSell toSell' : list Trade) (swaps swaps' : list SwapOperation) :
  Run allocations toBuy toSell swaps toSell' swaps' ->
  (forall b, In b toBuy -> 0 < difference b) ->
  exists es, swaps' = (swaps ++ es)%list /\ Emits toBuy es.
Proof.
  induction 1 as [|b rest S S1 S2 sw sw1 sw2 Hstep _ IH]; intros Hpos.
  - exists []. split; [rewrite app_nil_r; reflexivity | constructor].
  - destruct IH as [es [-> Hes]]; [intros x Hx; apply Hpos; right; exact Hx|].
    assert (Hb : 0 < difference b) by (apply Hpos; left; reflexivity).
    destruct Hstep as [i s Hmax -> ->|i s sa ba ps pb tin tout Hmax Hgt Hsa Hba _ _ Hin Hout -> ->].
    + exists es. split; [reflexivity | apply EmitsSkip; exact Hes].
    + exists (swapOf s b tin tout :: es). split.
      * rewrite <- app_assoc. reflexivity.
      * apply EmitsSwap; [reflexivity | | | exact Hes]; cbn [swapOf amountInUSD].
        -- apply Math_min_pos; lra.
        -- apply Math_min_le_r.
Qed.

Lemma Emits_destinations (toBuy : list Trade) (es : list SwapOperation) :
  Emits toBuy es ->
  forall e, In e es -> In (tokenOutSymbol e) (map tradeSymbol toBuy).
Proof.
  induction 1 as [|b rest es _ IH|b rest e0 es Hsym _ _ _ IH]; intros e He.
  - destruct He.
  - right. apply IH. exact He.
  - destruct He as [<-|He]; [left; symmetry; exact Hsym | right; apply IH; exact He].
Qed.

Lemma swapsTo_none (Y : string) (es : list SwapOperation) :
  (forall e, In e es -> tokenOutSymbol e <> Y) -> swapsTo Y es = [].
Proof.
  induction es as [|e es IH]; intros H; [reflexivity|]. unfold swapsTo in *. simpl.
  destruct (String.eqb (tokenOutSymbol e) Y) eqn:Heq.
  - apply String.eqb_eq in Heq. exfalso. apply (H e); [left; reflexivity | exact Heq].
  - apply IH. intros x Hx. apply H. right. exact Hx.
Qed.

Lemma swapsFrom_none (X : string) (es : list SwapOperation) :
  (forall e, In e es -> tokenInSymbol e <> X) -> swapsFrom X es = [].
Proof.
  induction es as [|e es IH]; intros H; [reflexivity|]. unfold swapsFrom in *. simpl.
  destruct (String.eqb (tokenInSymbol e) X) eqn:Heq.
  - apply String.eqb_eq in Heq. exfalso. apply (H e); [left; reflexivity | exact Heq].
  - apply IH. intros x Hx. apply H. right. exact Hx.
Qed.

(** With distinct buy assets, an asset is the destination of at most one
    swap, and that swap stays within the asset's difference. *)
Lemma Emits_single (toBuy : list Trade) (es : list SwapOperation) :
  Emits toBuy es ->
  NoDup (map tradeSymbol toBuy) ->
  forall Y,
    (swapsTo Y es = []
     \/ exists e b, swapsTo Y es = [e] /\ In b toBuy /\ tradeSymbol b = Y
                    /\ 0 < amountInUSD e /\ amountInUSD e <= difference b).
Proof.
  induction 1 as [|b rest es Hes IH|b rest e es Hsym Hpos Hle Hes IH]; intros Hnd Y.
  - left. reflexivity.
  - inversion Hnd as [|x l Hnotin Hnd']; subst.
    destruct (IH Hnd' Y) as [H0|[e [b' [H1 [H2 H3]]]]]; [left; exact H0|].
    right. exists e, b'. split; [exact H1|]. split; [right; exact H2 | exact H3].
  - inversion Hnd as [|x l Hnotin Hnd']; subst.
    unfold swapsTo. cbn [filter]. fold (swapsTo Y es).
    destruct (String.eqb (tokenOutSymbol e) Y) eqn:Heq.
    + apply String.eqb_eq in Heq. right. exists e, b.
      assert (Hnone : swapsTo Y es = []).
      { apply swapsTo_none. intros x Hx Hxy.
        apply Hnotin. rewrite <- Hsym, Heq, <- Hxy.
        eapply Emits_destinations; eassumption. }
      rewrite Hnone. split; [reflexivity|]. split; [left; reflexivity|].
      split; [rewrite <- Hsym; exact Heq|]. split; assumption.
    + destruct (IH Hnd' Y) as [H0|[e' [b' [H1 [H2 H3]]]]]; [left; exact H0|].
      right. exists e', b'. split; [exact H1|]. split; [right; exact H2 | exact H3].
Qed.

End BuySide.

(* ================================================================== *)
(** ** The two lists the planner works on *)
(* ================================================================== *)

Section Partition.
Import BalanceUtils RebalanceUtils.

(** [assetsToBuy] lists the deficit allocations in the order of the input. *)
Lemma assetsToBuy_spec (total : Q) (allocs : list PortfolioAllocation) :
  assetsToBuy (targetValuesUSD allocs total)
  = map (buyTrade total) (filter (isDeficit total) allocs).
Proof.
  induction allocs as [|a allocs IH]; [reflexivity|].
  cbn [targetValuesUSD map assetsToBuy flat_map filter] in *.
  unfold assetsToBuy, targetValuesUSD in IH. rewrite IH.
  change (differenceOf _) with (gapUSD total a). unfold isDeficit at 2.
  destruct (Js.gt (gapUSD total a) 0); reflexivity.
Qed.

Lemma assetsToSell_spec (total : Q) (allocs : list PortfolioAllocation) :
  assetsToSell (targetValuesUSD allocs total)
  = map (sellTrade total) (filter (isSurplus total) allocs).
Proof.
  induction allocs as [|a allocs IH]; [reflexivity|].
  cbn [targetValuesUSD map assetsToSell flat_map filter] in *.
  unfold assetsToSell, targetValuesUSD in IH. rewrite IH.
  change (differenceOf _) with (gapUSD total a). unfold isSurplus at 2.
  destruct (Js.gt (gapUSD total a) 0) eqn:Hgt.
  - apply gt_true in Hgt.
    assert (Hlt : Js.lt (gapUSD total a) 0 = false) by (apply lt_false; lra).
    rewrite Hlt. reflexivity.
  - destruct (Js.lt (gapUSD total a) 0); reflexivity.
Qed.

Lemma NoDup_map_filter (A B : Type) (f : A -> B) (keep : A -> bool) (xs : list A)
    (Hnd : NoDup (map f xs)) :
  NoDup (map f (filter keep xs)).
Proof.
  revert Hnd. induction xs as [|x xs IH]; simpl; intros Hnd; [constructor|].
  inversion Hnd as [|y l' Hnotin Hnd']; subst.
  destruct (keep x); simpl.
  - constructor; [|apply IH; exact Hnd'].
    intro Hin. apply Hnotin. apply in_map_iff in Hin. destruct Hin as [z [Hz Hin]].
    apply filter_In in Hin. rewrite <- Hz. apply in_map. apply Hin.
  - apply IH. exact Hnd'.
Qed.

Lemma symbols_of_trades (tr : Q -> PortfolioAllocation -> Trade) (total : Q)
    (l : list PortfolioAllocation) :
  (forall a, tradeSymbol (tr total a) = symbolOf a) ->
  map tradeSymbol (map (tr total) l) = map symbolOf l.
Proof.
  intro H. rewrite map_map. apply map_ext. exact H.
Qed.

(** An allocation is found again from its symbol when symbols are distinct. *)
Lemma unique_symbol (allocs : list PortfolioAllocation) (a b : PortfolioAllocation) :
  NoDup (map symbolOf allocs) -> In a allocs -> In b allocs ->
  symbolOf a = symbolOf b -> a = b.
Proof.
  induction allocs as [|x l IH]; intros Hnd Ha Hb Heq; [destruct Ha|].
  inversion Hnd as [|y l' Hnotin Hnd']; subst.
  destruct Ha as [->|Ha], Hb as [->|Hb].
  - reflexivity.
  - exfalso. apply Hnotin. rewrite Heq. apply in_map. exact Hb.
  - exfalso. apply Hnotin. rewrite <- Heq. apply in_map. exact Ha.
  - apply IH; assumption.
Qed.

Lemma sellInv_initial (total : Q) (allocs : list PortfolioAllocation) :
  NoDup (map symbolOf allocs) ->
  SellInv (map (sellTrade total) (filter (isSurplus total) allocs))
          (map (sellTrade total) (filter (isSurplus total) allocs)) [].
Proof.
  intro Hnd. split; [|split].
  - rewrite symbols_of_trades by reflexivity. apply NoDup_map_filter. exact Hnd.
  - induction (filter (isSurplus total) allocs) as [|a l IH]; simpl; constructor; [|exact IH].
    split; [reflexivity|]. split.
    + cbn [sellTrade difference]. apply Qabs_nonneg.
    + unfold soldUSD. simpl. rewrite sumOf_nil. lra.
  - intros e [].
Qed.

Lemma buy_differences_positive (total : Q) (allocs : list PortfolioAllocation) (b : Trade) :
  In b (map (buyTrade total) (filter (isDeficit total) allocs)) -> 0 < difference b.
Proof.
  intro Hb. apply in_map_iff in Hb. destruct Hb as [a [<- Ha]].
  apply filter_In in Ha. destruct Ha as [_ Ha]. apply gt_true in Ha. exact Ha.
Qed.

(** The loop, seen from outside: what was drawn from each sell asset and
    what went into each buy asset. *)
Lemma emitted_structure (allocs : list PortfolioAllocation) (total : Q)
    (emitted : list SwapOperation) :
  NoDup (map symbolOf allocs) ->
  emittedSwaps allocs total = Js.Ok emitted ->
  (exists toSell', SellInv (map (sellTrade total) (filter (isSurplus total) allocs))
                           toSell' emitted)
  /\ Emits (map (buyTrade total) (filter (isDeficit total) allocs)) emitted.
Proof.
  intros Hnd. unfold emittedSwaps.
  rewrite assetsToBuy_spec, assetsToSell_spec.
  destruct (buyLoop allocs _ _) as [[toSell' swaps']|e] eqn:Hloop; cbn [Js.bind snd];
    [|discriminate].
  intros [= <-]. apply buyLoop_run in Hloop.
  split.
  - exists toSell'. eapply Run_sell_inv; [exact Hloop | | apply sellInv_initial; exact Hnd].
    intros b. apply buy_differences_positive.
  - destruct (Run_emits _ _ _ _ _ _ Hloop) as [es [-> Hes]]; [|exact Hes].
    intros b. apply buy_differences_positive.
Qed.

(** The plan holds the emitted swaps, reordered. *)
Lemma plan_swaps (allocs : list PortfolioAllocation) (plan : RebalancePlan) :
  calculateRebalanceSwaps allocs = Js.Ok plan ->
  swaps plan = []
  \/ exists emitted,
       emittedSwaps allocs (Js.sumOf currentValueUSD allocs) = Js.Ok emitted
       /\ swaps plan = Js.sortDesc swap_gap emitted.
Proof.
  unfold calculateRebalanceSwaps.
  destruct (Js.strictEq _ 0); [intros [= <-]; left; reflexivity|].
  destruct (_ =? 0)%nat; [intros [= <-]; left; reflexivity|].
  destruct (emittedSwaps allocs _) as [emitted|e]; cbn [Js.bind]; [|discriminate].
  intros [= <-]. right. exists emitted. split; reflexivity.
Qed.

End Partition.

(* ================================================================== *)
(** ** Conservation in [calculateRebalanceSwaps] *)
(* ================================================================== *)

Section PlanConservation.
Import BalanceUtils RebalanceUtils.

Lemma Forall2_In_l (A B : Type) (R : A -> B -> Prop) (l : list A) (l' : list B) (a : A) :
  Forall2 R l l' -> In a l -> exists b, In b l' /\ R a b.
Proof.
  induction 1 as [|x y l l' Hxy _ IH]; intros Ha; [destruct Ha|].
  destruct Ha as [<-|Ha].
  - exists y. split; [left; reflexivity | exact Hxy].
  - destruct (IH Ha) as [b [Hb Hab]]. exists b. split; [right; exact Hb | exact Hab].
Qed.

Lemma Drawn_symbols (swaps : list SwapOperation) (l l' : list Trade) :
  Forall2 (Drawn swaps) l l' -> map tradeSymbol l' = map tradeSymbol l.
Proof.
  induction 1 as [|x y l l' [Hb _] _ IH]; [reflexivity|].
  simpl. rewrite IH. unfold tradeSymbol at 1 3. rewrite Hb. reflexivity.
Qed.

Lemma soldUSD_sorted (X : string) (emitted : list SwapOperation) :
  soldUSD X (Js.sortDesc swap_gap emitted) == soldUSD X emitted.
Proof.
  unfold soldUSD, swapsFrom. apply sumOf_perm. apply filter_perm.
  apply Permutation_sym, sortDesc_perm.
Qed.

Lemma boughtUSD_sorted (Y : string) (emitted : list SwapOperation) :
  boughtUSD Y (Js.sortDesc swap_gap emitted) == boughtUSD Y emitted.
Proof.
  unfold boughtUSD, swapsTo. apply sumOf_perm. apply filter_perm.
  apply Permutation_sym, sortDesc_perm.
Qed.

Lemma emitted_sold (allocs : list PortfolioAllocation) (total : Q)
    (emitted : list SwapOperation) (a : PortfolioAllocation) :
  NoDup (map symbolOf allocs) ->
  emittedSwaps allocs total = Js.Ok emitted ->
  In a allocs ->
  (0 < - gapUSD total a -> soldUSD (symbolOf a) emitted <= - gapUSD total a)
  /\ (- gapUSD total a <= 0 -> soldUSD (symbolOf a) emitted == 0).
Proof.
  intros Hnd Hem Ha.
  destruct (emitted_structure _ _ _ Hnd Hem) as [[toSell' [_ [Hall Hsrc]]] _].
  split; intro Hs.
  - assert (Hin : In (sellTrade total a) (map (sellTrade total) (filter (isSurplus total) allocs))).
    { apply in_map. apply filter_In. split; [exact Ha|]. apply lt_true. lra. }
    destruct (Forall2_In_l _ _ _ _ _ _ Hall Hin) as [s [_ [Hb [Hnn Heq]]]].
    assert (Hsym : tradeSymbol s = symbolOf a).
    { unfold tradeSymbol. rewrite <- Hb. reflexivity. }
    rewrite Hsym in Heq. cbn [sellTrade difference] in Heq.
    rewrite Qabs_neg in Heq by lra. lra.
  - assert (Hnone : swapsFrom (symbolOf a) emitted = []).
    { apply swapsFrom_none. intros e He Heq.
      apply Hsrc in He. rewrite (Drawn_symbols _ _ _ Hall) in He.
      rewrite symbols_of_trades in He by reflexivity.
      apply in_map_iff in He. destruct He as [a' [Hsym Ha']].
      apply filter_In in Ha'. destruct Ha' as [Ha' Hsur].
      assert (a' = a).
      { apply (unique_symbol allocs); auto. rewrite Hsym. exact Heq. }
      subst a'. apply lt_true in Hsur. lra. }
    unfold soldUSD. rewrite Hnone. apply sumOf_nil.
Qed.

Lemma emitted_bought (allocs : list PortfolioAllocation) (total : Q)
    (emitted : list SwapOperation) (a : PortfolioAllocation) :
  NoDup (map symbolOf allocs) ->
  emittedSwaps allocs total = Js.Ok emitted ->
  In a allocs ->
  (0 < gapUSD total a -> boughtUSD (symbolOf a) emitted <= gapUSD total a)
  /\ (gapUSD total a <= 0 -> boughtUSD (symbolOf a) emitted == 0).
Proof.
  intros Hnd Hem Ha.
  destruct (emitted_structure _ _ _ Hnd Hem) as [_ Hemits].
  assert (HndB : NoDup (map tradeSymbol (map (buyTrade total) (filter (isDeficit total) allocs)))).
  { rewrite symbols_of_trades by reflexivity. apply NoDup_map_filter. exact Hnd. }
  destruct (Emits_single _ _ Hemits HndB (symbolOf a))
    as [Hnone|[e [b [Hone [Hb [Hsym [Hpos Hle]]]]]]].
  - unfold boughtUSD. rewrite Hnone. split; intro; rewrite sumOf_nil; lra.
  - apply in_map_iff in Hb. destruct Hb as [a' [<- Ha']].
    apply filter_In in Ha'. destruct Ha' as [Ha' Hdef].
    assert (a' = a) by (apply (unique_symbol allocs); auto). subst a'.
    apply gt_true in Hdef. cbn [buyTrade difference] in Hle.
    unfold boughtUSD. rewrite Hone, sumOf_cons, sumOf_nil.
    split; intro; lra.
Qed.

(** X1.  Plan conservation in [calculateRebalanceSwaps].  With distinct asset
    symbols, the USD sold from an asset over the whole plan is at most its
    surplus (nothing is sold from an asset without surplus) and the USD bought
    into an asset is at most its deficit (nothing is bought into an asset
    without deficit). *)
Theorem calculateRebalanceSwaps_conserves (allocs : list PortfolioAllocation)
    (plan : RebalancePlan) (a : PortfolioAllocation) :
  NoDup (map symbolOf allocs) ->
  calculateRebalanceSwaps allocs = Js.Ok plan ->
  In a allocs ->
  let total := Js.sumOf currentValueUSD allocs in
  let surplus := currentValueUSD a - total * targetPercentage a in
  let deficit := total * targetPercentage a - currentValueUSD a in
  (0 < surplus -> soldUSD (symbolOf a) (swaps plan) <= surplus)
  /\ (surplus <= 0 -> soldUSD (symbolOf a) (swaps plan) == 0)
  /\ (0 < deficit -> boughtUSD (symbolOf a) (swaps plan) <= deficit)
  /\ (deficit <= 0 -> boughtUSD (symbolOf a) (swaps plan) == 0).
Proof.
  intros Hnd Hplan Ha total surplus deficit.
  destruct (plan_swaps _ _ Hplan) as [->|[emitted [Hem ->]]].
  - unfold soldUSD, boughtUSD. simpl. rewrite !sumOf_nil.
    repeat split; intro; lra.
  - destruct (emitted_sold _ _ _ _ Hnd Hem Ha) as [S1 S2].
    destruct (emitted_bought _ _ _ _ Hnd Hem Ha) as [B1 B2].
    fold total in S1, S2, B1, B2. unfold gapUSD in S1, S2, B1, B2.
    rewrite soldUSD_sorted, boughtUSD_sorted.
    subst surplus deficit.
    split; [|split; [|split]]; intro H.
    + assert (G := S1 ltac:(lra)). lra.
    + apply S2. lra.
    + apply B1. lra.
    + apply B2. lra.
Qed.

End PlanConservation.

(* ================================================================== *)
(** ** Where each swap of a plan comes from *)
(* ================================================================== *)

Section Origin.
Import BalanceUtils RebalanceUtils.

Lemma buyLoop_origin (allocations : list PortfolioAllocation) (toBuy : list Trade) :
  forall toSell swaps toSell' swaps',
    buyLoop allocations toBuy (toSell, swaps) = Js.Ok (toSell', swaps') ->
    forall e, In e swaps' ->
              In e swaps \/ PushedAt allocations toBuy toSell swaps e.
Proof.
  induction toBuy as [|b rest IH]; intros toSell swaps toSell' swaps'; cbn [buyLoop].
  - intros [= <- <-] e He. left. exact He.
  - destruct (buyStep allocations b (toSell, swaps)) as [[toSell1 swaps1]|x] eqn:Hstep;
      cbn [Js.bind]; [|discriminate].
    intros Hrest e He.
    destruct (IH _ _ _ _ Hrest e He)
      as [Hin|[pre b' post Sk swk i s sa' ps' tin tout Ho Hr Hp Hw Hsa' Hps' Htin' He']].
    + destruct (buyStep_inv _ _ _ _ _ _ Hstep)
        as [i s Hmax -> ->|i s sa ba ps pb tin tout Hmax Hgt Hsa Hba Hps Hpb Htin Htout -> ->].
      * left. exact Hin.
      * apply in_app_or in Hin. destruct Hin as [Hin|[<-|[]]]; [left; exact Hin|].
        right. apply pushedAt
                 with (before := []) (buyAsset := b) (after := rest) (sellState := toSell)
                      (swapsBefore := swaps) (position := i) (sellAsset := s)
                      (sellAllocation := sa) (sellPrice := ps)
                      (amountIn := tin) (amountOut := tout); auto.
    + right. apply pushedAt
               with (before := b :: pre) (buyAsset := b') (after := post) (sellState := Sk)
                    (swapsBefore := swk) (position := i) (sellAsset := s)
                    (sellAllocation := sa') (sellPrice := ps')
                    (amountIn := tin) (amountOut := tout); auto.
      * rewrite Ho. reflexivity.
      * cbn [buyLoop]. rewrite Hstep. cbn [Js.bind]. exact Hr.
Qed.

(** Every swap of a plan was pushed at some iteration of the loop over
    [assetsToBuy], started on [assetsToSell] with no swap. *)
Lemma plan_swap_origin (allocs : list PortfolioAllocation) (plan : RebalancePlan)
    (e : SwapOperation) :
  calculateRebalanceSwaps allocs = Js.Ok plan ->
  In e (swaps plan) ->
  let total := Js.sumOf currentValueUSD allocs in
  PushedAt allocs (map (buyTrade total) (filter (isDeficit total) allocs))
           (map (sellTrade total) (filter (isSurplus total) allocs)) [] e.
Proof.
  intros Hplan He total.
  destruct (plan_swaps _ _ Hplan) as [Hnil|[emitted [Hem Hsw]]].
  - rewrite Hnil in He. destruct He.
  - rewrite Hsw in He. apply sortDesc_In in He.
    unfold emittedSwaps in Hem. rewrite assetsToBuy_spec, assetsToSell_spec in Hem.
    fold total in Hem.
    destruct (buyLoop allocs _ _) as [[toSell' swaps']|x] eqn:Hloop; cbn [Js.bind snd] in Hem;
      [|discriminate].
    injection Hem as <-.
    destruct (buyLoop_origin _ _ _ _ _ _ Hloop e He) as [[]|H]. exact H.
Qed.

End Origin.

Section SortedOutput.
Variable A : Type.
Variable key : A -> Q.

Lemma insertDesc_sorted (x : A) (l : list A) :
  StronglySorted (keyDesc key) l -> StronglySorted (keyDesc key) (Js.insertDesc key x l).
Proof.
  induction 1 as [|y l Hl IH Hy]; simpl.
  - constructor; constructor.
  - destruct (Qle_bool (key y) (key x)) eqn:Hle.
    + apply Qle_bool_iff in Hle. constructor; [constructor; assumption|].
      constructor; [exact Hle|].
      eapply Forall_impl; [|exact Hy]. intros z Hz. unfold keyDesc in *. lra.
    + assert (Hlt : key x <= key y).
      { apply Qlt_le_weak. apply gt_true. unfold Js.gt. rewrite Hle. reflexivity. }
      constructor; [exact IH|].
      apply Forall_forall. intros z Hz.
      assert (Hz' : In z (x :: l)).
      { eapply Permutation_in; [apply Permutation_sym, insertDesc_perm | exact Hz]. }
      destruct Hz' as [<-|Hz']; [exact Hlt|].
      rewrite Forall_forall in Hy. apply Hy. exact Hz'.
Qed.

Lemma sortDesc_sorted (l : list A) : StronglySorted (keyDesc key) (Js.sortDesc key l).
Proof.
  induction l as [|x l IH]; simpl; [constructor|]. apply insertDesc_sorted. exact IH.
Qed.
End SortedOutput.
Arguments sortDesc_sorted {A} key l.

(* ================================================================== *)
(** ** Example portfolios for the planner *)
(* ================================================================== *)

Lemma twoByTwo_symbols : NoDup (map symbolOf PlannerExample.twoByTwo).
Proof.
  repeat constructor; simpl; intuition discriminate.
Qed.

Lemma twoByTwo_plan :
  match RebalanceUtils.calculateRebalanceSwaps PlannerExample.twoByTwo with
  | Js.Ok plan =>
      map PlannerExample.summary (RebalanceUtils.swaps plan)
      = [ ("S1", "D2", 100, 100000000%Z); ("S1", "D1", 100, 100000000%Z) ]
  | Js.Throw _ => False
  end.
Proof. vm_compute. reflexivity. Qed.

(* ================================================================== *)
(** ** C4: token amounts are rounded to nearest, not down *)
(* ================================================================== *)

Lemma fdiv_finite (a b q : Q) :
  Js.fdiv a b = Js.Finite q -> ~ b == 0 /\ q = Js.double (a / b).
Proof.
  unfold Js.fdiv, Js.rounded. destruct (Qeq_bool b 0) eqn:Hz; [discriminate|].
  destruct (Qle_bool _ _); [discriminate|]. intros [= <-]. split; [|reflexivity].
  intro H. apply Qeq_bool_iff in H. congruence.
Qed.

Lemma tokensOf_nearest (usd price : Q) (d : nat) (n : Z) :
  tokensOf usd price d = Js.Ok n ->
  ~ price == 0
  /\ Js.fdiv usd price = Js.Finite (Js.double (usd / price))
  /\ Qabs (inject_Z n - Js.double (usd / price) * inject_Z (Js.pow10 d)) <= 1 # 2.
Proof.
  unfold tokensOf.
  destruct (Js.fdiv usd price) as [q|] eqn:Hdiv.
  - destruct (fdiv_finite _ _ _ Hdiv) as [Hnz ->].
    destruct (Js.toFixed (Js.Finite (Js.double (usd / price))) d) as [text|x] eqn:Hfix;
      cbn [Js.bind]; [|discriminate].
    intro Hparse. split; [exact Hnz|]. split; [reflexivity|].
    eapply toFixed_parseUnits_nearest; eassumption.
  - unfold Js.toFixed. destruct (100 <? d)%nat; cbn [Js.bind]; discriminate.
Qed.

Lemma calculateTokenAmounts_tokensOf (usd price : Q) (d : nat)
    (r : RebalanceUtils.TokenAmounts) :
  RebalanceUtils.calculateTokenAmounts usd price d = Js.Ok r ->
  tokensOf usd price d = Js.Ok (RebalanceUtils.amountTokens r)
  /\ RebalanceUtils.amountFormatted r = Js.fdiv usd price.
Proof.
  unfold RebalanceUtils.calculateTokenAmounts, tokensOf.
  destruct (Js.toFixed (Js.fdiv usd price) d) as [text|x]; cbn [Js.bind]; [|discriminate].
  destruct (Js.parseUnits text d) as [n|x]; cbn [Js.bind]; [|discriminate].
  intros [= <-]. split; reflexivity.
Qed.

(** C4, as stated, fails.  7 USD of an asset priced 4 USD with no decimals is
    1.75 tokens; [calculateTokenAmounts] and the planner both produce 2.  And
    100 USD of an asset priced 2500 USD with 18 decimals is 0.04 tokens, which
    is no double: the quotient computed is the double next to it, and what is
    printed exceeds 0.04 by one unit of the last decimal. *)
Lemma token_amount_exceeds_quotient :
  match RebalanceUtils.calculateTokenAmounts 7 4 0 with
  | Js.Ok r => RebalanceUtils.amountTokens r = 2%Z
               /\ 7 / 4 * inject_Z (Js.pow10 0) < inject_Z (RebalanceUtils.amountTokens r)
  | Js.Throw _ => False
  end
  /\ match RebalanceUtils.calculateTokenAmounts 100 2500 18 with
     | Js.Ok r => RebalanceUtils.amountTokens r = 40000000000000001%Z
                  /\ 100 / 2500 * inject_Z (Js.pow10 18)
                     < inject_Z (RebalanceUtils.amountTokens r)
     | Js.Throw _ => False
     end
  /\ match RebalanceUtils.calculateRebalanceSwaps PlannerExample.coarse with
     | Js.Ok plan =>
         match RebalanceUtils.swaps plan with
         | [e] => RebalanceUtils.tokenInSymbol e = "S"
                  /\ RebalanceUtils.amountInUSD e == 7
                  /\ RebalanceUtils.amountInTokens e = 2%Z
                  /\ RebalanceUtils.amountInUSD e / 4
                     * inject_Z (Js.pow10 (RebalanceUtils.tokenInDecimals e))
                     < inject_Z (RebalanceUtils.amountInTokens e)
         | _ => False
         end
     | Js.Throw _ => False
     end.
Proof. vm_compute. repeat split; reflexivity. Qed.

(** C4 (amended).  For every swap of a plan, the source asset has a price and
    the token amount is the quotient [amountInUSD / price] as the double
    division gives it, scaled to the asset's decimals and rounded to the
    nearest integer (as [toFixed] does): it differs from the computed quotient
    by at most half a unit of the last decimal, in either direction, and the
    computed quotient is the exact one up to the rounding of the division, a
    relative error of [2^-53].  [calculateTokenAmounts] rounds the same way
    and returns the computed quotient as [amountFormatted]. *)
Theorem token_amounts_round_to_nearest
    (allocs : list BalanceUtils.PortfolioAllocation) (plan : RebalanceUtils.RebalancePlan)
    (e : RebalanceUtils.SwapOperation)
    (usd price : Q) (d : nat) (r : RebalanceUtils.TokenAmounts) :
  RebalanceUtils.calculateRebalanceSwaps allocs = Js.Ok plan ->
  In e (RebalanceUtils.swaps plan) ->
  RebalanceUtils.calculateTokenAmounts usd price d = Js.Ok r ->
  (exists source sourcePrice,
     RebalanceUtils.findAllocation allocs (RebalanceUtils.tokenInSymbol e) = Some source
     /\ BalanceUtils.currentPriceUSD source = Some sourcePrice
     /\ ~ sourcePrice == 0
     /\ let exact := RebalanceUtils.amountInUSD e / sourcePrice in
        let computed := Js.double exact in
        Qabs (inject_Z (RebalanceUtils.amountInTokens e)
              - computed * inject_Z (Js.pow10 (RebalanceUtils.tokenInDecimals e))) <= 1 # 2
        /\ Qabs (computed - exact) <= Qabs exact * Js.pow2 (-53) + Js.pow2 (-1075))
  /\ (~ price == 0
      /\ let exact := usd / price in
         let computed := Js.double exact in
         RebalanceUtils.amountFormatted r = Js.Finite computed
         /\ Qabs (inject_Z (RebalanceUtils.amountTokens r) - computed * inject_Z (Js.pow10 d))
            <= 1 # 2
         /\ Qabs (computed - exact) <= Qabs exact * Js.pow2 (-53) + Js.pow2 (-1075)).
Proof.
  intros Hplan He Hcalc. split.
  - destruct (plan_swap_origin _ _ _ Hplan He)
      as [pre b post Sk swk i s sa ps tin tout _ _ _ _ Hsa Hps Htin ->].
    exists sa, ps. cbn [swapOf RebalanceUtils.tokenInSymbol RebalanceUtils.amountInTokens
                        RebalanceUtils.amountInUSD RebalanceUtils.tokenInDecimals].
    split; [exact Hsa|]. split; [exact Hps|].
    destruct (tokensOf_nearest _ _ _ _ Htin) as [Hnz [_ Hnear]].
    split; [exact Hnz|]. split; [exact Hnear | apply double_error].
  - destruct (calculateTokenAmounts_tokensOf _ _ _ _ Hcalc) as [Htok Hfmt].
    destruct (tokensOf_nearest _ _ _ _ Htok) as [Hnz [Hdiv Hnear]].
    split; [exact Hnz|]. split; [rewrite Hfmt; exact Hdiv|].
    split; [exact Hnear | apply double_error].
Qed.

Lemma token_amounts_round_to_nearest_witness :
  match RebalanceUtils.calculateRebalanceSwaps PlannerExample.coarse,
        RebalanceUtils.calculateTokenAmounts 100 2500 18 with
  | Js.Ok plan, Js.Ok r =>
      match RebalanceUtils.swaps plan with
      | e :: _ =>
          Qabs (inject_Z (RebalanceUtils.amountTokens r)
                - Js.double (100 / 2500) * inject_Z (Js.pow10 18))
          <= 1 # 2
      | [] => False
      end
  | _, _ => False
  end.
Proof.
  destruct (RebalanceUtils.calculateRebalanceSwaps PlannerExample.coarse) as [plan|x] eqn:E1;
    [|vm_compute in E1; discriminate E1].
  destruct (RebalanceUtils.calculateTokenAmounts 100 2500 18) as [r|x] eqn:E2;
    [|vm_compute in E2; discriminate E2].
  destruct (RebalanceUtils.swaps plan) as [|e rest] eqn:E3.
  - vm_compute in E1. injection E1 as <-. discriminate E3.
  - assert (Hin : In e (RebalanceUtils.swaps plan)) by (rewrite E3; left; reflexivity).
    exact (proj1 (proj2 (proj2 (proj2 (token_amounts_round_to_nearest PlannerExample.coarse
                                         plan e 100 2500 18%nat r E1 Hin E2))))).
Defined.

(* ================================================================== *)
(** ** C7: a deficit with an empty surplus list *)
(* ================================================================== *)

(** X6.  Whenever the portfolio has a value, some allocation is flagged, none
    is in surplus and one is in deficit, [calculateRebalanceSwaps] throws at
    the first buy asset: [reduce] runs on the empty [assetsToSell]. *)
Lemma empty_surplus_throws (allocs : list BalanceUtils.PortfolioAllocation) :
  let total := Js.sumOf BalanceUtils.currentValueUSD allocs in
  ~ total == 0 ->
  existsb BalanceUtils.needsRebalance allocs = true ->
  filter (isSurplus total) allocs = [] ->
  filter (isDeficit total) allocs <> [] ->
  RebalanceUtils.calculateRebalanceSwaps allocs = Js.Throw reduceOfEmpty.
Proof.
  intros total Htotal Hflag Hs Hd.
  unfold RebalanceUtils.calculateRebalanceSwaps. fold total.
  destruct (Js.strictEq total 0) eqn:Hz; [apply strictEq_true in Hz; contradiction|].
  destruct (filter BalanceUtils.needsRebalance allocs) as [|f fs] eqn:Hf.
  - exfalso. apply existsb_exists in Hflag. destruct Hflag as [a [Ha Hn]].
    assert (Hin : In a (filter BalanceUtils.needsRebalance allocs))
      by (apply filter_In; split; assumption).
    rewrite Hf in Hin. destruct Hin.
  - cbn [List.length Nat.eqb]. unfold RebalanceUtils.emittedSwaps.
    rewrite assetsToBuy_spec, assetsToSell_spec, Hs.
    destruct (filter (isDeficit total) allocs) as [|b bs]; [congruence|].
    reflexivity.
Qed.

(** C7 (the code departs from the claim).  On [PlannerExample.noSurplus], a
    portfolio whose only trade is a deficit with no surplus asset to draw from,
    [calculateRebalanceSwaps] does not return: [reduce] is called on the empty
    [assetsToSell] without an initial value and throws a [TypeError].  The
    same allocations are what [calculateCurrentAllocations] reports for an
    asset without a balance entry. *)
Theorem planner_throws_on_empty_surplus :
  RebalanceUtils.calculateRebalanceSwaps PlannerExample.noSurplus = Js.Throw reduceOfEmpty
  /\ match BalanceUtils.calculateCurrentAllocations
             [ {| BalanceUtils.cb_symbol := "A"; BalanceUtils.balance := 100000000;
                  BalanceUtils.balanceFormatted := 100; BalanceUtils.usd := 100;
                  BalanceUtils.priceUSD := 1 |} ]
             (Some GateExample.portfolio)
             [ {| BalanceUtils.assetId :=
                    {| BalanceUtils.symbol := "A"; BalanceUtils.address := "0xA";
                       BalanceUtils.decimals := 6 |};
                  BalanceUtils.doc_targetPercentage := 1 |};
               {| BalanceUtils.assetId :=
                    {| BalanceUtils.symbol := "B"; BalanceUtils.address := "0xB";
                       BalanceUtils.decimals := 6 |};
                  BalanceUtils.doc_targetPercentage := 1 # 2048 |} ] with
     | Js.Ok allocs =>
         RebalanceUtils.calculateRebalanceSwaps allocs = Js.Throw reduceOfEmpty
     | Js.Throw _ => False
     end.
Proof. split; vm_compute; reflexivity. Qed.

(* ================================================================== *)
(** ** C3: the order in which assets are matched *)
(* ================================================================== *)




(* ================================================================== *)
(** ** C10: one swap per deficit asset, from a single surplus asset *)
(* ================================================================== *)

Lemma swapsTo_sorted_single (Y : string) (emitted : list RebalanceUtils.SwapOperation)
    (e0 : RebalanceUtils.SwapOperation) :
  swapsTo Y emitted = [e0] ->
  swapsTo Y (Js.sortDesc RebalanceUtils.swap_gap emitted) = [e0].
Proof.
  intro H. apply Permutation_length_1_inv. rewrite <- H.
  unfold swapsTo. apply filter_perm. apply sortDesc_perm.
Qed.

(** C10.  With distinct asset symbols, a swap of the plan into asset [Y] is
    the only swap into [Y].  It was pushed when the loop reached [Y] in the
    deficit list and draws only from the sell asset whose remaining difference
    was the largest at that moment; what is bought into [Y] over the whole plan
    is the minimum of that remaining difference and [Y]'s deficit, so a
    deficit larger than that one remaining surplus stays partly unfilled,
    whatever the other surplus assets still hold. *)
Theorem one_swap_per_deficit
    (allocs : list BalanceUtils.PortfolioAllocation) (plan : RebalanceUtils.RebalancePlan)
    (Y : string) (e : RebalanceUtils.SwapOperation) :
  NoDup (map symbolOf allocs) ->
  RebalanceUtils.calculateRebalanceSwaps allocs = Js.Ok plan ->
  In e (RebalanceUtils.swaps plan) ->
  RebalanceUtils.tokenOutSymbol e = Y ->
  let total := Js.sumOf BalanceUtils.currentValueUSD allocs in
  let tvs := RebalanceUtils.targetValuesUSD allocs total in
  swapsTo Y (RebalanceUtils.swaps plan) = [e]
  /\ exists before buyAsset after sellState swapsBefore position sellAsset,
       RebalanceUtils.assetsToBuy tvs = (before ++ buyAsset :: after)%list
       /\ tradeSymbol buyAsset = Y
       /\ RebalanceUtils.buyLoop allocs before (RebalanceUtils.assetsToSell tvs, [])
          = Js.Ok (sellState, swapsBefore)
       /\ RebalanceUtils.reduceMax sellState = Js.Ok (position, sellAsset)
       /\ (forall s, In s sellState ->
                     RebalanceUtils.difference s <= RebalanceUtils.difference sellAsset)
       /\ RebalanceUtils.tokenInSymbol e = tradeSymbol sellAsset
       /\ boughtUSD Y (RebalanceUtils.swaps plan)
          == Js.Math_min (RebalanceUtils.difference sellAsset)
                         (RebalanceUtils.difference buyAsset)
       /\ (RebalanceUtils.difference sellAsset < RebalanceUtils.difference buyAsset ->
           boughtUSD Y (RebalanceUtils.swaps plan) < RebalanceUtils.difference buyAsset).
Proof.
  intros Hnd Hplan He HY total tvs.
  assert (Hone : swapsTo Y (RebalanceUtils.swaps plan) = [e]).
  { destruct (plan_swaps _ _ Hplan) as [Hnil|[emitted [Hem Hsw]]].
    - rewrite Hnil in He. destruct He.
    - destruct (emitted_structure _ _ _ Hnd Hem) as [_ Hemits].
      assert (HndB : NoDup (map tradeSymbol
                              (map (buyTrade total) (filter (isDeficit total) allocs)))).
      { rewrite symbols_of_trades by reflexivity. apply NoDup_map_filter. exact Hnd. }
      assert (Hin : In e (swapsTo Y emitted)).
      { apply filter_In. split.
        - apply (sortDesc_In _ RebalanceUtils.swap_gap). rewrite <- Hsw. exact He.
        - apply String.eqb_eq. exact HY. }
      destruct (Emits_single _ _ Hemits HndB Y) as [Hnone|[e0 [b [H1 _]]]].
      + rewrite Hnone in Hin. destruct Hin.
      + rewrite H1 in Hin. destruct Hin as [<-|[]].
        rewrite Hsw. apply swapsTo_sorted_single. exact H1. }
  split; [exact Hone|].
  destruct (plan_swap_origin _ _ _ Hplan He)
    as [pre b post Sk swk i s sa ps tin tout Ho Hr Hp Hw _ _ _ Heq].
  exists pre, b, post, Sk, swk, i, s.
  unfold tvs. rewrite assetsToBuy_spec, assetsToSell_spec.
  assert (Hb : boughtUSD Y (RebalanceUtils.swaps plan)
               == Js.Math_min (RebalanceUtils.difference s) (RebalanceUtils.difference b)).
  { unfold boughtUSD. rewrite Hone, sumOf_cons, sumOf_nil, Heq.
    cbn [swapOf RebalanceUtils.amountInUSD]. lra. }
  split; [exact Ho|]. split; [rewrite <- HY, Heq; reflexivity|].
  split; [exact Hr|]. split; [exact Hp|].
  split; [apply (reduceMax_max _ _ _ Hp)|].
  split; [rewrite Heq; reflexivity|].
  split; [exact Hb|].
  intro Hlt. rewrite Hb.
  destruct (Math_min_spec (RebalanceUtils.difference s) (RebalanceUtils.difference b))
    as [[_ ->]|[Hc _]]; lra.
Qed.

(** On [PlannerExample.twoByTwo], D2 is short of 200 USD, receives the single
    swap of 100 USD that S1 can still give, and stays 100 USD short, while S2
    keeps its whole surplus of 100 USD. *)
Lemma one_swap_per_deficit_witness :
  match RebalanceUtils.calculateRebalanceSwaps PlannerExample.twoByTwo with
  | Js.Ok plan =>
      match RebalanceUtils.swaps plan with
      | e :: _ => swapsTo "D2" (RebalanceUtils.swaps plan) = [e]
                  /\ boughtUSD "D2" (RebalanceUtils.swaps plan) == 100
                  /\ soldUSD "S2" (RebalanceUtils.swaps plan) == 0
      | [] => False
      end
  | Js.Throw _ => False
  end.
Proof.
  destruct (RebalanceUtils.calculateRebalanceSwaps PlannerExample.twoByTwo)
    as [plan|x] eqn:E1; [|vm_compute in E1; discriminate E1].
  destruct (RebalanceUtils.swaps plan) as [|e rest] eqn:E3.
  - vm_compute in E1. injection E1 as <-. discriminate E3.
  - assert (Hin : In e (RebalanceUtils.swaps plan)) by (rewrite E3; left; reflexivity).
    assert (HY : RebalanceUtils.tokenOutSymbol e = "D2").
    { vm_compute in E1. injection E1 as <-. injection E3 as <- _. reflexivity. }
    rewrite <- E3. split.
    + exact (proj1 (one_swap_per_deficit PlannerExample.twoByTwo plan "D2" e
                      twoByTwo_symbols E1 Hin HY)).
    + vm_compute in E1. injection E1 as <-. vm_compute. split; reflexivity.
Defined.

(* ================================================================== *)
(** ** The planner of [RebalanceService] *)
(* ================================================================== *)

Section ServicePlanner.
Import RebalanceService.

Lemma filter_twice (A : Type) (p q : A -> bool) (l : list A) :
  filter q (filter p l) = filter (fun x => p x && q x) l.
Proof.
  induction l as [|x l IH]; simpl; [reflexivity|].
  destruct (p x); simpl; [destruct (q x)|]; rewrite IH; reflexivity.
Qed.

Lemma filter_length_le (A : Type) (p q : A -> bool) (l : list A) :
  (forall x, In x l -> p x = true -> q x = true) ->
  (List.length (filter p l) <= List.length (filter q l))%nat.
Proof.
  induction l as [|x l IH]; intros H; simpl; [lia|].
  assert (IH' : (List.length (filter p l) <= List.length (filter q l))%nat).
  { apply IH. intros y Hy. apply H. right. exact Hy. }
  destruct (p x) eqn:Hp.
  - rewrite (H x (or_introl eq_refl) Hp). simpl. lia.
  - destruct (q x); simpl; lia.
Qed.

Lemma filter_sum_le (A : Type) (f : A -> Q) (p q : A -> bool) (l : list A) :
  (forall x, In x l -> p x = true -> q x = true) ->
  (forall x, In x l -> q x = true -> 0 <= f x) ->
  Js.sumOf f (filter p l) <= Js.sumOf f (filter q l).
Proof.
  induction l as [|x l IH]; intros H Hf; simpl; [rewrite sumOf_nil; lra|].
  assert (IH' : Js.sumOf f (filter p l) <= Js.sumOf f (filter q l)).
  { apply IH; intros y Hy; [apply H | apply Hf]; right; exact Hy. }
  destruct (p x) eqn:Hp.
  - rewrite (H x (or_introl eq_refl) Hp). rewrite !sumOf_cons. lra.
  - destruct (q x) eqn:Hq; [|exact IH'].
    rewrite sumOf_cons. pose proof (Hf x (or_introl eq_refl) Hq). lra.
Qed.

(** The swaps an excess asset sends to a list of flagged deficit assets. *)
Lemma swaps_of_excess (excess : DeviationResult) (deficits : list DeviationResult) :
  needsRebalance excess = true ->
  (forall d, In d deficits -> needsRebalance d = true) ->
  List.length (flat_map (swapFor excess) deficits)
  = (if sellable excess then List.length deficits else 0%nat)
  /\ tradedUSD (flat_map (swapFor excess) deficits)
     == (if sellable excess
         then amountToSell excess * inject_Z (Z.of_nat (List.length deficits))
         else 0).
Proof.
  intros He. unfold tradedUSD.
  induction deficits as [|d ds IH]; intros Hd.
  - cbn [flat_map List.length]. rewrite sumOf_nil.
    change (inject_Z (Z.of_nat 0)) with 0.
    destruct (sellable excess); split; try reflexivity; lra.
  - destruct IH as [IH1 IH2]; [intros x Hx; apply Hd; right; exact Hx|].
    cbn [flat_map]. rewrite length_app, sumOf_app, IH1, IH2.
    unfold swapFor. rewrite He, (Hd d (or_introl eq_refl)). cbn [andb].
    fold (amountToSell excess). fold (sellable excess).
    destruct (sellable excess); cbn [List.length].
    + split; [reflexivity|]. rewrite sumOf_cons, sumOf_nil. cbn [expectedAmount].
      rewrite Nat2Z.inj_succ. unfold Z.succ. rewrite inject_Z_plus.
      change (inject_Z 1) with 1. ring.
    + split; [reflexivity|]. rewrite sumOf_nil. lra.
Qed.

Lemma swaps_of_all (excesses deficits : list DeviationResult) :
  (forall e, In e excesses -> needsRebalance e = true) ->
  (forall d, In d deficits -> needsRebalance d = true) ->
  List.length (flat_map (fun e => flat_map (swapFor e) deficits) excesses)
  = (List.length (filter sellable excesses) * List.length deficits)%nat
  /\ tradedUSD (flat_map (fun e => flat_map (swapFor e) deficits) excesses)
     == Js.sumOf amountToSell (filter sellable excesses)
        * inject_Z (Z.of_nat (List.length deficits)).
Proof.
  intros He Hd. unfold tradedUSD.
  induction excesses as [|e es IH].
  - cbn [flat_map filter List.length]. rewrite !sumOf_nil. split; [reflexivity | lra].
  - destruct IH as [IH1 IH2]; [intros x Hx; apply He; right; exact Hx|].
    destruct (swaps_of_excess e deficits (He e (or_introl eq_refl)) Hd) as [S1 S2].
    unfold tradedUSD in S2.
    cbn [flat_map filter]. rewrite length_app, sumOf_app, IH1, IH2, S1, S2.
    destruct (sellable e); cbn [List.length].
    + split; [lia|]. rewrite sumOf_cons. ring.
    + split; [lia | ring].
Qed.

Lemma excessAssets_flagged (deviations : list DeviationResult) (d : DeviationResult) :
  In d (excessAssets deviations) -> needsRebalance d = true.
Proof.
  unfold excessAssets, sortedDeviations. intro H.
  apply filter_In in H. destruct H as [H _].
  apply (proj1 (sortDesc_In _ deviation d _)) in H. apply filter_In in H. apply H.
Qed.

Lemma deficitAssets_flagged (deviations : list DeviationResult) (d : DeviationResult) :
  In d (deficitAssets deviations) -> needsRebalance d = true.
Proof.
  unfold deficitAssets, sortedDeviations. intro H.
  apply filter_In in H. destruct H as [H _].
  apply (proj1 (sortDesc_In _ deviation d _)) in H. apply filter_In in H. apply H.
Qed.

Lemma sellers_perm (deviations : list DeviationResult) :
  Permutation (filter sellable (excessAssets deviations)) (sellers deviations).
Proof.
  unfold excessAssets, sortedDeviations, sellers.
  rewrite <- filter_twice, <- filter_twice.
  apply filter_perm, filter_perm. apply Permutation_sym, sortDesc_perm.
Qed.

Lemma buyers_perm (deviations : list DeviationResult) :
  Permutation (deficitAssets deviations) (buyers deviations).
Proof.
  unfold deficitAssets, sortedDeviations, buyers.
  rewrite <- filter_twice.
  apply filter_perm. apply Permutation_sym, sortDesc_perm.
Qed.

(** Size and volume of a plan of [generateSwapOperations]. *)
Lemma generateSwapOperations_size (deviations : list DeviationResult) (total : Q) :
  List.length (generateSwapOperations deviations total)
  = (List.length (sellers deviations) * List.length (buyers deviations))%nat
  /\ tradedUSD (generateSwapOperations deviations total)
     == Js.sumOf amountToSell (sellers deviations)
        * inject_Z (Z.of_nat (List.length (buyers deviations))).
Proof.
  unfold generateSwapOperations.
  change (flat_map (fun excess => flat_map (fun deficit => swapFor excess deficit)
                                           (deficitAssets deviations))
                   (excessAssets deviations))
    with (flat_map (fun e => flat_map (swapFor e) (deficitAssets deviations))
                   (excessAssets deviations)).
  destruct (swaps_of_all (excessAssets deviations) (deficitAssets deviations)
              (excessAssets_flagged deviations) (deficitAssets_flagged deviations))
    as [L T].
  rewrite L, T.
  rewrite (Permutation_length (sellers_perm deviations)).
  rewrite (Permutation_length (buyers_perm deviations)).
  rewrite (sumOf_perm _ amountToSell _ _ (sellers_perm deviations)).
  split; reflexivity.
Qed.

End ServicePlanner.

(* ================================================================== *)
(** ** C5: strict-periodic against threshold *)
(* ================================================================== *)

Section Aggressiveness.
Import RebalanceService.

Lemma sumOf_map (A B : Type) (f : B -> Q) (g : A -> B) (l : list A) :
  Js.sumOf f (map g l) == Js.sumOf (fun x => f (g x)) l.
Proof.
  induction l as [|x l IH]; simpl; [reflexivity|]. rewrite !sumOf_cons, IH. reflexivity.
Qed.

Lemma filter_map_commute (A B : Type) (p : B -> bool) (g : A -> B) (l : list A) :
  filter p (map g l) = map g (filter (fun x => p (g x)) l).
Proof.
  induction l as [|x l IH]; simpl; [reflexivity|].
  destruct (p (g x)); simpl; rewrite IH; reflexivity.
Qed.

Lemma off_target_is_nonzero (d : DeviationResult) :
  consistent d -> ~ currentPercentage d == targetPercentage d ->
  Js.strictEq (deviation d) 0 = false.
Proof.
  intros Hc Hne. destruct (Js.strictEq (deviation d) 0) eqn:Hz; [|reflexivity].
  exfalso. apply strictEq_true in Hz. unfold consistent in Hc.
  assert (Hle : Qabs (currentPercentage d - targetPercentage d) <= 0)
    by (rewrite <- Hc, Hz; lra).
  apply Qabs_Qle_condition in Hle. apply Hne. lra.
Qed.

(** Under the strict filter every seller and buyer of the threshold plan still
    takes part. *)
Lemma strict_keeps_participants (deviations : list DeviationResult) :
  Forall consistent deviations ->
  (List.length (sellers deviations)
   <= List.length (sellers (map strictDeviation deviations)))%nat
  /\ (List.length (buyers deviations)
      <= List.length (buyers (map strictDeviation deviations)))%nat
  /\ Js.sumOf amountToSell (sellers deviations)
     <= Js.sumOf amountToSell (sellers (map strictDeviation deviations))
  /\ 0 <= Js.sumOf amountToSell (sellers deviations).
Proof.
  intros Hwf. rewrite Forall_forall in Hwf.
  unfold sellers, buyers. rewrite !filter_map_commute, !length_map, sumOf_map.
  split; [|split; [|split]].
  - apply filter_length_le. intros d Hd Hp.
    apply andb_true_iff in Hp. destruct Hp as [Hp Hs].
    apply andb_true_iff in Hp. destruct Hp as [_ He].
    change (isExcess (strictDeviation d)) with (isExcess d).
    change (sellable (strictDeviation d)) with (sellable d).
    rewrite He, Hs. cbn [needsRebalance strictDeviation].
    rewrite off_target_is_nonzero; [reflexivity | apply Hwf; exact Hd |].
    apply gt_true in He. lra.
  - apply filter_length_le. intros d Hd Hp.
    apply andb_true_iff in Hp. destruct Hp as [_ He].
    change (isShort (strictDeviation d)) with (isShort d).
    rewrite He. cbn [needsRebalance strictDeviation].
    rewrite off_target_is_nonzero; [reflexivity | apply Hwf; exact Hd |].
    apply lt_true in He. lra.
  - apply filter_sum_le.
    + intros d Hd Hp.
      apply andb_true_iff in Hp. destruct Hp as [Hp Hs].
      apply andb_true_iff in Hp. destruct Hp as [_ He].
      change (isExcess (strictDeviation d)) with (isExcess d).
      change (sellable (strictDeviation d)) with (sellable d).
      rewrite He, Hs. cbn [needsRebalance strictDeviation].
      rewrite off_target_is_nonzero; [reflexivity | apply Hwf; exact Hd |].
      apply gt_true in He. lra.
    + intros d _ Hp. apply andb_true_iff in Hp. destruct Hp as [_ Hs].
      change (sellable (strictDeviation d)) with (sellable d) in Hs.
      apply gt_true in Hs. change (amountToSell (strictDeviation d)) with (amountToSell d).
      lra.
  - apply sumOf_nonneg. intros d Hd. apply filter_In in Hd. destruct Hd as [_ Hp].
    apply andb_true_iff in Hp. destruct Hp as [_ Hs]. apply gt_true in Hs. lra.
Qed.

Lemma strict_at_least_threshold (deviations : list DeviationResult) (total : Q) :
  Forall consistent deviations ->
  (List.length (generateSwapOperations deviations total)
   <= List.length (generateStrictSwapOperations deviations total))%nat
  /\ tradedUSD (generateSwapOperations deviations total)
     <= tradedUSD (generateStrictSwapOperations deviations total).
Proof.
  intro Hwf. unfold generateStrictSwapOperations.
  destruct (generateSwapOperations_size deviations total) as [L T].
  destruct (generateSwapOperations_size (map strictDeviation deviations) total) as [L' T'].
  destruct (strict_keeps_participants deviations Hwf) as [Hs [Hb [Hsum Hpos]]].
  rewrite L, L', T, T'. split.
  - apply Nat.mul_le_mono; assumption.
  - assert (Hn : inject_Z (Z.of_nat (List.length (buyers deviations)))
                 <= inject_Z (Z.of_nat (List.length (buyers (map strictDeviation deviations))))).
    { rewrite <- Zle_Qle. apply Nat2Z.inj_le. exact Hb. }
    assert (H0 : 0 <= inject_Z (Z.of_nat (List.length (buyers deviations)))).
    { change 0 with (inject_Z 0). rewrite <- Zle_Qle. apply Nat2Z.is_nonneg. }
    eapply Qle_trans.
    + apply Qmult_le_compat_r; [exact Hsum | exact H0].
    + rewrite (Qmult_comm _ (inject_Z (Z.of_nat (List.length (buyers deviations))))).
      rewrite (Qmult_comm _ (inject_Z (Z.of_nat (List.length
                 (buyers (map strictDeviation deviations)))))).
      apply Qmult_le_compat_r; [exact Hn | lra].
Qed.

Lemma calculateDeviations_consistent (portfolio : option BalanceUtils.Portfolio)
    (pb : PortfolioBalance) (docs : list BalanceUtils.AllocationDoc)
    (deviations : list DeviationResult) :
  calculateDeviations portfolio pb docs = Js.Ok deviations -> Forall consistent deviations.
Proof.
  destruct portfolio as [p|]; [|discriminate].
  intro H. apply Forall_forall. intros d Hd.
  destruct (calculateDeviations_In _ _ _ _ _ H Hd) as [doc [_ Hdev]].
  destruct (deviationOf_gate _ _ _ _ Hdev) as [_ G]. unfold consistent. rewrite G. reflexivity.
Qed.

End Aggressiveness.



(* ================================================================== *)
(** ** C1: conservation and the planner of [RebalanceService] *)
(* ================================================================== *)

(** C1 (the code departs from the claim).  On the portfolio
    [ServiceExample.heavy], [createRebalancePlan], through
    [generateSwapOperations], sells half of WBTC's surplus to each of the three
    deficit assets: 450 USD leave WBTC against a surplus of 300 USD, and 150 USD
    enter WETH against a deficit of 100 USD. *)
Theorem generateSwapOperations_oversells :
  match RebalanceService.createRebalancePlan "p" (Some GateExample.portfolio)
          ServiceExample.heavy ServiceExample.quarters with
  | Js.Ok plan =>
      map ServiceExample.summary (RebalanceService.swaps plan)
      = [ ("WBTC", "WETH", 150); ("WBTC", "USDC", 150); ("WBTC", "DAI", 150) ]
      /\ serviceSold "WBTC" (RebalanceService.swaps plan) == 450
      /\ serviceBought "WETH" (RebalanceService.swaps plan) == 150
      /\ match RebalanceService.deviations plan with
         | wbtc :: weth :: _ =>
             RebalanceService.currentValueUSD wbtc - RebalanceService.targetValueUSD wbtc
             == 300
             /\ RebalanceService.targetValueUSD weth - RebalanceService.currentValueUSD weth
                == 100
         | _ => False
         end
  | Js.Throw _ => False
  end.
Proof. vm_compute. repeat split; reflexivity. Qed.

(* ================================================================== *)
(** ** C2: the two executors *)
(* ================================================================== *)

Section Executor.
Import World RebalanceUtils.
Variable env : Environment.

Lemma submitted_snoc (t : Trace) (ev : Event) :
  submitted (t ++ [ev])%list
  = (submitted t ++ match ev with UniswapSwap s _ _ => [s] | _ => [] end)%list.
Proof.
  unfold submitted. rewrite flat_map_app. simpl. rewrite app_nil_r. reflexivity.
Qed.

Lemma waitForTransaction_submits_nothing (txHash : string) (t t' : Trace)
    (r : Js.Result unit) :
  SwapUtils.waitForTransaction env txHash t = (r, t') -> submitted t' = submitted t.
Proof.
  unfold SwapUtils.waitForTransaction, bind, emit, ask, ret, throw.
  destruct (confirmed env _ txHash); intros [= _ <-];
    rewrite submitted_snoc, app_nil_r; reflexivity.
Qed.

Lemma handleTokenApproval_submits_nothing (tokenAddress : string) (amount : Z)
    (ethAddress : string) (t t' : Trace) (r : Js.Result (option string)) :
  SwapUtils.handleTokenApproval env tokenAddress amount ethAddress t = (r, t') ->
  submitted t' = submitted t.
Proof.
  unfold SwapUtils.handleTokenApproval, bind, call, emit, ret.
  destruct (approvalAnswer env t tokenAddress amount ethAddress) as [[h|]|x];
    intros [= _ <-]; try reflexivity.
  rewrite submitted_snoc, app_nil_r. reflexivity.
Qed.

(** [executeSwap] hands at most its own swap to the venue; it hands it over
    whenever it returns a hash, and wraps the reason whenever it throws. *)
Lemma executeSwap_trace (swap : SwapOperation) (ethAddress pkp : string) (t t' : Trace)
    (r : Js.Result string) :
  SwapUtils.executeSwap env swap ethAddress pkp t = (r, t') ->
  match r with
  | Js.Ok _ => submitted t' = (submitted t ++ [swap])%list
  | Js.Throw e =>
      (submitted t' = submitted t \/ submitted t' = (submitted t ++ [swap])%list)
      /\ exists reason,
           e = Js.Error ("Failed to execute swap " ++ tokenInSymbol swap ++ " -> "
                         ++ tokenOutSymbol swap ++ ": " ++ reason)
  end.
Proof.
  unfold SwapUtils.executeSwap, tryCatch. unfold bind at 1.
  destruct (SwapUtils.handleTokenApproval env (tokenInAddress swap) (amountInTokens swap)
              ethAddress t) as [[approval|x] t1] eqn:Happ.
  2:{ unfold throw. intros [= <- <-]. split; [|eexists; reflexivity].
      left. eapply handleTokenApproval_submits_nothing. exact Happ. }
  apply handleTokenApproval_submits_nothing in Happ.
  unfold bind at 1.
  assert (Hwait : forall (c : M unit) r2 t2,
             (c = ret tt \/ exists h, c = SwapUtils.waitForTransaction env h) ->
             c t1 = (r2, t2) -> submitted t2 = submitted t).
  { intros c r2 t2 [->|[h ->]] Hc.
    - unfold ret in Hc. injection Hc as _ <-. exact Happ.
    - rewrite <- Happ. eapply waitForTransaction_submits_nothing. exact Hc. }
  set (c := match approval with
            | Some h => if String.eqb h "" then ret tt
                        else SwapUtils.waitForTransaction env h
            | None => ret tt
            end).
  assert (Hc : c = ret tt \/ exists h, c = SwapUtils.waitForTransaction env h).
  { unfold c. destruct approval as [h|]; [|left; reflexivity].
    destruct (String.eqb h ""); [left; reflexivity | right; eauto]. }
  destruct (c t1) as [[u|x] t2] eqn:Hct.
  2:{ unfold throw. intros [= <- <-]. split; [|eexists; reflexivity].
      left. eapply Hwait; eassumption. }
  pose proof (Hwait c _ _ Hc Hct) as Hsub.
  unfold SwapUtils.executeUniswapSwap, bind, emit, call, throw.
  destruct (uniswapAnswer env _ swap ethAddress pkp) as [h|x]; intros [= <- <-].
  - rewrite submitted_snoc, Hsub. reflexivity.
  - split; [|eexists; reflexivity]. right. rewrite submitted_snoc, Hsub. reflexivity.
Qed.

(** The loop of [executeRebalanceSwaps]: on return every swap was handed
    over, in order, and has its hash; on a throw the swaps before the failing
    one were handed over in order, the failing one at most, none after it, and
    the error names the failing swap's 1-based index and the reason. *)
Lemma swapLoop_stops (ethAddress pkp : string) (swaps : list SwapOperation) :
  forall (i : nat) (txHashes : list string) (t t' : Trace) (r : Js.Result (list string)),
    SwapUtils.swapLoop env ethAddress pkp i swaps txHashes t = (r, t') ->
    match r with
    | Js.Ok hashes =>
        submitted t' = (submitted t ++ swaps)%list
        /\ exists fresh, hashes = (txHashes ++ fresh)%list
                         /\ List.length fresh = List.length swaps
    | Js.Throw e =>
        exists done failing rest reason,
          swaps = (done ++ failing :: rest)%list
          /\ e = Js.Error ("Rebalancing stopped at swap "
                           ++ Js.ofNat (i + List.length done + 1) ++ ": " ++ reason)
          /\ (submitted t' = (submitted t ++ done)%list
              \/ submitted t' = (submitted t ++ done ++ [failing])%list)
    end.
Proof.
  induction swaps as [|swap rest IH]; intros i txHashes t t' r; cbn [SwapUtils.swapLoop].
  - unfold ret. intros [= <- <-]. split; [rewrite app_nil_r; reflexivity|].
    exists []. split; [rewrite app_nil_r; reflexivity | reflexivity].
  - unfold bind at 1. unfold tryCatch. unfold bind at 1.
    destruct (SwapUtils.executeSwap env swap ethAddress pkp t) as [[h|x] t1] eqn:Hexec.
    + pose proof (executeSwap_trace _ _ _ _ _ _ Hexec) as Hsub1. cbn in Hsub1.
      unfold bind at 1.
      destruct (SwapUtils.waitForTransaction env h t1) as [[u|x] t2] eqn:Hwait.
      * apply waitForTransaction_submits_nothing in Hwait.
        unfold ret at 1. intro Hrest. apply IH in Hrest.
        destruct r as [hashes|e].
        -- destruct Hrest as [Hs [fresh [-> Hlen]]]. split.
           ++ rewrite Hs, Hwait, Hsub1, <- app_assoc. reflexivity.
           ++ exists (h :: fresh). split; [rewrite <- app_assoc; reflexivity|].
              simpl. rewrite Hlen. reflexivity.
        -- destruct Hrest as [done [failing [rest' [reason [-> [-> Hs]]]]]].
           exists (swap :: done), failing, rest', reason.
           split; [reflexivity|]. split.
           ++ replace (i + List.length (swap :: done) + 1)%nat
                with (S i + List.length done + 1)%nat by (cbn [List.length]; lia).
              reflexivity.
           ++ rewrite Hwait, Hsub1 in Hs. rewrite <- !app_assoc in Hs. exact Hs.
      * apply waitForTransaction_submits_nothing in Hwait.
        unfold throw. intros [= <- <-].
        exists [], swap, rest, (Js.message x).
        split; [reflexivity|]. split.
        -- cbn [List.length]. rewrite Nat.add_0_r. reflexivity.
        -- right. rewrite Hwait, Hsub1. reflexivity.
    + pose proof (executeSwap_trace _ _ _ _ _ _ Hexec) as [Hsub1 _].
      unfold throw. intros [= <- <-].
      exists [], swap, rest, (Js.message x).
      split; [reflexivity|]. split.
      * cbn [List.length]. rewrite Nat.add_0_r. reflexivity.
      * cbn [app]. rewrite app_nil_r. exact Hsub1.
Qed.

End Executor.

Section ExecutorScenario.
Import World RebalanceUtils.
Variable env : Environment.

Ltac run_effects :=
  repeat (unfold SwapUtils.executeSwap, SwapUtils.handleTokenApproval,
            SwapUtils.executeUniswapSwap, SwapUtils.waitForTransaction,
            tryCatch, bind, call, ask, emit, ret, throw, lift;
          cbn [SwapUtils.swapLoop Js.message app]).

(** Three swaps; the first is confirmed, the second is handed over but not
    confirmed in time. *)
Lemma second_swap_unconfirmed (s1 s2 s3 : SwapOperation) (h1 h2 : string)
    (p : BalanceUtils.Portfolio) (portfolioId : string) :
  (forall t, findPortfolio env t portfolioId = Some p) ->
  String.eqb (BalanceUtils.ethAddress p) "" = false ->
  String.eqb (BalanceUtils.publicKey p) "" = false ->
  (forall t a n e, approvalAnswer env t a n e = Js.Ok None) ->
  (forall t e k, uniswapAnswer env t s1 e k = Js.Ok h1) ->
  (forall t e k, uniswapAnswer env t s2 e k = Js.Ok h2) ->
  (forall t, confirmed env t h1 = true) ->
  (forall t, confirmed env t h2 = false) ->
  SwapUtils.executeRebalanceSwaps env [s1; s2; s3] portfolioId []
  = (Js.Throw (Js.Error ("Rebalancing stopped at swap 2: Transaction " ++ h2
                         ++ " not confirmed within 60000ms")),
     [ UniswapSwap s1 (BalanceUtils.ethAddress p) (BalanceUtils.publicKey p);
       AwaitReceipt h1;
       UniswapSwap s2 (BalanceUtils.ethAddress p) (BalanceUtils.publicKey p);
       AwaitReceipt h2 ]).
Proof.
  intros Hp He Hk Happ Hs1 Hs2 Hc1 Hc2.
  unfold SwapUtils.executeRebalanceSwaps. unfold bind at 1, ask. rewrite Hp, He, Hk.
  cbn [orb]. run_effects.
  rewrite !Happ, Hs1, Hc1. run_effects. rewrite !Happ, Hs2, Hc2. reflexivity.
Qed.

(** A swap whose approval fails is not handed over, and stops the executor
    at its index. *)
Lemma approval_failure_stops (swap : SwapOperation) (rest : list SwapOperation)
    (p : BalanceUtils.Portfolio) (portfolioId : string) (t : Trace) (x : Js.Exception) :
  findPortfolio env t portfolioId = Some p ->
  String.eqb (BalanceUtils.ethAddress p) "" = false ->
  String.eqb (BalanceUtils.publicKey p) "" = false ->
  approvalAnswer env t (tokenInAddress swap) (amountInTokens swap) (BalanceUtils.ethAddress p)
  = Js.Throw x ->
  SwapUtils.executeRebalanceSwaps env (swap :: rest) portfolioId t
  = (Js.Throw (Js.Error ("Rebalancing stopped at swap 1: Failed to execute swap "
                         ++ tokenInSymbol swap ++ " -> " ++ tokenOutSymbol swap ++ ": "
                         ++ Js.message x)),
     t).
Proof.
  intros Hp He Hk Happ.
  unfold SwapUtils.executeRebalanceSwaps. unfold bind at 1, ask. rewrite Hp, He, Hk.
  cbn [orb]. run_effects. rewrite Happ. reflexivity.
Qed.

(** [DynamicSwapService.executeRebalanceSwaps] never throws, and goes through
    every swap of the list: each swap between two different tokens is
    attempted, whatever happened to the swaps before it, and the results
    returned are those of the swaps that succeeded. *)
Lemma dynamic_loop_continues (swaps : list DynamicSwapService.SwapParams) :
  forall (results : list DynamicSwapService.SwapResult) (t : Trace),
  exists collected t',
    DynamicSwapService.swapLoop env swaps results t
    = (Js.Ok (results ++ collected)%list, t')
    /\ Collected env swaps t collected t'
    /\ dynamicAttempts t'
       = (dynamicAttempts t ++ map pairOf (filter differentTokens swaps))%list.
Proof.
  induction swaps as [|s rest IH]; intros results t; cbn [DynamicSwapService.swapLoop].
  - exists [], t. split; [unfold ret; rewrite app_nil_r; reflexivity|].
    split; [constructor|]. simpl. rewrite app_nil_r. reflexivity.
  - unfold bind at 1. unfold tryCatch at 1. unfold bind at 1.
    destruct (DynamicSwapService.executeSwap env s t) as [[result|x] t1] eqn:Hexec.
    + unfold ret at 1.
      destruct (IH (results ++ [result])%list t1) as [collected [t' [Hrun [Hcol Hatt]]]].
      exists (result :: collected), t'. split; [|split].
      * rewrite Hrun, <- app_assoc. reflexivity.
      * eapply CollectedResult; eassumption.
      * rewrite Hatt. revert Hexec.
        unfold DynamicSwapService.executeSwap, tryCatch, differentTokens. cbn [filter].
        destruct (String.eqb (DynamicSwapService.fromAsset s) (DynamicSwapService.toAsset s)).
        -- unfold throw. discriminate.
        -- unfold bind, emit, call, ret, throw. cbn [negb map].
           destruct (dynamicAnswer env _ _ _ _ _); intros [= _ <-].
           unfold dynamicAttempts. rewrite flat_map_app. cbn [flat_map app].
           rewrite <- app_assoc. reflexivity.
    + unfold ret at 1.
      destruct (IH results t1) as [collected [t' [Hrun [Hcol Hatt]]]].
      exists collected, t'. split; [exact Hrun|]. split.
      * eapply CollectedFailure; eassumption.
      * rewrite Hatt. revert Hexec.
        unfold DynamicSwapService.executeSwap, tryCatch, differentTokens. cbn [filter].
        destruct (String.eqb (DynamicSwapService.fromAsset s) (DynamicSwapService.toAsset s)).
        -- unfold throw. intros [= _ <-]. cbn [negb]. reflexivity.
        -- unfold bind, emit, call, ret, throw. cbn [negb map].
           destruct (dynamicAnswer env _ _ _ _ _); intros [= _ <-].
           unfold dynamicAttempts. rewrite flat_map_app. cbn [flat_map app].
           rewrite <- app_assoc. reflexivity.
Qed.

End ExecutorScenario.




(* ================================================================== *)
(** ** C8: the audit records a cycle leaves *)
(* ================================================================== *)

Section Records.
Import World.
Variable env : Environment.

Variable P : RebalanceJobDoc -> Prop.

Lemma adds_nothing (A : Type) (c : M A) :
  (forall t r t', c t = (r, t') -> t' = t) -> Adds P c.
Proof.
  intros H t r t' Hc. rewrite (H _ _ _ Hc). exists []. split; [|constructor].
  rewrite app_nil_r. reflexivity.
Qed.

Lemma adds_ret (A : Type) (a : A) : Adds P (ret a).
Proof. apply adds_nothing. unfold ret. intros t r t' [= _ <-]. reflexivity. Qed.

Lemma adds_throw (A : Type) (e : Js.Exception) : Adds P (@throw A e).
Proof. apply adds_nothing. unfold throw. intros t r t' [= _ <-]. reflexivity. Qed.

Lemma adds_lift (A : Type) (x : Js.Result A) : Adds P (lift x).
Proof. apply adds_nothing. unfold lift. intros t r t' [= _ <-]. reflexivity. Qed.

Lemma adds_ask (A : Type) (oracle : Trace -> A) : Adds P (ask oracle).
Proof. apply adds_nothing. unfold ask. intros t r t' [= _ <-]. reflexivity. Qed.

Lemma adds_call (A : Type) (oracle : Trace -> Js.Result A) : Adds P (call oracle).
Proof. apply adds_nothing. unfold call. intros t r t' [= _ <-]. reflexivity. Qed.

Lemma rebalanceJobs_snoc (t : Trace) (e : Event) :
  rebalanceJobs (t ++ [e])%list
  = (rebalanceJobs t ++ match e with RebalanceJobSaved d => [d] | _ => [] end)%list.
Proof.
  unfold rebalanceJobs. rewrite flat_map_app. simpl. rewrite app_nil_r. reflexivity.
Qed.

Lemma adds_emit (e : Event) : notAJob e -> Adds P (emit e).
Proof.
  intros He t r t'. unfold emit. intros [= _ <-]. exists []. split; [|constructor].
  rewrite rebalanceJobs_snoc. destruct e; try reflexivity. destruct He.
Qed.

Lemma adds_write (e : Event) : notAJob e -> Adds P (write env e).
Proof.
  intros He t r t'. unfold write. exists []. split; [|constructor]. rewrite app_nil_r.
  destruct (writeFault env t e); injection H as _ <-; [reflexivity|].
  rewrite rebalanceJobs_snoc. destruct e; try (rewrite app_nil_r; reflexivity). destruct He.
Qed.

Lemma adds_save (d : RebalanceJobDoc) : P d -> Adds P (write env (RebalanceJobSaved d)).
Proof.
  intros Hd t r t'. unfold write.
  destruct (writeFault env t _); intros [= _ <-].
  - exists []. split; [rewrite app_nil_r; reflexivity | constructor].
  - exists [d]. split; [apply rebalanceJobs_snoc | constructor; [exact Hd | constructor]].
Qed.

Lemma adds_bind (A B : Type) (c : M A) (k : A -> M B) :
  Adds P c -> (forall a, Adds P (k a)) -> Adds P (bind c k).
Proof.
  intros Hc Hk t r t'. unfold bind.
  destruct (c t) as [[a|e] t1] eqn:Hct.
  - intro Hkt. destruct (Hc _ _ _ Hct) as [l1 [E1 F1]].
    destruct (Hk a _ _ _ Hkt) as [l2 [E2 F2]].
    exists (l1 ++ l2)%list. split; [rewrite E2, E1, app_assoc; reflexivity|].
    apply Forall_app. split; assumption.
  - intros [= _ <-]. apply (Hc _ _ _ Hct).
Qed.

Lemma adds_tryCatch (A : Type) (body : M A) (handler : Js.Exception -> M A) :
  Adds P body -> (forall e, Adds P (handler e)) -> Adds P (tryCatch body handler).
Proof.
  intros Hb Hh t r t'. unfold tryCatch.
  destruct (body t) as [[a|e] t1] eqn:Hbt.
  - intros [= _ <-]. apply (Hb _ _ _ Hbt).
  - intro Hht. destruct (Hb _ _ _ Hbt) as [l1 [E1 F1]].
    destruct (Hh e _ _ _ Hht) as [l2 [E2 F2]].
    exists (l1 ++ l2)%list. split; [rewrite E2, E1, app_assoc; reflexivity|].
    apply Forall_app. split; assumption.
Qed.

Lemma adds_tryFinally (A : Type) (body : M A) (e : Event) :
  Adds P body -> notAJob e -> Adds P (tryFinally body (fun t => (t ++ [e])%list)).
Proof.
  intros Hb He t r t'. unfold tryFinally.
  destruct (body t) as [r1 t1] eqn:Hbt. intros [= _ <-].
  destruct (Hb _ _ _ Hbt) as [l1 [E1 F1]]. exists l1. split; [|exact F1].
  rewrite rebalanceJobs_snoc, E1. destruct e; try (rewrite app_nil_r; reflexivity).
  destruct He.
Qed.

End Records.

Ltac adds_step :=
  match goal with
  | |- forall _, _ => intro
  | |- notAJob _ => exact I
  | |- Adds _ (World.bind _ _) => apply adds_bind
  | |- Adds _ (World.tryCatch _ _) => apply adds_tryCatch
  | |- Adds _ (World.tryFinally _ _) => apply adds_tryFinally
  | |- Adds _ (World.ret _) => apply adds_ret
  | |- Adds _ (World.throw _) => apply adds_throw
  | |- Adds _ (World.lift _) => apply adds_lift
  | |- Adds _ (World.ask _) => apply adds_ask
  | |- Adds _ (World.call _) => apply adds_call
  | |- Adds _ (World.emit _) => apply adds_emit
  | |- Adds _ (World.write _ _) => apply adds_write
  | |- Adds _ (if ?b then _ else _) => destruct b
  | |- Adds _ (match ?x with _ => _ end) => destruct x
  end.

Ltac adds := repeat adds_step.

Section QuietCode.
Import World.
Variable env : Environment.
Variable P : RebalanceJobDoc -> Prop.

Lemma adds_waitForTransaction (h : string) : Adds P (SwapUtils.waitForTransaction env h).
Proof. unfold SwapUtils.waitForTransaction. adds. Qed.

Lemma adds_executeSwap (swap : RebalanceUtils.SwapOperation) (eth pkp : string) :
  Adds P (SwapUtils.executeSwap env swap eth pkp).
Proof.
  unfold SwapUtils.executeSwap, SwapUtils.handleTokenApproval, SwapUtils.executeUniswapSwap.
  adds; apply adds_waitForTransaction.
Qed.

Lemma adds_swapLoop (eth pkp : string) (swaps : list RebalanceUtils.SwapOperation) :
  forall (i : nat) (txHashes : list string),
    Adds P (SwapUtils.swapLoop env eth pkp i swaps txHashes).
Proof.
  induction swaps as [|swap rest IH]; intros i txHashes; cbn [SwapUtils.swapLoop].
  - adds.
  - apply adds_bind; [|intro; apply IH].
    apply adds_tryCatch; [|adds].
    apply adds_bind; [apply adds_executeSwap|]. intro.
    apply adds_bind; [apply adds_waitForTransaction|]. adds.
Qed.

Lemma adds_executeRebalanceSwaps (swaps : list RebalanceUtils.SwapOperation)
    (portfolioId : string) :
  Adds P (SwapUtils.executeRebalanceSwaps env swaps portfolioId).
Proof.
  unfold SwapUtils.executeRebalanceSwaps.
  apply adds_bind; [adds|]. intros [p|]; [|adds].
  destruct (_ || _); [adds | apply adds_swapLoop].
Qed.

(** [portfolioMonitoring] persists no [RebalanceJob] document. *)
Lemma adds_portfolioMonitoring (portfolioId : string) :
  Adds P (PortfolioMonitoring.portfolioMonitoring env portfolioId).
Proof.
  unfold PortfolioMonitoring.portfolioMonitoring, PortfolioMonitoring.monitoringBody,
    PortfolioMonitoring.updatePortfolioBalances,
    PortfolioMonitoring.executeRebalanceSwapsOfJob.
  adds.
Qed.

Lemma adds_dynamicLoop (swaps : list DynamicSwapService.SwapParams) :
  forall results, Adds P (DynamicSwapService.swapLoop env swaps results).
Proof.
  induction swaps as [|s rest IH]; intros results; cbn [DynamicSwapService.swapLoop].
  - adds.
  - apply adds_bind; [|intro; apply IH].
    unfold DynamicSwapService.executeSwap. adds.
Qed.

End QuietCode.

Lemma adds_execute (env : World.Environment) (portfolioId : string) :
  Adds Executing (PortfolioMonitoringJob.execute env portfolioId).
Proof.
  assert (Hup : Adds Executing (PortfolioMonitoringJob.updatePortfolioBalances env portfolioId)).
  { unfold PortfolioMonitoringJob.updatePortfolioBalances. adds. }
  assert (Hplan : forall planner,
             Adds Executing (PortfolioMonitoringJob.readAndPlan env planner portfolioId)).
  { intro planner. unfold PortfolioMonitoringJob.readAndPlan. adds. }
  assert (Hdev : Adds Executing (PortfolioMonitoringJob.calculateDeviations env portfolioId)).
  { unfold PortfolioMonitoringJob.calculateDeviations. adds. }
  assert (Hexec : forall plan,
             Adds Executing (PortfolioMonitoringJob.executeRebalancing env portfolioId plan)).
  { intro plan. unfold PortfolioMonitoringJob.executeRebalancing,
      PortfolioMonitoringJob.recordRebalanceJob,
      PortfolioMonitoringJob.updatePortfolioAfterRebalance,
      DynamicSwapService.executeRebalanceSwaps.
    apply adds_tryCatch; [|adds].
    apply adds_bind; [apply adds_dynamicLoop|]. intro results.
    apply adds_bind; [|adds].
    apply adds_tryCatch; [|adds].
    destruct (RebalanceService.swaps plan) as [|swap rest].
    - apply adds_bind; [adds|]. intros _. apply adds_save. repeat split.
    - apply adds_nothing. intros t r t'.
      unfold World.bind, World.lift, RebalanceJobModel.validate.
      cbn [World.job_swaps map forallb World.js_minAmountOut andb].
      intros [= _ <-]. reflexivity. }
  unfold PortfolioMonitoringJob.execute.
  apply adds_tryCatch; [|adds].
  apply adds_bind; [adds|]. intros [p|]; [|adds].
  destruct (negb _); [adds|].
  apply adds_bind; [exact Hup|]. intros _.
  destruct (String.eqb _ _).
  - apply adds_bind; [apply Hplan|]. intro plan.
    destruct (_ <? _)%nat; [|adds].
    apply adds_bind; [apply Hexec | intro; exact Hup].
  - apply adds_bind; [exact Hdev|]. intro deviations.
    destruct (existsb _ _); [|adds].
    apply adds_bind; [apply Hplan|]. intro plan.
    destruct (RebalanceService.plan_needsRebalance plan); [|adds].
    apply adds_bind; [apply Hexec | intro; exact Hup].
Qed.




(* ================================================================== *)
(** ** C9: the allocation sum at creation and update *)
(* ================================================================== *)

Section SumGate.
Import World PortfolioSchema.

Lemma sumRefinement_iff (allocations : list AllocationInput) :
  sumRefinement allocations = true <-> sumsToOne allocations.
Proof. unfold sumRefinement, sumsToOne. apply lt_true. Qed.

Lemma CreatePortfolioSchema_split (body : CreatePortfolioRequest) :
  CreatePortfolioSchema body = fieldsValid body && sumRefinement (allocations body).
Proof.
  unfold CreatePortfolioSchema, fieldsValid, allocationsSchema, shapesValid.
  destruct (1 <=? String.length (name body))%nat, (String.length (name body) <=? 100)%nat,
    (forallb allocationShape (allocations body)), (1 <=? List.length (allocations body))%nat,
    (sumRefinement (allocations body)), (thresholdSchema (rebalanceThreshold body)),
    (oneOf _ (monitoringFrequency body)), (oneOf _ (rebalanceType body)); reflexivity.
Qed.

Lemma UpdateAllocationsSchema_split (allocations : list AllocationInput) :
  UpdateAllocationsSchema allocations = shapesValid allocations && sumRefinement allocations.
Proof. reflexivity. Qed.

Variable env : Environment.

(** The service refuses, before any write, a sum further than 0.001 from 1. *)
Lemma service_rejects_without_write (ethAddress portfolioId : string)
    (body : CreatePortfolioRequest) (allocations : list AllocationInput) (t : Trace) :
  (Js.double (1 # 1000)
   < Qabs (Js.fsub (Js.fsum targetPercentage (PortfolioSchema.allocations body)) 1) ->
   PortfolioService.createPortfolio env ethAddress body t
   = (Js.Throw (Js.Error "Total allocation percentage must equal 100%"), t))
  /\ (Js.double (1 # 1000) < Qabs (Js.fsub (Js.fsum targetPercentage allocations) 1) ->
      PortfolioService.updatePortfolioAllocations env portfolioId allocations t
      = (Js.Throw (Js.Error "Total allocation percentage must equal 100%"), t)).
Proof.
  split; intro H; apply gt_true in H;
    unfold PortfolioService.createPortfolio, PortfolioService.updatePortfolioAllocations,
      PortfolioService.totalPercentage, tryCatch, Js.Math_abs;
    rewrite H; reflexivity.
Qed.

(** A request whose sum is out of bound is refused by the handlers, which
    leave the trace as it was. *)
Lemma create_rejects_without_write (jwt : option string) (body : CreatePortfolioRequest)
    (t : Trace) :
  ~ sumsToOne (allocations body) ->
  Portfolios.handleCreatePortfolioRoute env jwt body t
  = ({| Portfolios.statusCode := 500; Portfolios.success := false |}, t).
Proof.
  intro H. unfold Portfolios.handleCreatePortfolioRoute, Portfolios.respond.
  destruct jwt as [eth|]; [|reflexivity].
  rewrite CreatePortfolioSchema_split.
  destruct (sumRefinement (allocations body)) eqn:Hs.
  - exfalso. apply H. apply sumRefinement_iff. exact Hs.
  - rewrite andb_false_r. reflexivity.
Qed.

Lemma update_rejects_without_write (jwt : option string) (portfolioId : string)
    (allocations : list AllocationInput) (t : Trace) :
  ~ sumsToOne allocations ->
  snd (Portfolios.handleUpdateAllocationsRoute env jwt portfolioId allocations t) = t
  /\ Portfolios.success
       (fst (Portfolios.handleUpdateAllocationsRoute env jwt portfolioId allocations t))
     = false.
Proof.
  intro H. unfold Portfolios.handleUpdateAllocationsRoute.
  destruct (negb (PortfolioParamsSchema portfolioId)); [split; reflexivity|].
  destruct jwt as [eth|]; [|split; reflexivity].
  rewrite UpdateAllocationsSchema_split.
  destruct (sumRefinement allocations) eqn:Hs.
  - exfalso. apply H. apply sumRefinement_iff. exact Hs.
  - rewrite andb_false_r. split; reflexivity.
Qed.

(** When the loop over the allocations returns, it has saved a document for
    every entry of the request, in order, and written nothing else. *)
Lemma saveAllocations_stored (portfolioRef : string) (allocations : list AllocationInput) :
  forall t t',
    PortfolioService.saveAllocations env portfolioRef allocations t = (Js.Ok tt, t') ->
    t' = (t ++ map (savedAs portfolioRef) allocations)%list.
Proof.
  induction allocations as [|a rest IH]; intros t t';
    cbn [PortfolioService.saveAllocations map].
  - unfold ret. intros [= <-]. rewrite app_nil_r. reflexivity.
  - unfold bind at 1, ask.
    destruct (activeAsset env t _); [|unfold throw; discriminate].
    unfold bind at 1, write.
    destruct (writeFault env t _); [discriminate|].
    intro Hrest. apply IH in Hrest. rewrite Hrest, <- app_assoc. reflexivity.
Qed.

(** When [createPortfolio] returns, the portfolio and every allocation of
    the request were saved, and the monitoring job scheduled or not. *)
Lemma createPortfolio_stored (ethAddress : string) (body : CreatePortfolioRequest)
    (t t' : Trace) :
  PortfolioService.createPortfolio env ethAddress body t = (Js.Ok tt, t') ->
  exists scheduled,
    t' = (t ++ PortfolioSaved ethAddress (name body)
            :: map (savedAs (name body)) (allocations body) ++ scheduled)%list
    /\ (scheduled = [] \/ scheduled = [MonitoringJobScheduled (name body)]).
Proof.
  unfold PortfolioService.createPortfolio. unfold tryCatch at 1.
  destruct (Js.gt _ _); [unfold throw; discriminate|].
  unfold bind at 1, write.
  destruct (writeFault env t _); [unfold throw; discriminate|].
  unfold bind at 1.
  destruct (PortfolioService.saveAllocations env (name body) (allocations body)
              (t ++ [PortfolioSaved ethAddress (name body)])%list)
    as [[[]|x] t1] eqn:Hsave; [|unfold throw; discriminate].
  apply saveAllocations_stored in Hsave. subst t1.
  unfold tryCatch, bind, call, emit, ret.
  destruct (scheduling env _ (name body)) as [[]|x]; intros [= <-].
  - exists [MonitoringJobScheduled (name body)]. split; [|right; reflexivity].
    rewrite <- !app_assoc. reflexivity.
  - exists []. split; [|left; reflexivity].
    rewrite <- !app_assoc, app_nil_r. reflexivity.
Qed.

(** When [updatePortfolioAllocations] returns, the allocations of the
    portfolio were deleted and every allocation of the request saved. *)
Lemma updatePortfolioAllocations_stored (portfolioId : string)
    (allocations : list AllocationInput) (t t' : Trace) :
  PortfolioService.updatePortfolioAllocations env portfolioId allocations t
  = (Js.Ok tt, t') ->
  t' = (t ++ AllocationsDeleted portfolioId :: map (savedAs portfolioId) allocations)%list.
Proof.
  unfold PortfolioService.updatePortfolioAllocations, tryCatch.
  destruct (Js.gt _ _); [unfold throw; discriminate|].
  unfold bind at 1, write.
  destruct (writeFault env t _); [unfold throw; discriminate|].
  destruct (PortfolioService.saveAllocations env portfolioId allocations
              (t ++ [AllocationsDeleted portfolioId])%list)
    as [[[]|x] t1] eqn:Hsave; [|unfold throw; discriminate].
  apply saveAllocations_stored in Hsave. subst t1.
  intros [= <-]. rewrite <- app_assoc. reflexivity.
Qed.

(** An accepted creation: the schema passed, and the portfolio and every
    allocation of the request were saved. *)
Lemma create_accepts_whole (jwt : option string) (body : CreatePortfolioRequest)
    (t : Trace) :
  Portfolios.success (fst (Portfolios.handleCreatePortfolioRoute env jwt body t)) = true ->
  sumsToOne (allocations body)
  /\ exists ethAddress scheduled,
       jwt = Some ethAddress
       /\ snd (Portfolios.handleCreatePortfolioRoute env jwt body t)
          = (t ++ PortfolioSaved ethAddress (name body)
               :: map (savedAs (name body)) (allocations body) ++ scheduled)%list
       /\ (scheduled = [] \/ scheduled = [MonitoringJobScheduled (name body)]).
Proof.
  intro Hok.
  destruct (sumRefinement (allocations body)) eqn:Hs.
  2:{ assert (Hno : ~ sumsToOne (allocations body)).
      { intro H. apply sumRefinement_iff in H. congruence. }
      rewrite (create_rejects_without_write jwt body t Hno) in Hok. discriminate Hok. }
  split; [apply sumRefinement_iff; exact Hs|].
  revert Hok. unfold Portfolios.handleCreatePortfolioRoute, Portfolios.respond.
  destruct jwt as [ethAddress|]; [|unfold throw; discriminate].
  destruct (CreatePortfolioSchema body); [|unfold throw; discriminate].
  destruct (PortfolioService.createPortfolio env ethAddress body t)
    as [[[]|x] t1] eqn:Hcreate; [|discriminate].
  intros _. apply createPortfolio_stored in Hcreate.
  destruct Hcreate as [scheduled [-> Hscheduled]].
  exists ethAddress, scheduled. split; [reflexivity|]. split; [reflexivity|exact Hscheduled].
Qed.

(** An accepted update: the schema passed, the allocations of the portfolio
    were deleted and every allocation of the request saved. *)
Lemma update_accepts_whole (jwt : option string) (portfolioId : string)
    (allocations : list AllocationInput) (t : Trace) :
  Portfolios.success
    (fst (Portfolios.handleUpdateAllocationsRoute env jwt portfolioId allocations t)) = true ->
  sumsToOne allocations
  /\ snd (Portfolios.handleUpdateAllocationsRoute env jwt portfolioId allocations t)
     = (t ++ AllocationsDeleted portfolioId :: map (savedAs portfolioId) allocations)%list.
Proof.
  intro Hok.
  destruct (sumRefinement allocations) eqn:Hs.
  2:{ assert (Hno : ~ sumsToOne allocations).
      { intro H. apply sumRefinement_iff in H. congruence. }
      destruct (update_rejects_without_write jwt portfolioId allocations t Hno) as [_ Hrej].
      congruence. }
  split; [apply sumRefinement_iff; exact Hs|].
  revert Hok. unfold Portfolios.handleUpdateAllocationsRoute.
  destruct (negb (PortfolioParamsSchema portfolioId)); [discriminate|].
  destruct jwt as [ethAddress|]; [|discriminate].
  destruct (negb (UpdateAllocationsSchema allocations)); [discriminate|].
  destruct (portfolioOwner env t portfolioId) as [owner|]; [|discriminate].
  destruct (negb _); [discriminate|].
  unfold Portfolios.respond.
  destruct (PortfolioService.updatePortfolioAllocations env portfolioId allocations t)
    as [[[]|x] t1] eqn:Hupdate; [|discriminate].
  intros _. apply updatePortfolioAllocations_stored in Hupdate. exact Hupdate.
Qed.

End SumGate.




(* ================================================================== *)
(** * Further properties of the code *)
(* ================================================================== *)

(* ================================================================== *)
(** ** [calculateTokenAmounts]: when it returns *)
(* ================================================================== *)

Section TokenAmounts.
Import BalanceUtils RebalanceUtils.

Lemma sextillion_is_finite : inject_Z (Js.pow10 21) <= Js.pow2 1024.
Proof. apply Qle_bool_iff. vm_compute. reflexivity. Qed.

Lemma tokensOf_cases (usd price : Q) (d : nat) :
  match tokensOf usd price d with
  | Js.Ok n =>
      (d <= 100)%nat /\ ~ price == 0
      /\ Qabs (Js.double (usd / price)) < inject_Z (Js.pow10 21)
  | Js.Throw e =>
      if (100 <? d)%nat
      then e = Js.RangeError "toFixed() digits argument must be between 0 and 100"
      else e = Js.Error "invalid decimal value"
           /\ (price == 0 \/ inject_Z (Js.pow10 21) <= Qabs (Js.double (usd / price)))
  end.
Proof.
  unfold tokensOf, Js.toFixed, Js.fdiv, Js.rounded.
  destruct (100 <? d)%nat eqn:Hd; cbn [Js.bind]; [reflexivity|].
  apply Nat.ltb_ge in Hd.
  destruct (Qeq_bool price 0) eqn:Hp.
  - cbn [Js.bind Js.parseUnits]. split; [reflexivity|]. left. apply Qeq_bool_iff. exact Hp.
  - set (q := Js.double (usd / price)).
    destruct (Qle_bool (Js.pow2 1024) (Qabs q)) eqn:Hinf.
    + cbn [Js.bind Js.parseUnits]. split; [reflexivity|]. right.
      apply Qle_bool_iff in Hinf. pose proof sextillion_is_finite. lra.
    + destruct (Qle_bool (inject_Z (Js.pow10 21)) (Qabs q)) eqn:Hbig.
      * cbn [Js.bind Js.parseUnits]. split; [reflexivity|]. right.
        apply Qle_bool_iff. exact Hbig.
      * assert (Hsmall : Qabs q < inject_Z (Js.pow10 21)).
        { apply Qnot_le_lt. intro H. apply Qle_bool_iff in H. congruence. }
        assert (Hnz : ~ price == 0).
        { intro H. apply Qeq_bool_iff in H. congruence. }
        destruct (Js.lt q 0); cbn [Js.bind Js.parseUnits];
          rewrite Nat.leb_refl; repeat split; assumption.
Qed.

(** X4.  [calculateTokenAmounts] returns exactly when [decimals] is at most
    100, the price is not zero and the quotient [usdAmount / tokenPrice], as
    the double division gives it, is below 10^21 in absolute value;
    [amountFormatted] is then that quotient.  With more than 100 decimals
    [toFixed] throws a [RangeError]; with a zero price or a quotient from
    10^21 on, [parseUnits] refuses the text [toFixed] printed ("invalid
    decimal value"). *)
Theorem calculateTokenAmounts_returns (usdAmount tokenPrice : Q) (decimals : nat) :
  match calculateTokenAmounts usdAmount tokenPrice decimals with
  | Js.Ok r =>
      (decimals <= 100)%nat /\ ~ tokenPrice == 0
      /\ Qabs (Js.double (usdAmount / tokenPrice)) < inject_Z (Js.pow10 21)
      /\ amountFormatted r = Js.Finite (Js.double (usdAmount / tokenPrice))
  | Js.Throw e =>
      if (100 <? decimals)%nat
      then e = Js.RangeError "toFixed() digits argument must be between 0 and 100"
      else e = Js.Error "invalid decimal value"
           /\ (tokenPrice == 0
               \/ inject_Z (Js.pow10 21) <= Qabs (Js.double (usdAmount / tokenPrice)))
  end.
Proof.
  generalize (tokensOf_cases usdAmount tokenPrice decimals).
  destruct (calculateTokenAmounts usdAmount tokenPrice decimals) as [r|e] eqn:Hcalc.
  - destruct (calculateTokenAmounts_tokensOf _ _ _ _ Hcalc) as [Htok Hfmt].
    rewrite Htok. intros [Hd [Hp Hq]].
    split; [exact Hd|]. split; [exact Hp|]. split; [exact Hq|].
    rewrite Hfmt. apply (tokensOf_nearest _ _ _ _ Htok).
  - revert Hcalc. unfold tokensOf, calculateTokenAmounts.
    destruct (Js.toFixed (Js.fdiv usdAmount tokenPrice) decimals) as [text|x];
      cbn [Js.bind]; [|intros [= <-]; exact (fun H => H)].
    destruct (Js.parseUnits text decimals) as [n|x]; cbn [Js.bind];
      [discriminate | intros [= <-]; exact (fun H => H)].
Qed.

(** A quotient within [numeralRange] is still under 10^21 once rounded. *)
Lemma double_in_numeralRange (q : Q) :
  0 <= q -> q <= numeralRange -> Qabs (Js.double q) < inject_Z (Js.pow10 21).
Proof.
  intros H0 Hq. pose proof (double_error q) as He.
  rewrite (Qabs_pos q) in He by exact H0.
  assert (Hu : Js.pow2 (-53) == 1 # 9007199254740992) by (vm_compute; reflexivity).
  assert (Hn : Js.pow2 (-1075) <= 1) by (apply Qle_bool_iff; vm_compute; reflexivity).
  rewrite Hu in He.
  assert (Hr : numeralRange == 999999999999999737856) by (vm_compute; reflexivity).
  assert (Hs : inject_Z (Js.pow10 21) == 1000000000000000000000) by (vm_compute; reflexivity).
  rewrite Hr in Hq. rewrite Hs.
  apply Qabs_Qle_condition in He. destruct He as [He1 He2].
  apply Qabs_case; intros _; lra.
Qed.

(** Amounts and prices the conversion accepts. *)
Lemma tokens_priced (usd price : Q) (d : nat) :
  (d <= 100)%nat -> 0 < price -> 0 <= usd -> usd <= numeralRange * price ->
  exists text n,
    Js.toFixed (Js.fdiv usd price) d = Js.Ok text /\ Js.parseUnits text d = Js.Ok n.
Proof.
  intros Hd Hp Hu Hb.
  generalize (tokensOf_cases usd price d). unfold tokensOf.
  assert (Hq : Qabs (Js.double (usd / price)) < inject_Z (Js.pow10 21)).
  { apply double_in_numeralRange.
    - apply Qle_shift_div_l; [exact Hp|]. lra.
    - apply Qle_shift_div_r; assumption. }
  destruct (Js.toFixed (Js.fdiv usd price) d) as [text|e]; cbn [Js.bind].
  - destruct (Js.parseUnits text d) as [n|e] eqn:Hn; [intros _; exists text, n; auto|].
    rewrite (proj2 (Nat.ltb_ge _ _) Hd). intros [_ [H|H]]; lra.
  - rewrite (proj2 (Nat.ltb_ge _ _) Hd). intros [_ [H|H]]; lra.
Qed.

End TokenAmounts.

(* ================================================================== *)
(** ** [calculateRebalanceSwaps]: when it returns *)
(* ================================================================== *)

Section PlannerReturns.
Import BalanceUtils RebalanceUtils.
Variable allocs : list PortfolioAllocation.
Variable total : Q.
Hypothesis Hpriceable : Forall (priceable allocs) allocs.

Lemma buyStep_returns (b : Trade) (toSell : list Trade) (swaps : list SwapOperation) :
  toSell <> [] -> buyOf allocs total b -> Forall (sellOf allocs total) toSell ->
  exists toSell' swaps',
    buyStep allocs b (toSell, swaps) = Js.Ok (toSell', swaps')
    /\ toSell' <> [] /\ Forall (sellOf allocs total) toSell'.
Proof.
  intros Hne [Hb [ab [Hab Hbase]]] Hsell.
  destruct (reduceMax_nonempty toSell Hne) as [i [s Hmax]].
  destruct (reduceMax_spec _ _ _ Hmax) as [l1 [l2 [-> [-> _]]]].
  unfold buyStep. rewrite Hmax. cbn [Js.bind].
  assert (Hsame : exists toSell' swaps',
             Js.Ok ((l1 ++ s :: l2)%list, swaps) = Js.Ok (toSell', swaps')
             /\ toSell' <> [] /\ Forall (sellOf allocs total) toSell').
  { eexists. eexists. split; [reflexivity|]. split; assumption. }
  destruct (Js.gt (difference s) (1 # 100)) eqn:Hgt; [|exact Hsame].
  apply gt_true in Hgt.
  destruct (findAllocation allocs (tv_symbol (base s))) as [sa|] eqn:Hsa; [|exact Hsame].
  destruct (findAllocation allocs (tv_symbol (base b))) as [ba|] eqn:Hba; [|exact Hsame].
  clear Hsame.
  apply find_some in Hsa. destruct Hsa as [Hsa _].
  apply find_some in Hba. destruct Hba as [Hba _].
  pose proof (proj1 (Forall_forall _ _) Hpriceable) as Hall.
  destruct (Hall sa Hsa) as [ps [Eps [Psa [_ [_ [_ Bsa]]]]]].
  destruct (Hall ba Hba) as [pb [Epb [Pba [_ [_ [_ Bba]]]]]].
  rewrite Forall_forall in Bsa, Bba.
  assert (Hs : sellOf allocs total s).
  { rewrite Forall_forall in Hsell. apply Hsell. apply in_or_app. right. left. reflexivity. }
  destruct Hs as [as_ [Has [Hsbase Hsle]]].
  destruct (Hall as_ Has) as [pas [_ [_ [Das _]]]].
  destruct (Hall ab Hab) as [pab [_ [_ [Dab _]]]].
  rewrite Eps, Epb. cbn [logged Js.bind].
  set (amt := Js.Math_min (difference s) (difference b)).
  assert (Hamt : 0 < amt /\ amt <= difference s).
  { split; [apply Math_min_pos; lra | apply Math_min_le_l]. }
  assert (Din : (decimals (tv_asset (base s)) <= 100)%nat) by (rewrite Hsbase; exact Das).
  assert (Dout : (decimals (tv_asset (base b)) <= 100)%nat) by (rewrite Hbase; exact Dab).
  pose proof (Bsa as_ Has) as Lin. pose proof (Bba as_ Has) as Lout.
  destruct (tokens_priced amt ps _ Din Psa) as [inText [tin [E1 E2]]];
    [lra | lra |].
  destruct (tokens_priced amt pb _ Dout Pba) as [outText [tout [E3 E4]]];
    [lra | lra |].
  rewrite E1. cbn [Js.bind]. rewrite E2. cbn [Js.bind].
  rewrite E3. cbn [Js.bind]. rewrite E4. cbn [Js.bind].
  eexists. eexists. split; [reflexivity|].
  rewrite subtractAt_split. split.
  - intro H. apply app_eq_nil in H. destruct H as [_ H]. discriminate H.
  - apply Forall_app in Hsell. destruct Hsell as [H1 H2].
    apply Forall_app. split; [exact H1|].
    inversion H2 as [|x l Hx Hl]; subst. constructor; [|exact Hl].
    exists as_. cbn [base difference]. split; [exact Has|]. split; [exact Hsbase|]. lra.
Qed.

Lemma buyLoop_returns (toBuy : list Trade) :
  forall (toSell : list Trade) (swaps : list SwapOperation),
    toBuy = [] \/ toSell <> [] ->
    Forall (buyOf allocs total) toBuy -> Forall (sellOf allocs total) toSell ->
    exists st', buyLoop allocs toBuy (toSell, swaps) = Js.Ok st'.
Proof.
  induction toBuy as [|b rest IH]; intros toSell swaps Hne Hbuy Hsell; cbn [buyLoop].
  - eauto.
  - destruct Hne as [Hne|Hne]; [discriminate Hne|].
    inversion Hbuy as [|x l Hb Hrest]; subst.
    destruct (buyStep_returns b toSell swaps Hne Hb Hsell)
      as [toSell' [swaps' [-> [Hne' Hsell']]]].
    cbn [Js.bind]. apply IH; [right; exact Hne' | exact Hrest | exact Hsell'].
Qed.

End PlannerReturns.

Section PlannerReturnsTotal.
Import BalanceUtils RebalanceUtils.

Lemma initial_trades (allocs : list PortfolioAllocation) :
  let total := Js.sumOf currentValueUSD allocs in
  Forall (priceable allocs) allocs ->
  Forall (buyOf allocs total) (map (buyTrade total) (filter (isDeficit total) allocs))
  /\ Forall (sellOf allocs total) (map (sellTrade total) (filter (isSurplus total) allocs)).
Proof.
  intros total Hp. rewrite Forall_forall in Hp.
  assert (Htotal : 0 <= total).
  { apply sumOf_nonneg. intros x Hx. destruct (Hp x Hx) as [px Hx']. apply Hx'. }
  split; apply Forall_forall; intros x Hx; apply in_map_iff in Hx;
    destruct Hx as [a [<- Ha]]; apply filter_In in Ha; destruct Ha as [Ha Hsign].
  - split; [apply gt_true in Hsign; exact Hsign|]. exists a. split; [exact Ha | reflexivity].
  - exists a. split; [exact Ha|]. split; [reflexivity|].
    apply lt_true in Hsign. cbn [sellTrade difference].
    destruct (Hp a Ha) as [pa [_ [_ [_ [_ [Ht _]]]]]].
    rewrite Qabs_neg by lra. unfold gapUSD in *.
    assert (0 <= total * targetPercentage a) by (apply Qmult_le_0_compat; assumption).
    lra.
Qed.

(** X5.  [calculateRebalanceSwaps] returns a plan whenever every allocation can
    be priced (a price, which is positive, at most 100 decimals, no negative
    value or target, values of at most 10^21 - 2^18 units of each asset, so
    that the double quotient stays under 10^21) and some asset is in surplus
    or none is in deficit. *)
Theorem planner_returns (allocs : list PortfolioAllocation) :
  let total := Js.sumOf currentValueUSD allocs in
  Forall (priceable allocs) allocs ->
  filter (isDeficit total) allocs = [] \/ filter (isSurplus total) allocs <> [] ->
  exists plan, calculateRebalanceSwaps allocs = Js.Ok plan.
Proof.
  intros total Hp Hside.
  unfold calculateRebalanceSwaps. fold total.
  destruct (Js.strictEq total 0); [eauto|].
  destruct (_ =? 0)%nat; [eauto|].
  unfold emittedSwaps. rewrite assetsToBuy_spec, assetsToSell_spec.
  destruct (initial_trades allocs Hp) as [Hbuy Hsell]. fold total in Hbuy, Hsell.
  destruct (buyLoop_returns allocs total Hp
              (map (buyTrade total) (filter (isDeficit total) allocs))
              (map (sellTrade total) (filter (isSurplus total) allocs)) [])
    as [st' ->]; [|exact Hbuy|exact Hsell|cbn [Js.bind]; eauto].
  destruct Hside as [H|H]; [left; rewrite H; reflexivity|].
  right. intro Hmap. apply map_eq_nil in Hmap. exact (H Hmap).
Qed.

Lemma twoByTwo_priceable :
  Forall (priceable PlannerExample.twoByTwo) PlannerExample.twoByTwo.
Proof.
  repeat (constructor;
          [exists 1;
           repeat (split; [first [reflexivity | simpl; lia | vm_compute; reflexivity
                                  | vm_compute; intro H; discriminate H]|]);
           repeat (constructor; [vm_compute; intro H; discriminate H|]); constructor|]).
  constructor.
Qed.

Lemma planner_returns_witness :
  exists plan, calculateRebalanceSwaps PlannerExample.twoByTwo = Js.Ok plan.
Proof.
  apply (planner_returns PlannerExample.twoByTwo twoByTwo_priceable).
  right. vm_compute. discriminate.
Defined.

End PlannerReturnsTotal.

(* ================================================================== *)
(** ** The two ends of a swap of a plan *)
(* ================================================================== *)

Section SwapEnds.
Import BalanceUtils RebalanceUtils.

Lemma Forall2_In_r (A B : Type) (R : A -> B -> Prop) (l : list A) (l' : list B) (b : B) :
  Forall2 R l l' -> In b l' -> exists a, In a l /\ R a b.
Proof.
  induction 1 as [|x y l l' Hxy _ IH]; intros Hb; [destruct Hb|].
  destruct Hb as [<-|Hb].
  - exists x. split; [left; reflexivity | exact Hxy].
  - destruct (IH Hb) as [a [Ha HR]]. exists a. split; [right; exact Ha | exact HR].
Qed.

(** X2.  With distinct symbols, every swap of a plan sells an asset that is
    over its target value and buys a different asset that is under its target
    value, for a positive USD amount; symbols, addresses and decimals of the
    swap are those of the two allocations. *)
Theorem swaps_go_from_surplus_to_deficit
    (allocs : list PortfolioAllocation) (plan : RebalancePlan) (e : SwapOperation) :
  NoDup (map symbolOf allocs) ->
  calculateRebalanceSwaps allocs = Js.Ok plan ->
  In e (swaps plan) ->
  let total := Js.sumOf currentValueUSD allocs in
  exists source destination,
    In source allocs /\ In destination allocs
    /\ isSurplus total source = true /\ isDeficit total destination = true
    /\ tokenInSymbol e = symbol (asset source)
    /\ tokenInAddress e = address (asset source)
    /\ tokenInDecimals e = decimals (asset source)
    /\ tokenOutSymbol e = symbol (asset destination)
    /\ tokenOutAddress e = address (asset destination)
    /\ tokenOutDecimals e = decimals (asset destination)
    /\ tokenInSymbol e <> tokenOutSymbol e
    /\ 0 < amountInUSD e.
Proof.
  intros Hnd Hplan He total.
  destruct (plan_swap_origin _ _ _ Hplan He)
    as [pre b post Sk swk i s sa ps tin tout Ho Hr Hp Hw _ _ _ ->].
  fold total in Ho, Hr.
  assert (Hb : In b (map (buyTrade total) (filter (isDeficit total) allocs))).
  { rewrite Ho. apply in_or_app. right. left. reflexivity. }
  pose proof (buy_differences_positive _ _ _ Hb) as Hbpos.
  apply in_map_iff in Hb. destruct Hb as [dst [Hdst Hd]].
  apply filter_In in Hd. destruct Hd as [Hdin Hdsign].
  assert (Hinv : SellInv (map (sellTrade total) (filter (isSurplus total) allocs)) Sk swk).
  { eapply Run_sell_inv.
    - apply buyLoop_run. exact Hr.
    - intros x Hx. apply (buy_differences_positive total allocs).
      rewrite Ho. apply in_or_app. left. exact Hx.
    - apply sellInv_initial. exact Hnd. }
  destruct Hinv as [_ [Hall _]].
  destruct (reduceMax_max _ _ _ Hp) as [Hs _].
  destruct (Forall2_In_r _ _ _ _ _ _ Hall Hs) as [s0 [Hs0 [Hbase _]]].
  apply in_map_iff in Hs0. destruct Hs0 as [src [Hsrc Hsin]].
  apply filter_In in Hsin. destruct Hsin as [Hsin Hssign].
  exists src, dst.
  cbn [swapOf tokenInSymbol tokenInAddress tokenInDecimals tokenOutSymbol tokenOutAddress
         tokenOutDecimals amountInUSD].
  rewrite <- Hbase, <- Hsrc, <- Hdst. cbn [sellTrade buyTrade base tvOf tv_symbol tv_asset].
  repeat (split; [first [assumption | reflexivity]|]).
  split.
  - intro Heq.
    assert (src = dst) by (apply (unique_symbol allocs); assumption).
    subst dst. apply lt_true in Hssign. apply gt_true in Hdsign. lra.
  - rewrite <- Hdst in Hbpos. apply Math_min_pos; [lra | exact Hbpos].
Qed.

End SwapEnds.

Lemma swaps_go_from_surplus_to_deficit_witness :
  match RebalanceUtils.calculateRebalanceSwaps PlannerExample.twoByTwo with
  | Js.Ok plan =>
      match RebalanceUtils.swaps plan with
      | e :: _ => RebalanceUtils.tokenInSymbol e <> RebalanceUtils.tokenOutSymbol e
                  /\ 0 < RebalanceUtils.amountInUSD e
      | [] => False
      end
  | Js.Throw _ => False
  end.
Proof.
  destruct (RebalanceUtils.calculateRebalanceSwaps PlannerExample.twoByTwo)
    as [plan|x] eqn:E1; [|vm_compute in E1; discriminate E1].
  destruct (RebalanceUtils.swaps plan) as [|e rest] eqn:E3.
  - vm_compute in E1. injection E1 as <-. discriminate E3.
  - assert (Hin : In e (RebalanceUtils.swaps plan)) by (rewrite E3; left; reflexivity).
    destruct (swaps_go_from_surplus_to_deficit PlannerExample.twoByTwo plan e
                twoByTwo_symbols E1 Hin)
      as [source [destination [_ [_ [_ [_ [_ [_ [_ [_ [_ [_ [Hdiff Hpos]]]]]]]]]]]]].
    split; [exact Hdiff | exact Hpos].
Defined.

(** The theorem X1 at the first allocation of [PlannerExample.twoByTwo]: S1
    holds 600 USD against a target of 400. *)
Lemma calculateRebalanceSwaps_conserves_witness :
  match RebalanceUtils.calculateRebalanceSwaps PlannerExample.twoByTwo with
  | Js.Ok plan =>
      soldUSD "S1" (RebalanceUtils.swaps plan) <= 200
      /\ boughtUSD "S1" (RebalanceUtils.swaps plan) == 0
  | Js.Throw _ => False
  end.
Proof.
  destruct (RebalanceUtils.calculateRebalanceSwaps PlannerExample.twoByTwo)
    as [plan|x] eqn:E1; [|vm_compute in E1; discriminate E1].
  destruct (calculateRebalanceSwaps_conserves PlannerExample.twoByTwo plan
              (PlannerExample.allocation "S1" 6 (1 # 4) 600 1600 1)
              twoByTwo_symbols E1 (or_introl eq_refl)) as [H1 [_ [_ H4]]].
  split.
  - eapply Qle_trans; [apply H1; vm_compute; reflexivity|].
    vm_compute. intro H. discriminate H.
  - apply H4. vm_compute. intro H. discriminate H.
Defined.

Lemma empty_surplus_throws_witness :
  RebalanceUtils.calculateRebalanceSwaps PlannerExample.noSurplus = Js.Throw reduceOfEmpty.
Proof.
  apply (empty_surplus_throws PlannerExample.noSurplus).
  - vm_compute. intro H. discriminate H.
  - reflexivity.
  - reflexivity.
  - vm_compute. intro H. discriminate H.
Defined.

(* ================================================================== *)
(** ** What is to buy against what is to sell *)
(* ================================================================== *)

Section Books.
Import BalanceUtils RebalanceUtils.

Lemma trade_differences (T : Q) (allocs : list PortfolioAllocation) :
  Js.sumOf difference (map (buyTrade T) (filter (isDeficit T) allocs))
  - Js.sumOf difference (map (sellTrade T) (filter (isSurplus T) allocs))
  == T * Js.sumOf targetPercentage allocs - Js.sumOf currentValueUSD allocs.
Proof.
  induction allocs as [|a l IH].
  - cbn [filter map]. unfold Js.sumOf. cbn [fold_left]. ring.
  - cbn [filter]. rewrite (sumOf_cons _ targetPercentage), (sumOf_cons _ currentValueUSD).
    destruct (isDeficit T a) eqn:Hd; destruct (isSurplus T a) eqn:Hs; cbn [map];
      rewrite ?sumOf_cons; cbn [buyTrade sellTrade difference];
      try (apply gt_true in Hd); try (apply gt_false in Hd);
      try (apply lt_true in Hs); try (apply lt_false in Hs).
    + lra.
    + unfold gapUSD in *. lra.
    + rewrite Qabs_neg by lra. unfold gapUSD in *. lra.
    + unfold gapUSD in *. lra.
Qed.

(** X3.  The USD the planner sets out to buy minus the USD it sets out to sell
    is the portfolio value times the excess of the targets over 1: when the
    targets sum to 1, the deficits add up to exactly the surpluses. *)
Theorem deficits_match_surpluses (allocs : list PortfolioAllocation) :
  let total := Js.sumOf currentValueUSD allocs in
  let tvs := targetValuesUSD allocs total in
  Js.sumOf difference (assetsToBuy tvs) - Js.sumOf difference (assetsToSell tvs)
  == total * (Js.sumOf targetPercentage allocs - 1).
Proof.
  intros total tvs. unfold tvs.
  rewrite assetsToBuy_spec, assetsToSell_spec, trade_differences. fold total. ring.
Qed.

End Books.

(* ================================================================== *)
(** ** From the balances read to the allocations *)
(* ================================================================== *)

Section Accounting.
Import BalanceUtils BalanceReads.

Lemma sumOf_ext_in (A : Type) (f g : A -> Q) (l : list A) :
  (forall x, In x l -> f x == g x) -> Js.sumOf f l == Js.sumOf g l.
Proof.
  induction l as [|x l IH]; intro H; [rewrite !sumOf_nil; reflexivity|].
  rewrite !sumOf_cons, IH, (H x (or_introl eq_refl)); [reflexivity|].
  intros y Hy. apply H. right. exact Hy.
Qed.

Lemma sumOf_scaled (A : Type) (f : A -> Q) (c : Q) (l : list A) :
  Js.sumOf (fun x => f x / c) l == Js.sumOf f l / c.
Proof.
  induction l as [|x l IH].
  - rewrite !sumOf_nil. unfold Qdiv. ring.
  - rewrite !sumOf_cons, IH. unfold Qdiv. ring.
Qed.

Lemma balances_total (readings : list AssetReading) :
  Js.sumOf usd (flat_map balanceOf readings) == Js.sumOf valueOf readings.
Proof.
  induction readings as [|r l IH]; [reflexivity|].
  cbn [flat_map]. rewrite sumOf_app, sumOf_cons, IH.
  unfold balanceOf, valueOf. destruct (latestPrice r).
  - rewrite sumOf_cons, sumOf_nil. cbn [usd]. ring.
  - rewrite sumOf_nil. ring.
Qed.

Lemma no_balance_of_others (s : string) (readings : list AssetReading) :
  ~ In s (map readingSymbol readings) ->
  find (fun b => String.eqb (cb_symbol b) s) (flat_map balanceOf readings) = None.
Proof.
  induction readings as [|r l IH]; intro H; [reflexivity|].
  cbn [flat_map]. 
  assert (Hr : readingSymbol r <> s) by (intro E; apply H; left; exact E).
  assert (Hl : ~ In s (map readingSymbol l)) by (intro E; apply H; right; exact E).
  unfold balanceOf at 1. destruct (latestPrice r); cbn [app find cb_symbol].
  - apply String.eqb_neq in Hr. unfold readingSymbol in Hr. rewrite Hr. apply IH, Hl.
  - apply IH, Hl.
Qed.

(** With distinct symbols, the balance found for an allocation is the one
    made from its own reading. *)
Lemma find_own_balance (readings : list AssetReading) (r : AssetReading) :
  NoDup (map readingSymbol readings) -> In r readings ->
  find (fun b => String.eqb (cb_symbol b) (readingSymbol r)) (flat_map balanceOf readings)
  = hd_error (balanceOf r).
Proof.
  induction readings as [|x l IH]; intros Hnd Hr; [destruct Hr|].
  inversion Hnd as [|y l' Hnotin Hnd']; subst.
  cbn [flat_map]. destruct Hr as [->|Hr].
  - unfold balanceOf at 1 3. destruct (latestPrice r); cbn [app find cb_symbol hd_error].
    + unfold readingSymbol. rewrite String.eqb_refl. reflexivity.
    + apply no_balance_of_others. exact Hnotin.
  - assert (Hne : readingSymbol x <> readingSymbol r).
    { intro E. apply Hnotin. rewrite E. apply in_map. exact Hr. }
    unfold balanceOf at 1. destruct (latestPrice x); cbn [app find cb_symbol].
    + apply String.eqb_neq in Hne. unfold readingSymbol in Hne at 1. rewrite Hne.
      apply IH; assumption.
    + apply IH; assumption.
Qed.

Lemma allocationOf_own (readings : list AssetReading) (total : Q) (r : AssetReading) :
  NoDup (map readingSymbol readings) -> In r readings ->
  let a := allocationOf (flat_map balanceOf readings) total (allocation r) in
  asset a = assetId (allocation r)
  /\ targetPercentage a = doc_targetPercentage (allocation r)
  /\ currentValueUSD a = valueOf r
  /\ currentPercentage a == valueOf r / total.
Proof.
  intros Hnd Hr a. unfold a, allocationOf.
  change (symbol (assetId (allocation r))) with (readingSymbol r).
  rewrite (find_own_balance readings r Hnd Hr).
  unfold balanceOf, valueOf. destruct (latestPrice r); cbn.
  - repeat split; reflexivity.
  - repeat split; reflexivity.
Qed.

(** X7.  [calculateCurrentAllocations] on the balances [getCurrentBalances]
    read, for allocation documents with distinct symbols.  A portfolio worth
    nothing yields no allocation.  Otherwise there is one allocation per
    document, in order, carrying the value of its own asset (zero without
    price data): the values add up to the total of the balances and the
    current percentages add up to 1. *)
Theorem allocations_account_for_balances
    (portfolioId : string) (portfolio : option Portfolio) (readings : list AssetReading)
    (balances : list CurrentBalance) (result : list PortfolioAllocation) :
  NoDup (map readingSymbol readings) ->
  getCurrentBalances portfolioId portfolio readings = Js.Ok balances ->
  BalanceReads.calculateCurrentAllocations portfolioId portfolio readings = Js.Ok result ->
  let total := Js.sumOf usd balances in
  total == Js.sumOf valueOf readings
  /\ (total == 0 -> result = [])
  /\ (~ total == 0 ->
      map asset result = map (fun r => assetId (allocation r)) readings
      /\ map targetPercentage result
         = map (fun r => doc_targetPercentage (allocation r)) readings
      /\ map currentValueUSD result = map valueOf readings
      /\ Js.sumOf currentValueUSD result == total
      /\ Js.sumOf currentPercentage result == 1).
Proof.
  intros Hnd Hbal Hcalc total.
  unfold BalanceReads.calculateCurrentAllocations in Hcalc. rewrite Hbal in Hcalc.
  cbn [Js.bind] in Hcalc.
  unfold getCurrentBalances in Hbal. destruct portfolio as [p|]; [|discriminate Hbal].
  injection Hbal as Hbal. subst balances.
  assert (Htotal : total == Js.sumOf valueOf readings) by apply balances_total.
  split; [exact Htotal|].
  unfold BalanceUtils.calculateCurrentAllocations in Hcalc. fold total in Hcalc.
  destruct (Js.strictEq total 0) eqn:Hz.
  - injection Hcalc as <-. apply strictEq_true in Hz.
    split; [reflexivity | intro H; contradiction].
  - assert (Hnz : ~ total == 0).
    { intro H. apply strictEq_true in H. congruence. }
    injection Hcalc as <-. split; [intro H; contradiction|]. intros _.
    rewrite !map_map.
    assert (Hown := fun r Hr => allocationOf_own readings total r Hnd Hr).
    cbv zeta in Hown.
    split; [apply map_ext_in; intros r Hr; apply (Hown r Hr)|].
    split; [apply map_ext_in; intros r Hr; apply (Hown r Hr)|].
    split; [apply map_ext_in; intros r Hr; apply (Hown r Hr)|].
    rewrite <- map_map, !sumOf_map. split.
    + rewrite Htotal. apply sumOf_ext_in. intros r Hr.
      rewrite (proj1 (proj2 (proj2 (Hown r Hr)))). reflexivity.
    + rewrite (sumOf_ext_in _ _ (fun r => valueOf r / total)).
      * rewrite sumOf_scaled, <- Htotal. field. exact Hnz.
      * intros r Hr. apply (Hown r Hr).
Qed.

Lemma readings_symbols : NoDup (map readingSymbol ReadingExample.readings).
Proof. repeat constructor; simpl; intuition discriminate. Qed.

Lemma allocations_account_for_balances_witness :
  match BalanceReads.calculateCurrentAllocations "p" (Some GateExample.portfolio)
          ReadingExample.readings with
  | Js.Ok result =>
      map Qred (map currentValueUSD result) = [ 300; 100; 0 ]
      /\ Js.sumOf currentPercentage result == 1
  | Js.Throw _ => False
  end.
Proof.
  destruct (getCurrentBalances "p" (Some GateExample.portfolio) ReadingExample.readings)
    as [balances|x] eqn:E0; [|discriminate E0].
  destruct (BalanceReads.calculateCurrentAllocations "p" (Some GateExample.portfolio)
              ReadingExample.readings) as [result|x] eqn:E1;
    [|vm_compute in E1; discriminate E1].
  destruct (allocations_account_for_balances "p" (Some GateExample.portfolio)
              ReadingExample.readings balances result readings_symbols E0 E1)
    as [_ [_ H]].
  assert (Hnz : ~ Js.sumOf usd balances == 0).
  { injection E0 as <-. vm_compute. intro H0. discriminate H0. }
  destruct (H Hnz) as [_ [_ [Hv [_ Hp]]]].
  split; [|exact Hp].
  rewrite Hv. vm_compute. reflexivity.
Defined.

End Accounting.

(* ================================================================== *)
(** ** The plans of [RebalanceService.generateSwapOperations] *)
(* ================================================================== *)

Section ServicePlans.
Import RebalanceService.

Lemma sumOf_doubled (A : Type) (f : A -> Q) (l : list A) :
  Js.sumOf (fun x => 2 * f x) l == 2 * Js.sumOf f l.
Proof.
  induction l as [|x l IH]; [rewrite !sumOf_nil; ring|].
  rewrite !sumOf_cons, IH. ring.
Qed.

Lemma sumOf_positive (A : Type) (f : A -> Q) (l : list A) :
  l <> [] -> (forall x, In x l -> 0 < f x) -> 0 < Js.sumOf f l.
Proof.
  destruct l as [|x l]; [congruence|]. intros _ H. rewrite sumOf_cons.
  assert (0 < f x) by (apply H; left; reflexivity).
  assert (0 <= Js.sumOf f l).
  { apply sumOf_nonneg. intros y Hy. apply Qlt_le_weak, H. right. exact Hy. }
  lra.
Qed.

(** X8.  A plan of [generateSwapOperations] pairs every flagged asset over its
    target that has something to sell with every flagged asset under its
    target: one swap per pair, each for half of the selling asset's surplus.
    The USD traded is therefore the sum of the half surpluses times the number
    of assets under target, and with three or more of those the plan sells
    more than the whole surplus. *)
Theorem service_plan_volume (deviations : list DeviationResult) (totalValueUSD : Q) :
  let plan := generateSwapOperations deviations totalValueUSD in
  List.length plan
  = (List.length (sellers deviations) * List.length (buyers deviations))%nat
  /\ tradedUSD plan
     == Js.sumOf amountToSell (sellers deviations)
        * inject_Z (Z.of_nat (List.length (buyers deviations)))
  /\ ((3 <= List.length (buyers deviations))%nat -> sellers deviations <> [] ->
      Js.sumOf (fun d => currentValueUSD d - targetValueUSD d) (sellers deviations)
      < tradedUSD plan).
Proof.
  intro plan. destruct (generateSwapOperations_size deviations totalValueUSD) as [L T].
  fold plan in L, T. split; [exact L|]. split; [exact T|].
  intros Hn Hs. rewrite T.
  rewrite (sumOf_ext_in _ _ (fun d => 2 * amountToSell d)).
  2:{ intros d _. unfold amountToSell. field. }
  rewrite sumOf_doubled.
  assert (Hpos : 0 < Js.sumOf amountToSell (sellers deviations)).
  { apply sumOf_positive; [exact Hs|]. intros d Hd. unfold sellers in Hd.
    apply filter_In in Hd. destruct Hd as [_ Hd].
    apply andb_prop in Hd. destruct Hd as [_ Hd]. apply gt_true in Hd. exact Hd. }
  assert (Hthree : 3 <= inject_Z (Z.of_nat (List.length (buyers deviations)))).
  { change 3 with (inject_Z 3). rewrite <- Zle_Qle. lia. }
  set (S := Js.sumOf amountToSell (sellers deviations)) in *.
  set (N := inject_Z (Z.of_nat (List.length (buyers deviations)))) in *.
  assert (0 <= S * (N - 3)) by (apply Qmult_le_0_compat; lra).
  lra.
Qed.

Lemma In_generateSwapOperations (deviations : list DeviationResult) (total : Q)
    (s : SwapOperation) :
  In s (generateSwapOperations deviations total) ->
  exists excess deficit,
    In excess deviations /\ In deficit deviations
    /\ needsRebalance excess = true /\ needsRebalance deficit = true
    /\ isExcess excess = true /\ isShort deficit = true
    /\ In s (swapFor excess deficit).
Proof.
  unfold generateSwapOperations. intro H.
  apply in_flat_map in H. destruct H as [excess [He H]].
  apply in_flat_map in H. destruct H as [deficit [Hd H]].
  exists excess, deficit.
  pose proof (excessAssets_flagged _ _ He) as Fe.
  pose proof (deficitAssets_flagged _ _ Hd) as Fd.
  unfold excessAssets, sortedDeviations in He. apply filter_In in He.
  destruct He as [He Hover].
  apply (proj1 (sortDesc_In _ deviation excess _)) in He. apply filter_In in He.
  unfold deficitAssets, sortedDeviations in Hd. apply filter_In in Hd.
  destruct Hd as [Hd Hunder].
  apply (proj1 (sortDesc_In _ deviation deficit _)) in Hd. apply filter_In in Hd.
  repeat (split; [first [assumption | apply He | apply Hd]|]). exact H.
Qed.

(** X9.  Every swap of a plan of [generateSwapOperations] goes from a flagged
    asset over its target to a flagged asset under its target, for a positive
    USD amount; its [amount], the USD amount divided by the whole value of the
    selling asset, is a fraction between 0 and one half whatever the asset and
    its price (target values being non-negative). *)
Theorem service_amount_is_a_fraction
    (deviations : list DeviationResult) (totalValueUSD : Q) (s : SwapOperation) :
  (forall d, In d deviations -> 0 <= targetValueUSD d) ->
  In s (generateSwapOperations deviations totalValueUSD) ->
  exists excess deficit,
    In excess deviations /\ In deficit deviations
    /\ needsRebalance excess = true /\ needsRebalance deficit = true
    /\ currentPercentage deficit < targetPercentage deficit
    /\ targetPercentage excess < currentPercentage excess
    /\ fromAsset s = assetSymbol excess /\ toAsset s = assetSymbol deficit
    /\ expectedAmount s = (currentValueUSD excess - targetValueUSD excess) / 2
    /\ 0 < expectedAmount s
    /\ exists q, amount s = Js.Finite q /\ 0 < q /\ q <= 1 # 2.
Proof.
  intros Htv Hs.
  destruct (In_generateSwapOperations _ _ _ Hs)
    as [excess [deficit [He [Hd [Fe [Fd [Hover [Hunder Hin]]]]]]]].
  exists excess, deficit.
  unfold swapFor in Hin. rewrite Fe, Fd in Hin. cbn [andb] in Hin.
  destruct (Js.gt ((currentValueUSD excess - targetValueUSD excess) / 2) 0) eqn:Hgt;
    [|destruct Hin].
  destruct Hin as [<-|[]]. apply gt_true in Hgt.
  cbn [fromAsset toAsset expectedAmount amount].
  apply gt_true in Hover. apply lt_true in Hunder.
  repeat (split; [first [assumption | reflexivity]|]).
  pose proof (Htv excess He) as Ht.
  assert (Hcv : currentValueUSD excess / 1 == currentValueUSD excess) by field.
  assert (Hhalf : currentValueUSD excess - targetValueUSD excess
                  == 2 * ((currentValueUSD excess - targetValueUSD excess) / 2)) by field.
  set (half := (currentValueUSD excess - targetValueUSD excess) / 2) in *.
  set (whole := currentValueUSD excess / 1) in *.
  assert (Hpos : 0 < whole) by lra.
  unfold Js.div. destruct (Qeq_bool whole 0) eqn:Hz.
  - apply Qeq_bool_iff in Hz. lra.
  - eexists. split; [reflexivity|]. split.
    + apply Qlt_shift_div_l; [exact Hpos | lra].
    + apply Qle_shift_div_r; [exact Hpos | lra].
Qed.

Lemma service_amount_is_a_fraction_witness :
  match createRebalancePlan "p" (Some GateExample.portfolio)
          ServiceExample.heavy ServiceExample.quarters with
  | Js.Ok plan =>
      match swaps plan with
      | s :: _ => 0 < expectedAmount s
                  /\ exists q, amount s = Js.Finite q /\ 0 < q /\ q <= 1 # 2
      | [] => False
      end
  | Js.Throw _ => False
  end.
Proof.
  destruct (createRebalancePlan "p" (Some GateExample.portfolio)
              ServiceExample.heavy ServiceExample.quarters) as [plan|x] eqn:E1;
    [|vm_compute in E1; discriminate E1].
  destruct (swaps plan) as [|s rest] eqn:E3.
  - vm_compute in E1. injection E1 as <-. discriminate E3.
  - assert (Hplan : swaps plan
                    = generateSwapOperations (deviations plan) (totalValueUSD plan)).
    { unfold createRebalancePlan in E1.
      destruct (calculateDeviations _ _ _) as [devs|y]; [|discriminate E1].
      cbn [Js.bind] in E1. injection E1 as <-. reflexivity. }
    assert (Hin : In s (generateSwapOperations (deviations plan) (totalValueUSD plan))).
    { rewrite <- Hplan, E3. left. reflexivity. }
    assert (Htv : forall d, In d (deviations plan) -> 0 <= targetValueUSD d).
    { vm_compute in E1. injection E1 as <-. cbn [deviations].
      intros d Hd. repeat (destruct Hd as [<-|Hd]; [vm_compute; intro H; discriminate H|]).
      destruct Hd. }
    destruct (service_amount_is_a_fraction (deviations plan) (totalValueUSD plan) s Htv Hin)
      as [excess [deficit [_ [_ [_ [_ [_ [_ [_ [_ [_ [Hpos Hq]]]]]]]]]]]].
    split; [exact Hpos | exact Hq].
Defined.

End ServicePlans.

(* ================================================================== *)
(** ** What a monitoring cycle hands to the venue *)
(* ================================================================== *)

Section Handovers.
Import World.
Variable env : Environment.
Variable P : RebalanceUtils.SwapOperation -> Prop.

Lemma hands_nothing (A : Type) (c : M A) :
  (forall t r t', c t = (r, t') -> submitted t' = submitted t) -> Hands P c.
Proof.
  intros H t r t' Hc. rewrite (H _ _ _ Hc). exists []. split; [|constructor].
  rewrite app_nil_r. reflexivity.
Qed.

Lemma hands_ret (A : Type) (a : A) : Hands P (ret a).
Proof. apply hands_nothing. unfold ret. intros t r t' [= _ <-]. reflexivity. Qed.

Lemma hands_throw (A : Type) (e : Js.Exception) : Hands P (@throw A e).
Proof. apply hands_nothing. unfold throw. intros t r t' [= _ <-]. reflexivity. Qed.

Lemma hands_lift (A : Type) (x : Js.Result A) : Hands P (lift x).
Proof. apply hands_nothing. unfold lift. intros t r t' [= _ <-]. reflexivity. Qed.

Lemma hands_ask (A : Type) (oracle : Trace -> A) : Hands P (ask oracle).
Proof. apply hands_nothing. unfold ask. intros t r t' [= _ <-]. reflexivity. Qed.

Lemma hands_call (A : Type) (oracle : Trace -> Js.Result A) : Hands P (call oracle).
Proof. apply hands_nothing. unfold call. intros t r t' [= _ <-]. reflexivity. Qed.

Lemma submitted_other (t : Trace) (e : Event) :
  notAHandover e -> submitted (t ++ [e])%list = submitted t.
Proof.
  intro H. rewrite submitted_snoc. destruct e; try apply app_nil_r. destruct H.
Qed.

Lemma hands_emit (e : Event) : notAHandover e -> Hands P (emit e).
Proof.
  intro H. apply hands_nothing. unfold emit. intros t r t' [= _ <-].
  apply submitted_other. exact H.
Qed.

Lemma hands_write (e : Event) : notAHandover e -> Hands P (write env e).
Proof.
  intro H. apply hands_nothing. unfold write. intros t r t'.
  destruct (writeFault env t e); intros [= _ <-]; [reflexivity|].
  apply submitted_other. exact H.
Qed.

Lemma hands_bind (A B : Type) (c : M A) (k : A -> M B) :
  Hands P c -> (forall a, Hands P (k a)) -> Hands P (bind c k).
Proof.
  intros Hc Hk t r t'. unfold bind.
  destruct (c t) as [[a|e] t1] eqn:E.
  - intro Hka. destruct (Hc _ _ _ E) as [n1 [H1 F1]].
    destruct (Hk a _ _ _ Hka) as [n2 [H2 F2]].
    exists (n1 ++ n2)%list. split; [rewrite H2, H1, app_assoc; reflexivity|].
    apply Forall_app. split; assumption.
  - intros [= <- <-]. exact (Hc _ _ _ E).
Qed.

Lemma hands_tryCatch (A : Type) (body : M A) (handler : Js.Exception -> M A) :
  Hands P body -> (forall e, Hands P (handler e)) -> Hands P (tryCatch body handler).
Proof.
  intros Hb Hh t r t'. unfold tryCatch.
  destruct (body t) as [[a|e] t1] eqn:E.
  - intros [= <- <-]. exact (Hb _ _ _ E).
  - intro Hhe. destruct (Hb _ _ _ E) as [n1 [H1 F1]].
    destruct (Hh e _ _ _ Hhe) as [n2 [H2 F2]].
    exists (n1 ++ n2)%list. split; [rewrite H2, H1, app_assoc; reflexivity|].
    apply Forall_app. split; assumption.
Qed.

Lemma hands_tryFinally (A : Type) (body : M A) (e : Event) :
  notAHandover e -> Hands P body -> Hands P (tryFinally body (fun t => (t ++ [e])%list)).
Proof.
  intros He Hb t r t'. unfold tryFinally.
  destruct (body t) as [r1 t1] eqn:E. intros [= <- <-].
  rewrite (submitted_other _ _ He). exact (Hb _ _ _ E).
Qed.

End Handovers.

Ltac hands_step :=
  match goal with
  | |- forall _, _ => intro
  | |- notAHandover _ => exact I
  | |- Hands _ (World.bind _ _) => apply hands_bind
  | |- Hands _ (World.tryCatch _ _) => apply hands_tryCatch
  | |- Hands _ (World.tryFinally _ _) => apply hands_tryFinally
  | |- Hands _ (World.ret _) => apply hands_ret
  | |- Hands _ (World.throw _) => apply hands_throw
  | |- Hands _ (World.lift _) => apply hands_lift
  | |- Hands _ (World.ask _) => apply hands_ask
  | |- Hands _ (World.call _) => apply hands_call
  | |- Hands _ (World.emit _) => apply hands_emit
  | |- Hands _ (World.write _ _) => apply hands_write
  | |- Hands _ (if ?b then _ else _) => destruct b
  | |- Hands _ (match ?x with _ => _ end) => destruct x
  end.

Ltac hands := repeat hands_step.

(** X10.  A [portfolioMonitoring] cycle hands no swap to the venue, whatever
    the portfolio, the chain and the database answer.  The plan is passed to
    [executeRebalanceSwaps] with the job in the place of the swaps and the
    swaps in the place of the portfolio id, so that the call fails at its
    lookup of the portfolio, before the first swap. *)
Theorem monitoring_submits_nothing
    (env : World.Environment) (portfolioId : string) (t : World.Trace) :
  World.submitted (snd (PortfolioMonitoring.portfolioMonitoring env portfolioId t))
  = World.submitted t.
Proof.
  assert (H : Hands (fun _ => False)
                    (PortfolioMonitoring.portfolioMonitoring env portfolioId)).
  { unfold PortfolioMonitoring.portfolioMonitoring, PortfolioMonitoring.monitoringBody,
      PortfolioMonitoring.updatePortfolioBalances,
      PortfolioMonitoring.executeRebalanceSwapsOfJob.
    hands. }
  destruct (PortfolioMonitoring.portfolioMonitoring env portfolioId t) as [r t'] eqn:Hrun.
  destruct (H _ _ _ Hrun) as [new [Hnew Hnone]]. cbn [snd]. rewrite Hnew.
  destruct new as [|s rest]; [apply app_nil_r|].
  exfalso. apply Forall_inv in Hnone. exact Hnone.
Qed.

(* ================================================================== *)
(** ** The portfolio routes and service: who writes, and what stays *)
(* ================================================================== *)

Section Ownership.
Import World PortfolioSchema.
Variable env : Environment.

(** X12.  [handleUpdateAllocationsRoute] leaves the database as it was unless
    the portfolio id and the body pass their schemas, the token is that of an
    app user and the portfolio exists and belongs to that user, addresses
    being compared without regard to letter case; a caller who is not the
    owner of the portfolio is answered 403. *)
Theorem only_the_owner_updates (jwt : option string) (portfolioId : string)
    (allocations : list AllocationInput) (t : Trace) :
  (snd (Portfolios.handleUpdateAllocationsRoute env jwt portfolioId allocations t) <> t ->
   exists caller owner,
     jwt = Some caller
     /\ portfolioOwner env t portfolioId = Some owner
     /\ PortfolioService.toLowerCase owner = PortfolioService.toLowerCase caller
     /\ PortfolioParamsSchema portfolioId = true
     /\ UpdateAllocationsSchema allocations = true)
  /\ (forall caller owner,
        PortfolioParamsSchema portfolioId = true ->
        UpdateAllocationsSchema allocations = true ->
        jwt = Some caller ->
        portfolioOwner env t portfolioId = Some owner ->
        PortfolioService.toLowerCase owner <> PortfolioService.toLowerCase caller ->
        Portfolios.handleUpdateAllocationsRoute env jwt portfolioId allocations t
        = ({| Portfolios.statusCode := 403; Portfolios.success := false |}, t)).
Proof.
  unfold Portfolios.handleUpdateAllocationsRoute. split.
  - destruct (PortfolioParamsSchema portfolioId); cbn [negb snd]; [|congruence].
    destruct jwt as [caller|]; cbn [snd]; [|congruence].
    destruct (UpdateAllocationsSchema allocations); cbn [negb snd]; [|congruence].
    destruct (portfolioOwner env t portfolioId) as [owner|]; cbn [snd]; [|congruence].
    destruct (String.eqb (PortfolioService.toLowerCase owner)
                         (PortfolioService.toLowerCase caller)) eqn:Heq;
      cbn [negb snd]; [|congruence].
    intros _. apply String.eqb_eq in Heq. exists caller, owner. repeat split; assumption.
  - intros caller owner -> -> -> -> Hne. cbn [negb].
    apply String.eqb_neq in Hne. rewrite Hne. reflexivity.
Qed.

End Ownership.

Lemma only_the_owner_updates_witness :
  exists caller owner,
    Some "0x1" = Some caller
    /\ World.portfolioOwner ExecutorExample.venue [] SumExample.portfolioId = Some owner
    /\ PortfolioService.toLowerCase owner = PortfolioService.toLowerCase caller
    /\ PortfolioSchema.PortfolioParamsSchema SumExample.portfolioId = true
    /\ PortfolioSchema.UpdateAllocationsSchema SumExample.balanced = true.
Proof.
  apply (proj1 (only_the_owner_updates ExecutorExample.venue (Some "0x1")
                  SumExample.portfolioId SumExample.balanced [])).
  vm_compute. intro H. discriminate H.
Defined.

Section PartialWrites.
Import World PortfolioSchema.
Variable env : Environment.
Hypothesis Hwrite : forall t e, writeFault env t e = None.

(** The loop over the allocations stops at the first unknown asset, with the
    documents before it saved. *)
Lemma saveAllocations_stops (portfolioRef : string) (done : list AllocationInput)
    (bad : AllocationInput) (rest : list AllocationInput) :
  (forall t a, In a done ->
               activeAsset env t (PortfolioService.toUpperCase (assetSymbol a)) = true) ->
  (forall t, activeAsset env t (PortfolioService.toUpperCase (assetSymbol bad)) = false) ->
  forall t,
    PortfolioService.saveAllocations env portfolioRef (done ++ bad :: rest)%list t
    = (Js.Throw (Js.Error ("Asset " ++ assetSymbol bad ++ " not found or inactive")),
       (t ++ map (savedAs portfolioRef) done)%list).
Proof.
  intros Hdone Hbad.
  induction done as [|a done IH]; intro t;
    cbn [app PortfolioService.saveAllocations map]; unfold bind at 1, ask.
  - rewrite Hbad. unfold throw. rewrite app_nil_r. reflexivity.
  - rewrite (Hdone t a (or_introl eq_refl)). unfold bind at 1, write. rewrite Hwrite.
    rewrite IH.
    + rewrite <- app_assoc. reflexivity.
    + intros t' x Hx. apply Hdone. right. exact Hx.
Qed.

Lemma saveAllocations_all (portfolioRef : string) (allocations : list AllocationInput) :
  (forall t s, activeAsset env t s = true) ->
  forall t,
    PortfolioService.saveAllocations env portfolioRef allocations t
    = (Js.Ok tt, (t ++ map (savedAs portfolioRef) allocations)%list).
Proof.
  intro Hactive.
  induction allocations as [|a rest IH]; intro t;
    cbn [PortfolioService.saveAllocations map].
  - unfold ret. rewrite app_nil_r. reflexivity.
  - unfold bind at 1, ask. rewrite Hactive. unfold bind at 1, write. rewrite Hwrite.
    rewrite IH, <- app_assoc. reflexivity.
Qed.

Lemma sum_check_passes (allocations : list AllocationInput) :
  Qabs (Js.fsub (Js.fsum targetPercentage allocations) 1) <= Js.double (1 # 1000) ->
  Js.gt (Js.Math_abs (Js.fsub (PortfolioService.totalPercentage allocations) 1))
        (Js.double (1 # 1000)) = false.
Proof. intro H. apply gt_false. exact H. Qed.



End PartialWrites.



(* ================================================================== *)
(** ** The [pre('save')] hook of [Allocation] against the tolerance *)
(* ================================================================== *)

Section PreSaveHook.
Import World PortfolioSchema.
Variable env : Environment.
Hypothesis Hhook : enforcesPreSave env.

Lemma storedTargets_snoc (portfolioId : string) (t : Trace) (e : Event) :
  AllocationModel.storedTargets portfolioId (t ++ [e])%list
  = match e with
    | AllocationsDeleted p =>
        if String.eqb p portfolioId then []
        else AllocationModel.storedTargets portfolioId t
    | AllocationSaved p _ target =>
        if String.eqb p portfolioId
        then (AllocationModel.storedTargets portfolioId t ++ [target])%list
        else AllocationModel.storedTargets portfolioId t
    | _ => AllocationModel.storedTargets portfolioId t
    end.
Proof.
  unfold AllocationModel.storedTargets. rewrite fold_left_app. reflexivity.
Qed.

(** The hook sees the sum the service computed: with the targets of [done]
    stored, in order, the total it forms for the next entry is the sum of the
    request up to that entry. *)
Lemma preSave_total (done : list AllocationInput) (a : AllocationInput) :
  Js.fadd (Js.fsum (fun x => x) (map targetPercentage done)) (targetPercentage a)
  = Js.fsum targetPercentage (done ++ [a]).
Proof.
  unfold Js.fsum. rewrite fold_left_app. cbn [fold_left]. f_equal.
  generalize 0. induction done as [|d done IH]; intro acc; cbn [map fold_left].
  - reflexivity.
  - apply IH.
Qed.

(** Once the request sums to more than 1, the loop over its entries cannot
    complete: the hook refuses the last entry at the latest. *)
Lemma saveAllocations_over_one (portfolioId : string) (rest : list AllocationInput) :
  forall (done : list AllocationInput) (t : Trace),
    AllocationModel.storedTargets portfolioId t = map targetPercentage done ->
    Js.fsum targetPercentage done <= 1 ->
    1 < Js.fsum targetPercentage (done ++ rest) ->
    exists e t', PortfolioService.saveAllocations env portfolioId rest t
                 = (Js.Throw e, t').
Proof.
  induction rest as [|a rest IH]; intros done t Hstored Hle Hover.
  - rewrite app_nil_r in Hover. lra.
  - cbn [PortfolioService.saveAllocations]. unfold bind at 1, ask.
    destruct (activeAsset env t _); [|unfold throw; eauto].
    unfold bind at 1, write.
    destruct (writeFault env t _) as [x|] eqn:Hfault; [eauto|].
    destruct (AllocationModel.preSave (AllocationModel.storedTargets portfolioId t)
                (targetPercentage a)) as [u|x] eqn:Hpre.
    + unfold AllocationModel.preSave in Hpre. rewrite Hstored, preSave_total in Hpre.
      destruct (Js.gt (Js.fsum targetPercentage (done ++ [a])) 1) eqn:Hgt;
        [discriminate Hpre|].
      apply gt_false in Hgt.
      apply (IH (done ++ [a])%list).
      * rewrite storedTargets_snoc, String.eqb_refl, Hstored, map_app. reflexivity.
      * exact Hgt.
      * rewrite <- app_assoc. exact Hover.
    + exfalso. exact (Hhook t portfolioId _ _ x Hpre Hfault).
Qed.

(** X15.  The [pre('save')] hook of [Allocation] refuses a document that would
    bring the targets of a portfolio above 1, while the schema and the service
    accept sums up to 1.001.  On a database that runs the hook,
    [updatePortfolioAllocations] therefore never completes for a set of
    targets whose sum, as the code computes it, is more than 1, and the route
    answers without success. *)
Theorem hook_refuses_over_one (portfolioId : string) (allocations : list AllocationInput)
    (t : Trace) :
  1 < Js.fsum targetPercentage allocations ->
  (exists e t', PortfolioService.updatePortfolioAllocations env portfolioId allocations t
                = (Js.Throw e, t'))
  /\ forall jwt,
       Portfolios.success
         (fst (Portfolios.handleUpdateAllocationsRoute env jwt portfolioId allocations t))
       = false.
Proof.
  intro Hover.
  assert (Hthrows : forall t0, exists e t',
             PortfolioService.updatePortfolioAllocations env portfolioId allocations t0
             = (Js.Throw e, t')).
  { intro t0. unfold PortfolioService.updatePortfolioAllocations, tryCatch.
    destruct (Js.gt _ (Js.double (1 # 1000))); [unfold throw; eauto|].
    unfold bind at 1, write.
    destruct (writeFault env t0 _); [unfold throw; eauto|].
    destruct (saveAllocations_over_one portfolioId allocations []
                (t0 ++ [AllocationsDeleted portfolioId])%list) as [e [t' ->]].
    - rewrite storedTargets_snoc, String.eqb_refl. reflexivity.
    - unfold Js.fsum. cbn [fold_left]. lra.
    - exact Hover.
    - unfold throw. eauto. }
  split; [apply Hthrows|].
  intro jwt. unfold Portfolios.handleUpdateAllocationsRoute.
  destruct (negb _); [reflexivity|]. destruct jwt as [caller|]; [|reflexivity].
  destruct (negb _); [reflexivity|].
  destruct (portfolioOwner env t portfolioId) as [owner|]; [|reflexivity].
  destruct (negb _); [reflexivity|].
  unfold Portfolios.respond. destruct (Hthrows t) as [e [t' ->]]. reflexivity.
Qed.

End PreSaveHook.

Lemma hooked_enforces : enforcesPreSave ServiceFaultExample.hooked.
Proof.
  intros t portfolioId symbol target e Hpre.
  cbn [World.writeFault ServiceFaultExample.hooked ServiceFaultExample.venueWith].
  rewrite Hpre. discriminate.
Qed.

Lemma hook_refuses_over_one_witness :
  PortfolioSchema.UpdateAllocationsSchema ServiceFaultExample.overOne = true
  /\ exists e t',
       PortfolioService.updatePortfolioAllocations ServiceFaultExample.hooked "p"
         ServiceFaultExample.overOne []
       = (Js.Throw e, t').
Proof.
  split; [reflexivity|].
  apply (proj1 (hook_refuses_over_one ServiceFaultExample.hooked hooked_enforces "p"
                  ServiceFaultExample.overOne [] ltac:(vm_compute; reflexivity))).
Defined.

(* ================================================================== *)
(** ** The allocation editor of the frontend *)
(* ================================================================== *)

Section Editor.
Import AllocationConfig.

Lemma filterIndexed_In (A : Type) (p : A -> nat -> bool) (l : list A) :
  forall i x, In x (filterIndexed p i l) -> In x l.
Proof.
  induction l as [|y l IH]; intros i x; cbn [filterIndexed]; [intros []|].
  destruct (p y i); [intros [<-|H]; [left; reflexivity | right; eapply IH; exact H]|].
  intro H. right. eapply IH. exact H.
Qed.

Lemma filterIndexed_NoDup (A B : Type) (f : A -> B) (p : A -> nat -> bool) (l : list A) :
  forall i, NoDup (map f l) -> NoDup (map f (filterIndexed p i l)).
Proof.
  induction l as [|y l IH]; intros i Hnd; cbn [filterIndexed]; [constructor|].
  inversion Hnd as [|z l' Hnotin Hnd']; subst.
  destruct (p y i); [|apply IH; exact Hnd'].
  cbn [map]. constructor; [|apply IH; exact Hnd'].
  intro Hin. apply Hnotin. apply in_map_iff in Hin. destruct Hin as [x [Hx Hin]].
  rewrite <- Hx. apply in_map. eapply filterIndexed_In. exact Hin.
Qed.

Lemma filterIndexed_keeps (A : Type) (p : A -> nat -> bool) (l : list A) :
  forall i j x, nth_error l j = Some x -> p x (i + j)%nat = true ->
                In x (filterIndexed p i l).
Proof.
  induction l as [|y l IH]; intros i j x; [destruct j; discriminate|].
  destruct j as [|j]; cbn [nth_error filterIndexed].
  - intros [= ->]. rewrite Nat.add_0_r. intros ->. left. reflexivity.
  - intros Hj Hp. assert (Hin : In x (filterIndexed p (S i) l)).
    { apply (IH (S i) j); [exact Hj|]. rewrite <- Hp. f_equal. lia. }
    destruct (p y i); [right|]; exact Hin.
Qed.

Lemma includes_false (xs : list string) (x : string) :
  includes xs x = false <-> ~ In x xs.
Proof.
  unfold includes. split.
  - intros H Hin. assert (Ht : existsb (String.eqb x) xs = true).
    { apply existsb_exists. exists x. split; [exact Hin | apply String.eqb_refl]. }
    congruence.
  - intro H. destruct (existsb (String.eqb x) xs) eqn:E; [|reflexivity].
    apply existsb_exists in E. destruct E as [y [Hy Heq]].
    apply String.eqb_eq in Heq. subst y. contradiction.
Qed.

(** X17.  The allocation editor keeps asset symbols distinct: from a list
    without a repeated symbol, [addAllocation] and [removeAllocation] give
    lists without one, and the assets [getAvailableAssets] offers for a row
    are used by no other row.  [addAllocation] adds at most one row, with
    target 0, so the total is unchanged. *)
Theorem editor_keeps_symbols_distinct
    (localAllocations : list AllocationConfig) (availableAssets : list BalanceUtils.Asset)
    (index : nat) :
  NoDup (map assetSymbol localAllocations) ->
  NoDup (map assetSymbol (addAllocation localAllocations availableAssets))
  /\ NoDup (map assetSymbol (removeAllocation localAllocations index))
  /\ getTotalPercentage (addAllocation localAllocations availableAssets)
     == getTotalPercentage localAllocations
  /\ (forall asset j a,
        In asset (getAvailableAssets localAllocations availableAssets index) ->
        nth_error localAllocations j = Some a -> j <> index ->
        assetSymbol a <> BalanceUtils.symbol asset).
Proof.
  intro Hnd. split; [|split; [|split]].
  - unfold addAllocation.
    destruct (find _ availableAssets) as [asset|] eqn:Hfind; [|exact Hnd].
    apply find_some in Hfind. destruct Hfind as [_ Hfree].
    apply negb_true_iff in Hfree. apply includes_false in Hfree.
    rewrite map_app. cbn [map assetSymbol].
    apply (Permutation_NoDup (Permutation_cons_append _ _)).
    constructor; assumption.
  - unfold removeAllocation. apply filterIndexed_NoDup. exact Hnd.
  - unfold addAllocation, getTotalPercentage.
    destruct (find _ availableAssets); [|reflexivity].
    rewrite sumOf_app, sumOf_cons, sumOf_nil. cbn [targetPercentage]. ring.
  - intros asset j a Hin Hj Hne Heq. unfold getAvailableAssets in Hin.
    apply filter_In in Hin. destruct Hin as [_ Hfree].
    apply negb_true_iff in Hfree. apply includes_false in Hfree.
    apply Hfree. rewrite <- Heq. apply in_map.
    apply (filterIndexed_keeps _ _ _ 0%nat j); [exact Hj|].
    apply negb_true_iff. apply Nat.eqb_neq. exact Hne.
Qed.

End Editor.

Lemma editor_keeps_symbols_distinct_witness :
  NoDup (map AllocationConfig.assetSymbol
             (AllocationConfig.addAllocation EditorExample.rows EditorExample.assets))
  /\ map AllocationConfig.assetSymbol
         (AllocationConfig.addAllocation EditorExample.rows EditorExample.assets)
     = [ "WBTC"; "WETH"; "USDC" ].
Proof.
  split; [|reflexivity].
  refine (proj1 (editor_keeps_symbols_distinct EditorExample.rows EditorExample.assets 0 _)).
  repeat constructor; simpl; intuition discriminate.
Defined.

(* ================================================================== *)
(** ** One asset over target: the plan rebalances in full *)
(* ================================================================== *)

Section SingleSurplus.
Import BalanceUtils RebalanceUtils.
Variable allocs : list PortfolioAllocation.

Lemma findAllocation_known (a : PortfolioAllocation) :
  In a allocs -> findAllocation allocs (symbol (asset a)) <> None.
Proof.
  intros Ha Hnone. unfold findAllocation in Hnone.
  apply (find_none _ _ Hnone) in Ha. rewrite String.eqb_refl in Ha. discriminate Ha.
Qed.

Lemma buyLoop_single (B : TargetValue) (toBuy : list Trade) :
  (exists a, In a allocs /\ tv_symbol B = symbol (asset a)) ->
  forall (r : Q) (swaps : list SwapOperation) (st' : LoopState),
    buyLoop allocs toBuy ([ {| base := B; difference := r |} ], swaps) = Js.Ok st' ->
    (forall b, In b toBuy ->
               0 < difference b
               /\ exists a, In a allocs /\ tv_symbol (base b) = symbol (asset a)) ->
    Js.sumOf difference toBuy <= r ->
    exists es, snd st' = (swaps ++ es)%list /\ Fills toBuy es.
Proof.
  intros [aS [HaS HsymS]].
  induction toBuy as [|b rest IH]; intros r swaps st' Hloop Hbuy Hsum.
  - cbn [buyLoop] in Hloop. injection Hloop as <-. exists [].
    split; [cbn [snd]; rewrite app_nil_r; reflexivity | constructor].
  - destruct (Hbuy b (or_introl eq_refl)) as [Hb [aB [HaB HsymB]]].
    assert (Hrest : forall x, In x rest ->
              0 < difference x
              /\ exists a, In a allocs /\ tv_symbol (base x) = symbol (asset a)).
    { intros x Hx. apply Hbuy. right. exact Hx. }
    assert (Hnonneg : 0 <= Js.sumOf difference rest).
    { apply sumOf_nonneg. intros x Hx. apply Qlt_le_weak, (Hrest x Hx). }
    rewrite sumOf_cons in Hsum.
    cbn [buyLoop] in Hloop. unfold buyStep in Hloop.
    cbn [reduceMax reduceFrom Js.bind difference base] in Hloop.
    destruct (Js.gt r (1 # 100)) eqn:Hgt.
    + destruct (findAllocation allocs (tv_symbol B)) as [sa|] eqn:Hsa.
      2:{ exfalso. rewrite HsymS in Hsa. exact (findAllocation_known aS HaS Hsa). }
      destruct (findAllocation allocs (tv_symbol (base b))) as [ba|] eqn:Hba.
      2:{ exfalso. rewrite HsymB in Hba. exact (findAllocation_known aB HaB Hba). }
      destruct (currentPriceUSD sa) as [ps|]; cbn [logged Js.bind] in Hloop;
        [|discriminate Hloop].
      destruct (currentPriceUSD ba) as [pb|]; cbn [logged Js.bind] in Hloop;
        [|discriminate Hloop].
      destruct (Js.toFixed _ (decimals (tv_asset B))) as [inText|x];
        cbn [Js.bind] in Hloop; [|discriminate Hloop].
      destruct (Js.parseUnits inText _) as [tin|x]; cbn [Js.bind] in Hloop;
        [|discriminate Hloop].
      destruct (Js.toFixed _ (decimals (tv_asset (base b)))) as [outText|x];
        cbn [Js.bind] in Hloop; [|discriminate Hloop].
      destruct (Js.parseUnits outText _) as [tout|x]; cbn [Js.bind] in Hloop;
        [|discriminate Hloop].
      cbn [subtractAt base difference] in Hloop.
      assert (Hamt : Js.Math_min r (difference b) == difference b).
      { destruct (Math_min_spec r (difference b)) as [[H1 H2]|[H1 H2]]; rewrite H2; lra. }
      destruct (IH _ _ _ Hloop Hrest) as [es [Hes Hfills]]; [rewrite Hamt; lra|].
      eexists. split; [rewrite Hes, <- app_assoc; reflexivity|].
      apply FillsSwap; [reflexivity | exact Hamt | exact Hfills].
    + apply gt_false in Hgt. cbn [Js.bind] in Hloop.
      destruct (IH _ _ _ Hloop Hrest) as [es [Hes Hfills]]; [lra|].
      exists es. split; [exact Hes|]. apply FillsSkip; [lra | exact Hfills].
Qed.

Lemma Fills_destinations (toBuy : list Trade) (es : list SwapOperation) :
  Fills toBuy es ->
  forall e, In e es -> In (tokenOutSymbol e) (map tradeSymbol toBuy).
Proof.
  induction 1 as [|b rest es _ _ IH|b rest e0 es Hsym _ _ IH]; intros e He.
  - destruct He.
  - right. apply IH. exact He.
  - destruct He as [<-|He]; [left; symmetry; exact Hsym | right; apply IH; exact He].
Qed.

Lemma Fills_bought (toBuy : list Trade) (es : list SwapOperation) :
  Fills toBuy es ->
  NoDup (map tradeSymbol toBuy) ->
  forall b, In b toBuy ->
            boughtUSD (tradeSymbol b) es == difference b
            \/ (boughtUSD (tradeSymbol b) es == 0 /\ difference b <= 1 # 100).
Proof.
  induction 1 as [|b0 rest es Hsmall Hfills IH|b0 rest e es Hsym Hamt Hfills IH];
    intros Hnd b Hb.
  - destruct Hb.
  - inversion Hnd as [|x l Hnotin Hnd']; subst.
    destruct Hb as [<-|Hb]; [|apply IH; assumption].
    right. split; [|exact Hsmall].
    unfold boughtUSD. rewrite swapsTo_none; [rewrite sumOf_nil; reflexivity|].
    intros e He Heq. apply Hnotin. rewrite <- Heq.
    apply (Fills_destinations rest es); assumption.
  - inversion Hnd as [|x l Hnotin Hnd']; subst.
    unfold boughtUSD, swapsTo. cbn [filter]. fold (swapsTo (tradeSymbol b) es).
    destruct Hb as [<-|Hb].
    + rewrite Hsym, String.eqb_refl. left.
      rewrite swapsTo_none; [rewrite sumOf_cons, sumOf_nil; lra|].
      intros x Hx Heq. apply Hnotin. rewrite <- Heq.
      apply (Fills_destinations rest es); assumption.
    + assert (Hne : tokenOutSymbol e <> tradeSymbol b).
      { rewrite Hsym. intro Heq. apply Hnotin. rewrite Heq. apply in_map. exact Hb. }
      apply String.eqb_neq in Hne. rewrite Hne. apply IH; assumption.
Qed.

End SingleSurplus.

Section SingleSurplusPlan.
Import BalanceUtils RebalanceUtils.

(** X18.  With distinct symbols, targets that sum to 1 and exactly one asset
    over its target value, a plan of [calculateRebalanceSwaps] for a portfolio
    with a flagged allocation rebalances in full: every asset under its target
    value is bought for exactly what it lacks, unless what it lacks is at most
    0.01 USD, in which case it may be skipped. *)
Theorem single_surplus_is_rebalanced_in_full
    (allocs : list PortfolioAllocation) (plan : RebalancePlan)
    (over under : PortfolioAllocation) :
  let total := Js.sumOf currentValueUSD allocs in
  NoDup (map symbolOf allocs) ->
  Js.sumOf targetPercentage allocs == 1 ->
  ~ total == 0 ->
  existsb needsRebalance allocs = true ->
  filter (isSurplus total) allocs = [over] ->
  calculateRebalanceSwaps allocs = Js.Ok plan ->
  In under allocs -> isDeficit total under = true ->
  boughtUSD (symbolOf under) (swaps plan) == gapUSD total under
  \/ (boughtUSD (symbolOf under) (swaps plan) == 0 /\ gapUSD total under <= 1 # 100).
Proof.
  intros total Hnd Hone Htotal Hflag Hsingle Hplan Hin Hunder.
  unfold calculateRebalanceSwaps in Hplan. fold total in Hplan.
  destruct (Js.strictEq total 0) eqn:Hz; [apply strictEq_true in Hz; contradiction|].
  destruct (filter needsRebalance allocs) as [|f fs] eqn:Hf.
  { exfalso. apply existsb_exists in Hflag. destruct Hflag as [a [Ha Hn]].
    assert (Hin' : In a (filter needsRebalance allocs)) by (apply filter_In; split; assumption).
    rewrite Hf in Hin'. destruct Hin'. }
  cbn [List.length Nat.eqb] in Hplan.
  destruct (emittedSwaps allocs total) as [emitted|x] eqn:Hem; cbn [Js.bind] in Hplan;
    [|discriminate Hplan].
  injection Hplan as <-. cbn [swaps]. rewrite boughtUSD_sorted.
  unfold emittedSwaps in Hem. rewrite assetsToBuy_spec, assetsToSell_spec, Hsingle in Hem.
  cbn [map sellTrade] in Hem.
  destruct (buyLoop allocs _ _) as [st'|x] eqn:Hloop; cbn [Js.bind] in Hem;
    [|discriminate Hem].
  injection Hem as <-.
  assert (Hover : In over allocs /\ isSurplus total over = true).
  { apply filter_In. rewrite Hsingle. left. reflexivity. }
  assert (Hbooks := trade_differences total allocs).
  rewrite Hsingle in Hbooks. cbn [map sellTrade] in Hbooks.
  rewrite sumOf_cons, sumOf_nil in Hbooks. cbn [sellTrade difference] in Hbooks.
  destruct (buyLoop_single allocs (tvOf total over)
              (map (buyTrade total) (filter (isDeficit total) allocs))
              (ex_intro _ over (conj (proj1 Hover) eq_refl))
              _ _ _ Hloop) as [es [Hes Hfills]].
  - intros b Hb. split; [apply (buy_differences_positive total allocs); exact Hb|].
    apply in_map_iff in Hb. destruct Hb as [a [<- Ha]]. apply filter_In in Ha.
    exists a. split; [apply Ha | reflexivity].
  - fold total in Hbooks. rewrite Hone in Hbooks. lra.
  - rewrite Hes. cbn [app].
    apply (Fills_bought _ _ Hfills) with (b := buyTrade total under).
    + rewrite symbols_of_trades by reflexivity. apply NoDup_map_filter. exact Hnd.
    + apply in_map. apply filter_In. split; assumption.
Qed.

Lemma coarse_symbols : NoDup (map symbolOf PlannerExample.coarse).
Proof. repeat constructor; simpl; intuition discriminate. Qed.

Lemma single_surplus_is_rebalanced_in_full_witness :
  match calculateRebalanceSwaps PlannerExample.coarse with
  | Js.Ok plan => boughtUSD "D" (swaps plan) == 7
  | Js.Throw _ => False
  end.
Proof.
  destruct (calculateRebalanceSwaps PlannerExample.coarse) as [plan|x] eqn:E1;
    [|vm_compute in E1; discriminate E1].
  destruct (single_surplus_is_rebalanced_in_full PlannerExample.coarse plan
              (PlannerExample.allocation "S" 0 (1 # 4) 11 16 4)
              (PlannerExample.allocation "D" 0 (3 # 4) 5 16 1)
              coarse_symbols
              ltac:(vm_compute; reflexivity)
              ltac:(vm_compute; intro H; discriminate H)
              eq_refl eq_refl E1
              (or_intror (or_introl eq_refl)) eq_refl) as [H|[_ H]].
  - rewrite H. vm_compute. reflexivity.
  - exfalso. revert H. vm_compute. intro H. apply H. reflexivity.
Defined.

End SingleSurplusPlan.

(* ================================================================== *)
(** ** [PortfolioMonitoringJob.executeRebalancing] and [swapUtils.executeSwap] *)
(* ================================================================== *)

Section QuietRebalancing.
Import World.
Variable env : Environment.

Lemma attempts_other (t : Trace) (e : Event) :
  match e with DynamicSwap _ _ _ _ => False | _ => True end ->
  dynamicAttempts (t ++ [e])%list = dynamicAttempts t.
Proof.
  intro He. unfold dynamicAttempts. rewrite flat_map_app. cbn [flat_map].
  destruct e; try (rewrite !app_nil_r; reflexivity). destruct He.
Qed.

Lemma recordRebalanceJob_returns (portfolioId : string)
    (plan : RebalanceService.RebalancePlan)
    (swapResults : list DynamicSwapService.SwapResult) (t : Trace) :
  exists t', PortfolioMonitoringJob.recordRebalanceJob env portfolioId plan swapResults t
             = (Js.Ok tt, t')
             /\ dynamicAttempts t' = dynamicAttempts t.
Proof.
  unfold PortfolioMonitoringJob.recordRebalanceJob, tryCatch, bind, lift, write, ret.
  destruct (RebalanceJobModel.validate _); [|eauto].
  destruct (writeFault env t _); [eauto|].
  eexists. split; [reflexivity|]. apply attempts_other. exact I.
Qed.

Lemma updatePortfolioAfterRebalance_returns (portfolioId : string)
    (plan : RebalanceService.RebalancePlan) (t : Trace) :
  exists t', PortfolioMonitoringJob.updatePortfolioAfterRebalance env portfolioId plan t
             = (Js.Ok tt, t')
             /\ dynamicAttempts t' = dynamicAttempts t.
Proof.
  unfold PortfolioMonitoringJob.updatePortfolioAfterRebalance, tryCatch, write, ret.
  destruct (writeFault env t _); [eauto|].
  eexists. split; [reflexivity|]. apply attempts_other. exact I.
Qed.

(** X19.  [PortfolioMonitoringJob.executeRebalancing] always returns: failed
    swaps are skipped by [DynamicSwapService.executeRebalanceSwaps], and a
    refused save of the [RebalanceJob] record or of the portfolio is only
    logged.  Whatever the venue and the database answer, the caller sees no
    error, and every swap of the plan between two different tokens was
    attempted, in the order of the plan. *)
Theorem rebalancing_failures_are_swallowed (portfolioId : string)
    (plan : RebalanceService.RebalancePlan) (t : Trace) :
  exists t',
    PortfolioMonitoringJob.executeRebalancing env portfolioId plan t = (Js.Ok tt, t')
    /\ dynamicAttempts t'
       = (dynamicAttempts t
          ++ map (fun swap => (RebalanceService.fromAsset swap, RebalanceService.toAsset swap))
                 (filter (fun swap => negb (String.eqb (RebalanceService.fromAsset swap)
                                                       (RebalanceService.toAsset swap)))
                         (RebalanceService.swaps plan)))%list.
Proof.
  unfold PortfolioMonitoringJob.executeRebalancing, tryCatch at 1.
  unfold DynamicSwapService.executeRebalanceSwaps. unfold bind at 1.
  match goal with
  | |- context [DynamicSwapService.swapLoop env ?swaps [] t] =>
      destruct (dynamic_loop_continues env swaps [] t) as [results [t1 [-> [_ Hatt]]]]
  end.
  cbn [app]. unfold bind at 1.
  destruct (recordRebalanceJob_returns portfolioId plan results t1) as [t2 [-> H2]].
  destruct (updatePortfolioAfterRebalance_returns portfolioId plan t2) as [t3 [-> H3]].
  exists t3. split; [reflexivity|].
  rewrite H3, H2, Hatt. f_equal.
  rewrite filter_map_commute, map_map. reflexivity.
Qed.

(** X20.  [executeSwap] hands a swap to the venue only with the allowance in
    place: either the approval tool answered that the token was already
    approved, or it sent an approval and, when that came with a transaction
    hash, the transaction was seen confirmed before the swap. *)
Theorem swap_follows_approval (swap : RebalanceUtils.SwapOperation)
    (ethAddress pkpPublicKey : string) (t : Trace) :
  submitted (snd (SwapUtils.executeSwap env swap ethAddress pkpPublicKey t))
  <> submitted t ->
  let tokenAddress := RebalanceUtils.tokenInAddress swap in
  let amount := RebalanceUtils.amountInTokens swap in
  approvalAnswer env t tokenAddress amount ethAddress = Js.Ok None
  \/ exists approvalTxHash,
       approvalAnswer env t tokenAddress amount ethAddress = Js.Ok (Some approvalTxHash)
       /\ (approvalTxHash = ""
           \/ confirmed env (t ++ [Approval tokenAddress amount ethAddress;
                                   AwaitReceipt approvalTxHash])%list approvalTxHash
              = true).
Proof.
  intros Hsub tokenAddress amount. subst tokenAddress amount.
  unfold SwapUtils.executeSwap, tryCatch in Hsub. unfold bind at 1 in Hsub.
  unfold SwapUtils.handleTokenApproval, bind at 1, call in Hsub.
  destruct (approvalAnswer env t _ _ ethAddress) as [[h|]|x];
    [|left; reflexivity|exfalso; apply Hsub; reflexivity].
  right. exists h. split; [reflexivity|].
  unfold bind at 1, emit, ret in Hsub. unfold bind at 1 in Hsub.
  destruct (String.eqb h "") eqn:Hempty; [left; apply String.eqb_eq; exact Hempty|].
  right. unfold SwapUtils.waitForTransaction, bind, emit, ask, ret, throw in Hsub.
  rewrite <- app_assoc in Hsub. cbn [app] in Hsub.
  destruct (confirmed env _ h); [reflexivity|].
  exfalso. apply Hsub. cbn [snd]. unfold submitted. rewrite flat_map_app. cbn [flat_map].
  rewrite app_nil_r. reflexivity.
Qed.

End QuietRebalancing.

Lemma swap_follows_approval_witness :
  World.approvalAnswer ExecutorExample.venue [] "0xA" 10000000 "0x1" = Js.Ok None
  \/ exists approvalTxHash,
       World.approvalAnswer ExecutorExample.venue [] "0xA" 10000000 "0x1"
       = Js.Ok (Some approvalTxHash)
       /\ (approvalTxHash = ""
           \/ World.confirmed ExecutorExample.venue
                ([] ++ [World.Approval "0xA" 10000000 "0x1";
                        World.AwaitReceipt approvalTxHash])%list approvalTxHash
              = true).
Proof.
  apply (swap_follows_approval ExecutorExample.venue ExecutorExample.s1 "0x1" "0x04" []).
  vm_compute. intro H. discriminate H.
Defined.

(* ================================================================== *)
(** ** What the [needsRebalance] flags decide *)
(* ================================================================== *)

Section Flags.
Import BalanceUtils RebalanceUtils.

Lemma fold_sum_map (A B : Type) (f : B -> Q) (g : A -> B) (l : list A) :
  forall acc, fold_left (fun sum x => sum + f x) (map g l) acc
              = fold_left (fun sum x => sum + f (g x)) l acc.
Proof.
  induction l as [|x l IH]; intro acc; [reflexivity|]. cbn [map fold_left]. apply IH.
Qed.

Lemma findAllocation_flagged (allocs : list PortfolioAllocation) (sym : string) :
  findAllocation (map flagged allocs) sym = option_map flagged (findAllocation allocs sym).
Proof.
  unfold findAllocation. induction allocs as [|a l IH]; [reflexivity|].
  cbn [map find flagged asset]. destruct (String.eqb (symbol (asset a)) sym); [reflexivity|].
  exact IH.
Qed.

Lemma buyStep_flagged (allocs : list PortfolioAllocation) (b : Trade) (st : LoopState) :
  buyStep (map flagged allocs) b st = buyStep allocs b st.
Proof.
  unfold buyStep. destruct st as [toSell swaps].
  destruct (reduceMax toSell) as [[i s]|x]; cbn [Js.bind]; [|reflexivity].
  destruct (Js.gt (difference s) (1 # 100)); [|reflexivity].
  rewrite !findAllocation_flagged.
  destruct (findAllocation allocs (tv_symbol (base s))) as [sa|]; [|reflexivity].
  destruct (findAllocation allocs (tv_symbol (base b))) as [ba|]; reflexivity.
Qed.

Lemma buyLoop_flagged (allocs : list PortfolioAllocation) (toBuy : list Trade) :
  forall st, buyLoop (map flagged allocs) toBuy st = buyLoop allocs toBuy st.
Proof.
  induction toBuy as [|b rest IH]; intro st; [reflexivity|].
  cbn [buyLoop]. rewrite buyStep_flagged.
  destruct (buyStep allocs b st) as [st'|x]; cbn [Js.bind]; [apply IH | reflexivity].
Qed.

(** X21.  The [needsRebalance] flags only decide whether a plan is made.  As
    soon as one allocation is flagged, the plan is the one the planner would
    make with every allocation flagged: an asset within the tolerance is
    traded like any other. *)
Theorem flags_only_gate (allocs : list PortfolioAllocation) :
  existsb needsRebalance allocs = true ->
  calculateRebalanceSwaps allocs = calculateRebalanceSwaps (map flagged allocs).
Proof.
  intro Hflag. unfold calculateRebalanceSwaps.
  assert (Htotal : Js.sumOf currentValueUSD (map flagged allocs)
                   = Js.sumOf currentValueUSD allocs).
  { unfold Js.sumOf. rewrite fold_sum_map. reflexivity. }
  rewrite Htotal.
  destruct (Js.strictEq (Js.sumOf currentValueUSD allocs) 0); [reflexivity|].
  assert (H1 : (List.length (filter needsRebalance allocs) =? 0)%nat = false).
  { apply existsb_exists in Hflag. destruct Hflag as [a [Ha Hn]].
    destruct (filter needsRebalance allocs) as [|f fs] eqn:Hf; [|reflexivity].
    assert (Hin : In a (filter needsRebalance allocs)) by (apply filter_In; split; assumption).
    rewrite Hf in Hin. destruct Hin. }
  assert (H2 : (List.length (filter needsRebalance (map flagged allocs)) =? 0)%nat = false).
  { destruct allocs as [|a l]; [discriminate Hflag|]. reflexivity. }
  rewrite H1, H2.
  assert (Hem : emittedSwaps (map flagged allocs) (Js.sumOf currentValueUSD allocs)
                = emittedSwaps allocs (Js.sumOf currentValueUSD allocs)).
  { unfold emittedSwaps.
    assert (Htv : targetValuesUSD (map flagged allocs) (Js.sumOf currentValueUSD allocs)
                  = targetValuesUSD allocs (Js.sumOf currentValueUSD allocs)).
    { unfold targetValuesUSD. rewrite map_map. apply map_ext. intro a. reflexivity. }
    rewrite Htv, buyLoop_flagged. reflexivity. }
  rewrite Hem. reflexivity.
Qed.

Lemma flags_only_gate_witness :
  map needsRebalance PlannerExample.withinTolerance = [true; true; false]
  /\ calculateRebalanceSwaps PlannerExample.withinTolerance
     = calculateRebalanceSwaps (map flagged PlannerExample.withinTolerance)
  /\ match calculateRebalanceSwaps PlannerExample.withinTolerance with
     | Js.Ok plan =>
         map PlannerExample.summary (swaps plan)
         = [ ("A", "B", 497, 497000000%Z); ("A", "C", 3 # 1, 3000000%Z) ]
     | Js.Throw _ => False
     end.
Proof.
  split; [reflexivity|]. split.
  - apply (flags_only_gate PlannerExample.withinTolerance). reflexivity.
  - vm_compute. reflexivity.
Defined.

End Flags.
